(** * DiDh: the real-time negotiation layer

    A shallow embedding of the WebSocket negotiation protocol of the
    marketplace: the server side of [server/routes.ts] (connection
    handshake, frame dispatch, negotiation handlers, presence, cleanup),
    the storage operations of [server/storage.ts] it calls, the frame
    schema of [shared/schema.ts], and the client session manager
    [NegotiationWebSocket] of [client/src/lib/ws.ts].

    Conventions of the embedding.
    - An [async] handler is a state transformer over a [World] that either
      completes or throws; one handler runs to completion before the next
      event is taken (the interleaving of two handlers at their [await]s is
      not modelled).
    - Every effect a handler has on the outside (a frame handed to
      [ws.send], a [ws.close], a storage call that returned or threw) is
      appended to the world's [log], in program order.
    - The storage collaborator may throw at any call.  Which calls throw is
      decided by an oracle, the list [faults]: every storage call consumes
      its head, [true] meaning that this call throws (for whatever reason:
      lost connection, constraint violation).  An exhausted oracle means
      that no further call throws.
    - A JavaScript [number] carried by a frame is an integer [Z] here;
      [new Date()] reads the world's [clock]; SQL tables are lists of rows
      in scan order; [gen_random_uuid()] is a fresh-identifier supply. *)

From stdpp Require Import base list strings option gmap pretty.
From Stdlib Require Import ZArith Lia.

Open Scope string_scope.
Open Scope list_scope.

(** ** JavaScript [Set] and [Map], in insertion order *)

Module Js.

Section JsSet.
Context {A : Type} `{EqDecision A}.

Definition set_has (x : A) (s : list A) : bool := bool_decide (x ∈ s).

Definition set_add (x : A) (s : list A) : list A :=
    if set_has x s then s else s ++ [x].

Definition set_delete (x : A) (s : list A) : list A :=
    filter (λ y, y ≠ x) s.

Definition set_size (s : list A) : nat := length s.
End JsSet.

Section JsMap.
Context {V : Type}.

Fixpoint map_get (k : string) (m : list (string * V)) : option V :=
    match m with
    | [] => None
    | (k', v) :: m' => if decide (k' = k) then Some v else map_get k m'
    end.

Definition map_has (k : string) (m : list (string * V)) : bool :=
    bool_decide (is_Some (map_get k m)).

Fixpoint map_set (k : string) (v : V) (m : list (string * V))
    : list (string * V) :=
    match m with
    | [] => [(k, v)]
    | (k', v') :: m' =>
        if decide (k' = k) then (k, v) :: m' else (k', v') :: map_set k v m'
    end.

Definition map_delete (k : string) (m : list (string * V))
    : list (string * V) :=
    filter (λ kv, kv.1 ≠ k) m.

Definition map_keys (m : list (string * V)) : list string := m.*1.
End JsMap.

End Js.

(** ** Data model *)

Definition ConnId := nat.

Inductive ReadyState := CONNECTING | OPEN | CLOSING | CLOSED.

#[global] Instance ReadyState_eq_dec : EqDecision ReadyState.
Proof. solve_decision. Defined.

(** [AuthenticatedWebSocket]: the two optional fields the server attaches,
    the transport's [readyState], and whether the [message] / [close] /
    [error] listeners have been installed (they are installed together). *)
Record Socket := {
  ws_userId : option string;
  ws_isAuthenticated : bool;
  ws_readyState : ReadyState;
  ws_listening : bool
}.

Definition fresh_socket : Socket :=
  {| ws_userId := None; ws_isAuthenticated := false;
     ws_readyState := OPEN; ws_listening := false |}.

(** JavaScript truthiness of an optional string: [undefined] and the empty
    string are falsy. *)
Definition truthy (s : option string) : bool :=
  match s with
  | Some s => negb (bool_decide (s = ""))
  | None => false
  end.

(** Rows of [negotiations], [negotiation_messages] and [users]
    ([shared/schema.ts]); columns the negotiation layer never reads or
    writes are left out. *)
Record Negotiation := {
  neg_id : string;
  neg_productId : string;
  neg_buyerId : string;
  neg_sellerId : string;
  neg_status : option string;
  neg_currentOffer : option string;
  neg_updatedAt : option nat
}.

Inductive MessageType := Chat | Offer | Counter | Accept | Reject | Status.

#[global] Instance MessageType_eq_dec : EqDecision MessageType.
Proof. solve_decision. Defined.

Record InsertNegotiationMessage := {
  ins_negotiationId : string;
  ins_senderId : string;
  ins_messageType : MessageType;
  ins_content : option string;
  ins_amount : option string
}.

Record NegotiationMessage := {
  msg_id : string;
  msg_negotiationId : string;
  msg_senderId : string;
  msg_messageType : MessageType;
  msg_content : option string;
  msg_amount : option string;
  msg_createdAt : nat
}.

Record User := {
  user_id : string;
  user_username : option string;
  user_isOnline : option bool;
  user_lastSeen : option nat;
  user_updatedAt : option nat
}.

Record PresenceRow := {
  pr_id : string;
  pr_username : string;
  pr_isOnline : bool;
  pr_lastSeen : option nat
}.

(** The payload of a [jwt.verify] that did not throw. *)
Record DecodedToken := {
  tok_userId : option string;
  tok_username : option string
}.

(** ** Frames *)

(** A parsed inbound text frame ([JSON.parse]).  Numbers are the whole
    ones; JSON text carries neither [Infinity] nor [NaN]. *)
#[local] Unset Elimination Schemes.
Inductive json :=
| JNull
| JBool (b : bool)
| JNum (z : Z)
| JStr (s : string)
| JArr (l : list json)
| JObj (fields : list (string * json)).
#[local] Set Elimination Schemes.

(** [z.infer<typeof wsMessageSchema>]: the closed union of inbound kinds. *)
Inductive WSMessage :=
| join_negotiation (negotiationId : string)
| leave_negotiation (negotiationId : string)
| negotiation_message (negotiationId content : string)
| negotiation_offer (negotiationId : string) (amount : Z) (message : option string)
| negotiation_counter (negotiationId : string) (amount : Z) (message : option string)
| negotiation_accept (negotiationId : string)
| negotiation_reject (negotiationId : string) (message : option string)
| negotiation_status (negotiationId status : string)
| presence_update (userId : string) (isOnline : bool)
| request_presence (userIds : option (list string)).

(** The [message] object of a [negotiation_update] broadcast. *)
Record UpdateMessage := {
  um_id : string;
  um_senderId : string;
  um_senderName : string;
  um_messageType : MessageType;
  um_content : string;
  um_amount : option Z;
  um_createdAt : nat
}.

(** Outbound frames, one constructor per [type] the server sends. *)
Inductive Frame :=
| ConnectionConfirmed (userId : string) (username : option string) (timestamp : nat)
| ErrorFrame (message : string)
| NegotiationJoined (negotiationId : string) (timestamp : nat)
| NegotiationLeft (negotiationId : string) (timestamp : nat)
| NegotiationUpdate (negotiationId : string) (message : UpdateMessage)
| PresenceUpdate (userId : string) (username : option string) (isOnline : bool) (lastSeen : nat)
| PresenceUpdated (userId : string) (isOnline : bool) (timestamp : nat)
| PresenceData (users : list PresenceRow) (timestamp : nat)
| NegotiationStatusUpdate (negotiationId status changedBy changedByName : string)
    (timestamp : nat) (context : option string).

(** ** Effects *)

Inductive DbCall :=
| GetNegotiation (id : string)
| UpdateNegotiation (id currentOffer : string)
| UpdateNegotiationStatus (id status : string)
| CreateMessage (row : InsertNegotiationMessage)
| GetUser (id : string)
| UpdateUserOnlineStatus (id : string) (isOnline : bool)
| SetUserLastSeen (id : string)
| GetUsersOnlineStatus (ids : list string).

Inductive Event :=
| EvSend (ws : ConnId) (f : Frame)
| EvClose (ws : ConnId) (code : Z) (reason : string)
| EvRefuse (ws : ConnId) (httpStatus : Z)
| EvDb (call : DbCall)
| EvDbThrew (call : DbCall).

Record World := {
  userSockets : list (string * list ConnId);
  negotiationRooms : list (string * list ConnId);
  sockets : gmap ConnId Socket;
  negotiations : list Negotiation;
  negotiationMessages : list NegotiationMessage;
  users : list User;
  faults : list bool;
  clock : nat;
  log : list Event
}.

Definition with_userSockets (v : list (string * list ConnId)) (w : World) : World :=
  {| userSockets := v; negotiationRooms := negotiationRooms w;
     sockets := sockets w; negotiations := negotiations w;
     negotiationMessages := negotiationMessages w; users := users w;
     faults := faults w; clock := clock w; log := log w |}.

Definition with_negotiationRooms (v : list (string * list ConnId)) (w : World) : World :=
  {| userSockets := userSockets w; negotiationRooms := v;
     sockets := sockets w; negotiations := negotiations w;
     negotiationMessages := negotiationMessages w; users := users w;
     faults := faults w; clock := clock w; log := log w |}.

Definition with_sockets (v : gmap ConnId Socket) (w : World) : World :=
  {| userSockets := userSockets w; negotiationRooms := negotiationRooms w;
     sockets := v; negotiations := negotiations w;
     negotiationMessages := negotiationMessages w; users := users w;
     faults := faults w; clock := clock w; log := log w |}.

Definition with_negotiations (v : list Negotiation) (w : World) : World :=
  {| userSockets := userSockets w; negotiationRooms := negotiationRooms w;
     sockets := sockets w; negotiations := v;
     negotiationMessages := negotiationMessages w; users := users w;
     faults := faults w; clock := clock w; log := log w |}.

Definition with_negotiationMessages (v : list NegotiationMessage) (w : World) : World :=
  {| userSockets := userSockets w; negotiationRooms := negotiationRooms w;
     sockets := sockets w; negotiations := negotiations w;
     negotiationMessages := v; users := users w;
     faults := faults w; clock := clock w; log := log w |}.

Definition with_users (v : list User) (w : World) : World :=
  {| userSockets := userSockets w; negotiationRooms := negotiationRooms w;
     sockets := sockets w; negotiations := negotiations w;
     negotiationMessages := negotiationMessages w; users := v;
     faults := faults w; clock := clock w; log := log w |}.

Definition with_faults (v : list bool) (w : World) : World :=
  {| userSockets := userSockets w; negotiationRooms := negotiationRooms w;
     sockets := sockets w; negotiations := negotiations w;
     negotiationMessages := negotiationMessages w; users := users w;
     faults := v; clock := clock w; log := log w |}.

Definition with_clock (v : nat) (w : World) : World :=
  {| userSockets := userSockets w; negotiationRooms := negotiationRooms w;
     sockets := sockets w; negotiations := negotiations w;
     negotiationMessages := negotiationMessages w; users := users w;
     faults := faults w; clock := v; log := log w |}.

Definition with_log (v : list Event) (w : World) : World :=
  {| userSockets := userSockets w; negotiationRooms := negotiationRooms w;
     sockets := sockets w; negotiations := negotiations w;
     negotiationMessages := negotiationMessages w; users := users w;
     faults := faults w; clock := clock w; log := v |}.

(** An [async] computation: it completes with a value or throws. *)
Inductive Completion (A : Type) :=
| Normal (a : A)
| Thrown.
Arguments Normal {A} a.
Arguments Thrown {A}.

Definition Async (A : Type) : Type := World → Completion A * World.

Definition ret {A} (a : A) : Async A := λ w, (Normal a, w).

Definition bind {A B} (m : Async A) (k : A → Async B) : Async B :=
  λ w, match m w with
       | (Normal a, w') => k a w'
       | (Thrown, w') => (Thrown, w')
       end.

Definition throw {A} : Async A := λ w, (Thrown, w).

(** [try { body } catch (error) { handler }] *)
Definition try_catch {A} (body handler : Async A) : Async A :=
  λ w, match body w with
       | (Normal a, w') => (Normal a, w')
       | (Thrown, w') => handler w'
       end.

Declare Scope async_scope.
Delimit Scope async_scope with async.
Notation "x <- m ;; k" := (bind m (λ x, k))
  (at level 100, m at next level, right associativity) : async_scope.
Notation "m ;;; k" := (bind m (λ _, k))
  (at level 100, right associativity) : async_scope.
Open Scope async_scope.

Definition emit (e : Event) : Async unit :=
  λ w, (Normal (), with_log (log w ++ [e]) w).

Definition now : Async nat := λ w, (Normal (clock w), w).

Definition exec {A} (m : Async A) (w : World) : World := (m w).2.

Definition gets {A} (f : World → A) : Async A := λ w, (Normal (f w), w).

Definition modify (f : World → World) : Async unit := λ w, (Normal (), f w).

(** [list.forEach(f)] *)
Fixpoint forEach {A} (l : list A) (f : A → Async unit) : Async unit :=
  match l with
  | [] => ret ()
  | x :: l' => f x ;;; forEach l' f
  end.

(** [value || fallback] on an optional string. *)
Definition or_else (value : option string) (fallback : string) : string :=
  match value with
  | Some s => if bool_decide (s = "") then fallback else s
  | None => fallback
  end.

(** ** The storage collaborator ([DatabaseStorage]) *)

Module Storage.

(** One call into the database: the oracle decides whether it throws;
    otherwise [run] is the query. *)
Definition db_call {A} (call : DbCall) (run : World → A * World) : Async A :=
  λ w,
    let w1 := with_faults (tail (faults w)) w in
    if default false (head (faults w))
    then (Thrown, with_log (log w1 ++ [EvDbThrew call]) w1)
    else let '(a, w2) := run w1 in
         (Normal a, with_log (log w2 ++ [EvDb call]) w2).

Definition select_negotiation (id : string) (rows : list Negotiation)
  : option Negotiation :=
  head (filter (λ n, neg_id n = id) rows).

Definition select_user (id : string) (rows : list User) : option User :=
  head (filter (λ u, user_id u = id) rows).

Definition getUser (id : string) : Async (option User) :=
  db_call (GetUser id) (λ w, (select_user id (users w), w)).

Definition getNegotiation (id : string) : Async (option Negotiation) :=
  db_call (GetNegotiation id) (λ w, (select_negotiation id (negotiations w), w)).

(** [db.update(table).set(...).where(eq(table.id, id)).returning()] *)
Definition update_where {R} (key : R → string) (id : string) (set : R → R)
    (rows : list R) : list R :=
  (λ r, if decide (key r = id) then set r else r) <$> rows.

Definition set_offer (currentOffer : string) (updatedAt : nat) (n : Negotiation)
  : Negotiation :=
  {| neg_id := neg_id n; neg_productId := neg_productId n;
     neg_buyerId := neg_buyerId n; neg_sellerId := neg_sellerId n;
     neg_status := neg_status n; neg_currentOffer := Some currentOffer;
     neg_updatedAt := Some updatedAt |}.

Definition set_status (status : string) (updatedAt : nat) (n : Negotiation)
  : Negotiation :=
  {| neg_id := neg_id n; neg_productId := neg_productId n;
     neg_buyerId := neg_buyerId n; neg_sellerId := neg_sellerId n;
     neg_status := Some status; neg_currentOffer := neg_currentOffer n;
     neg_updatedAt := Some updatedAt |}.

(** [updateNegotiation(id, { currentOffer, updatedAt })], the only shape of
    update the negotiation layer issues. *)
Definition updateNegotiation (id currentOffer : string) (updatedAt : nat)
  : Async (option Negotiation) :=
  db_call (UpdateNegotiation id currentOffer) (λ w,
    let rows := update_where neg_id id (set_offer currentOffer updatedAt)
                  (negotiations w) in
    (select_negotiation id rows, with_negotiations rows w)).

Definition updateNegotiationStatus (id status : string)
  : Async (option Negotiation) :=
  db_call (UpdateNegotiationStatus id status) (λ w,
    let rows := update_where neg_id id (set_status status (clock w))
                  (negotiations w) in
    (select_negotiation id rows, with_negotiations rows w)).

Definition new_message (id : string) (createdAt : nat)
    (message : InsertNegotiationMessage) : NegotiationMessage :=
  {| msg_id := id; msg_negotiationId := ins_negotiationId message;
     msg_senderId := ins_senderId message;
     msg_messageType := ins_messageType message;
     msg_content := ins_content message; msg_amount := ins_amount message;
     msg_createdAt := createdAt |}.

Definition createMessage (message : InsertNegotiationMessage)
  : Async NegotiationMessage :=
  db_call (CreateMessage message) (λ w,
    let row := new_message (pretty (length (negotiationMessages w))) (clock w)
                 message in
    (row, with_negotiationMessages (negotiationMessages w ++ [row]) w)).

Definition set_online (isOnline : bool) (t : nat) (u : User) : User :=
  {| user_id := user_id u; user_username := user_username u;
     user_isOnline := Some isOnline; user_lastSeen := Some t;
     user_updatedAt := Some t |}.

Definition set_lastSeen (t : nat) (u : User) : User :=
  {| user_id := user_id u; user_username := user_username u;
     user_isOnline := user_isOnline u; user_lastSeen := Some t;
     user_updatedAt := Some t |}.

Definition updateUserOnlineStatus (userId : string) (isOnline : bool)
  : Async (option User) :=
  db_call (UpdateUserOnlineStatus userId isOnline) (λ w,
    let rows := update_where user_id userId (set_online isOnline (clock w))
                  (users w) in
    (select_user userId rows, with_users rows w)).

Definition setUserLastSeen (userId : string) : Async (option User) :=
  db_call (SetUserLastSeen userId) (λ w,
    let rows := update_where user_id userId (set_lastSeen (clock w)) (users w) in
    (select_user userId rows, with_users rows w)).

Definition presence_row (u : User) : PresenceRow :=
  {| pr_id := user_id u;
     pr_username := or_else (user_username u) "Unknown";
     pr_isOnline := default false (user_isOnline u);
     pr_lastSeen := user_lastSeen u |}.

Definition getUsersOnlineStatus (userIds : list string)
  : Async (list PresenceRow) :=
  if decide (length userIds = 0%nat) then ret []
  else db_call (GetUsersOnlineStatus userIds) (λ w,
         (presence_row <$> filter (λ u, user_id u ∈ userIds) (users w), w)).

End Storage.

(** ** The frame schema ([wsMessageSchema]) *)

Module Schema.

Definition field (k : string) (o : list (string * json)) : option json :=
  snd <$> head (filter (λ kv, kv.1 = k) o).

(** [z.string()] *)
Definition z_string (k : string) (o : list (string * json)) : option string :=
  match field k o with
  | Some (JStr s) => Some s
  | _ => None
  end.

(** [z.string().optional()]: absent, or a string. *)
Definition z_string_optional (k : string) (o : list (string * json))
  : option (option string) :=
  match field k o with
  | None => Some None
  | Some (JStr s) => Some (Some s)
  | Some _ => None
  end.

(** [z.string().min(1).max(1000)] *)
Definition z_content (k : string) (o : list (string * json)) : option string :=
  match z_string k o with
  | Some s =>
      if bool_decide (1 ≤ String.length s ≤ 1000)%nat then Some s else None
  | None => None
  end.

(** [z.number().positive()] *)
Definition z_positive (k : string) (o : list (string * json)) : option Z :=
  match field k o with
  | Some (JNum z) => if bool_decide (0 < z)%Z then Some z else None
  | _ => None
  end.

(** [z.enum(["active", "completed", "cancelled"])] *)
Definition z_status (k : string) (o : list (string * json)) : option string :=
  match z_string k o with
  | Some s =>
      if bool_decide (s ∈ ["active"; "completed"; "cancelled"]) then Some s
      else None
  | None => None
  end.

Definition z_boolean (k : string) (o : list (string * json)) : option bool :=
  match field k o with
  | Some (JBool b) => Some b
  | _ => None
  end.

Definition as_string (j : json) : option string :=
  match j with
  | JStr s => Some s
  | _ => None
  end.

(** [z.array(z.string()).optional()] *)
Definition z_strings_optional (k : string) (o : list (string * json))
  : option (option (list string)) :=
  match field k o with
  | None => Some None
  | Some (JArr l) => Some <$> mapM as_string l
  | Some _ => None
  end.

(** The literals of the discriminator, in the order of the union. *)
Definition known_types : list string :=
  [ "join_negotiation"; "leave_negotiation"; "negotiation_message";
    "negotiation_offer"; "negotiation_counter"; "negotiation_accept";
    "negotiation_reject"; "negotiation_status"; "presence_update";
    "request_presence" ].

(** [wsMessageSchema.parse(message)]: [None] when it throws a [ZodError].
    A discriminated union reads the discriminator first and rejects a value
    whose [type] is none of the literals; unknown keys are stripped. *)
Definition wsMessageSchema_parse (message : json) : option WSMessage :=
  match message with
  | JObj o =>
      match z_string "type" o with
      | Some t =>
          if decide (t = "join_negotiation") then
            join_negotiation <$> z_string "negotiationId" o
          else if decide (t = "leave_negotiation") then
            leave_negotiation <$> z_string "negotiationId" o
          else if decide (t = "negotiation_message") then
            id ← z_string "negotiationId" o;
            c ← z_content "content" o;
            Some (negotiation_message id c)
          else if decide (t = "negotiation_offer") then
            id ← z_string "negotiationId" o;
            a ← z_positive "amount" o;
            m ← z_string_optional "message" o;
            Some (negotiation_offer id a m)
          else if decide (t = "negotiation_counter") then
            id ← z_string "negotiationId" o;
            a ← z_positive "amount" o;
            m ← z_string_optional "message" o;
            Some (negotiation_counter id a m)
          else if decide (t = "negotiation_accept") then
            negotiation_accept <$> z_string "negotiationId" o
          else if decide (t = "negotiation_reject") then
            id ← z_string "negotiationId" o;
            m ← z_string_optional "message" o;
            Some (negotiation_reject id m)
          else if decide (t = "negotiation_status") then
            id ← z_string "negotiationId" o;
            s ← z_status "status" o;
            Some (negotiation_status id s)
          else if decide (t = "presence_update") then
            u ← z_string "userId" o;
            b ← z_boolean "isOnline" o;
            Some (presence_update u b)
          else if decide (t = "request_presence") then
            request_presence <$> z_strings_optional "userIds" o
          else None
      | None => None
      end
  | _ => None
  end.

Arguments wsMessageSchema_parse : simpl never.

(** [message.type] of the raw frame, when it is a string. *)
Definition raw_type (message : json) : option string :=
  match message with
  | JObj o => z_string "type" o
  | _ => None
  end.

End Schema.

(** ** Frames on the wire *)

Module Wire.

(** A key whose value is [undefined] is left out by [JSON.stringify]. *)
Definition optional (k : string) (v : option json) : list (string * json) :=
  match v with
  | Some j => [(k, j)]
  | None => []
  end.

(** [JSON.parse(JSON.stringify(validatedMessage))]: what the server reads
    of a validated message the client has handed to its socket.  The
    amounts of the model are finite; a number that is not is written
    [null] by [JSON.stringify]. *)
Definition stringify (m : WSMessage) : json :=
  match m with
  | join_negotiation negotiationId =>
      JObj [("type", JStr "join_negotiation"); ("negotiationId", JStr negotiationId)]
  | leave_negotiation negotiationId =>
      JObj [("type", JStr "leave_negotiation"); ("negotiationId", JStr negotiationId)]
  | negotiation_message negotiationId content =>
      JObj [("type", JStr "negotiation_message");
            ("negotiationId", JStr negotiationId); ("content", JStr content)]
  | negotiation_offer negotiationId amount message =>
      JObj ([("type", JStr "negotiation_offer");
             ("negotiationId", JStr negotiationId); ("amount", JNum amount)]
            ++ optional "message" (JStr <$> message))
  | negotiation_counter negotiationId amount message =>
      JObj ([("type", JStr "negotiation_counter");
             ("negotiationId", JStr negotiationId); ("amount", JNum amount)]
            ++ optional "message" (JStr <$> message))
  | negotiation_accept negotiationId =>
      JObj [("type", JStr "negotiation_accept"); ("negotiationId", JStr negotiationId)]
  | negotiation_reject negotiationId message =>
      JObj ([("type", JStr "negotiation_reject");
             ("negotiationId", JStr negotiationId)]
            ++ optional "message" (JStr <$> message))
  | negotiation_status negotiationId status =>
      JObj [("type", JStr "negotiation_status");
            ("negotiationId", JStr negotiationId); ("status", JStr status)]
  | presence_update userId isOnline =>
      JObj [("type", JStr "presence_update"); ("userId", JStr userId);
            ("isOnline", JBool isOnline)]
  | request_presence userIds =>
      JObj ([("type", JStr "request_presence")]
            ++ optional "userIds" ((λ l, JArr (JStr <$> l)) <$> userIds))
  end.

End Wire.

(** ** The server ([server/routes.ts]) *)

Module Server.
Import Js Storage Schema.

Definition socket_of (ws : ConnId) (w : World) : Socket :=
  default fresh_socket (sockets w !! ws).

(** [ws.send(JSON.stringify(frame))] *)
Definition ws_send (ws : ConnId) (f : Frame) : Async unit := emit (EvSend ws f).

(** [ws.close(code, reason)]: the socket starts closing. *)
Definition ws_close (ws : ConnId) (code : Z) (reason : string) : Async unit :=
  modify (λ w, with_sockets
    (<[ws := {| ws_userId := ws_userId (socket_of ws w);
                ws_isAuthenticated := ws_isAuthenticated (socket_of ws w);
                ws_readyState := CLOSING;
                ws_listening := ws_listening (socket_of ws w) |}]> (sockets w)) w) ;;;
  emit (EvClose ws code reason).

(** [if (socket.readyState === WebSocket.OPEN) socket.send(...)] *)
Definition send_if_open (f : Frame) (socket : ConnId) : Async unit :=
  λ w, if decide (ws_readyState (socket_of socket w) = OPEN)
       then ws_send socket f w
       else ret () w.

Definition broadcastToUser (userId : string) (message : Frame) : Async unit :=
  λ w, match map_get userId (userSockets w) with
       | Some userSocketSet => forEach userSocketSet (send_if_open message) w
       | None => ret () w
       end.

Definition broadcastToNegotiation (negotiationId : string) (message : Frame)
  : Async unit :=
  λ w, match map_get negotiationId (negotiationRooms w) with
       | Some room => forEach room (send_if_open message) w
       | None => ret () w
       end.

Definition getConnectedUsers (w : World) : list string :=
  map_keys (userSockets w).

Definition isUserConnected (userId : string) (w : World) : bool :=
  match map_get userId (userSockets w) with
  | Some userSocketSet => bool_decide (0 < set_size userSocketSet)%nat
  | None => false
  end.

Definition broadcastNegotiationUpdate (negotiationId : string)
    (message : UpdateMessage) : Async unit :=
  broadcastToNegotiation negotiationId (NegotiationUpdate negotiationId message).

(** The body never throws, so its [try]/[catch] is not shown. *)
Definition broadcastPresenceUpdate (userId : string) (username : option string)
    (isOnline : bool) : Async unit :=
  lastSeen <- now ;;
  all <- gets userSockets ;;
  forEach all (λ entry,
    if decide (entry.1 ≠ userId)
    then forEach entry.2
           (send_if_open (PresenceUpdate userId username isOnline lastSeen))
    else ret ()).

Definition broadcastNegotiationStatusUpdate (negotiationId status changedBy : string)
    (context : option string) : Async unit :=
  try_catch
    (negotiation <- getNegotiation negotiationId ;;
     match negotiation with
     | None => ret ()
     | Some negotiation =>
         changedByUser <- getUser changedBy ;;
         timestamp <- now ;;
         let statusMessage :=
           NegotiationStatusUpdate negotiationId status changedBy
             (or_else (changedByUser ≫= user_username) "Unknown")
             timestamp context in
         forEach [neg_buyerId negotiation; neg_sellerId negotiation]
           (λ participantId, broadcastToUser participantId statusMessage)
     end)
    (ret ()).

(** The result of [validateNegotiationAccess]: [inl error] stands for
    [{ success: false, error }], [inr negotiation] for
    [{ success: true, negotiation }]. *)
Definition validateNegotiationAccess (userId negotiationId : string)
  : Async (string + Negotiation) :=
  negotiation <- getNegotiation negotiationId ;;
  match negotiation with
  | None => ret (inl "Negotiation not found")
  | Some negotiation =>
      if bool_decide (neg_status negotiation = Some "completed")
         || bool_decide (neg_status negotiation = Some "cancelled")
      then ret (inl "Cannot modify completed or cancelled negotiation")
      else if bool_decide (neg_buyerId negotiation ≠ userId)
              && bool_decide (neg_sellerId negotiation ≠ userId)
      then ret (inl "Access denied to this negotiation")
      else ret (inr negotiation)
  end.

(** [ws.userId!] *)
Definition userId_of (ws : ConnId) : Async string :=
  gets (λ w, default "" (ws_userId (socket_of ws w))).

Definition handleJoinNegotiation (ws : ConnId) (negotiationId : option string)
  : Async unit :=
  uid <- gets (λ w, ws_userId (socket_of ws w)) ;;
  if negb (truthy negotiationId) || negb (truthy uid)
  then ws_send ws (ErrorFrame "Invalid negotiation ID")
  else
    let negotiationId := default "" negotiationId in
    try_catch
      (negotiation <- getNegotiation negotiationId ;;
       match negotiation with
       | None => ws_send ws (ErrorFrame "Negotiation not found")
       | Some negotiation =>
           if bool_decide (Some (neg_buyerId negotiation) ≠ uid)
              && bool_decide (Some (neg_sellerId negotiation) ≠ uid)
           then ws_send ws (ErrorFrame "Access denied to this negotiation")
           else
             modify (λ w,
               if map_has negotiationId (negotiationRooms w) then w
               else with_negotiationRooms
                      (map_set negotiationId [] (negotiationRooms w)) w) ;;;
             modify (λ w, with_negotiationRooms
               (map_set negotiationId
                  (set_add ws (default [] (map_get negotiationId (negotiationRooms w))))
                  (negotiationRooms w)) w) ;;;
             timestamp <- now ;;
             ws_send ws (NegotiationJoined negotiationId timestamp)
       end)
      (ws_send ws (ErrorFrame "Failed to join negotiation")).

Definition handleLeaveNegotiation (ws : ConnId) (negotiationId : option string)
  : Async unit :=
  if negb (truthy negotiationId) then ret ()
  else
    let negotiationId := default "" negotiationId in
    modify (λ w,
      match map_get negotiationId (negotiationRooms w) with
      | Some room =>
          let room' := set_delete ws room in
          if decide (set_size room' = 0%nat)
          then with_negotiationRooms (map_delete negotiationId (negotiationRooms w)) w
          else with_negotiationRooms (map_set negotiationId room' (negotiationRooms w)) w
      | None => w
      end) ;;;
    timestamp <- now ;;
    ws_send ws (NegotiationLeft negotiationId timestamp).

Definition senderName (sender : option User) : string :=
  or_else (sender ≫= user_username) "Unknown".

Definition handleNegotiationMessage (ws : ConnId) (negotiationId content : string)
  : Async unit :=
  try_catch
    (userId <- userId_of ws ;;
     accessCheck <- validateNegotiationAccess userId negotiationId ;;
     match accessCheck with
     | inl error => ws_send ws (ErrorFrame error)
     | inr _ =>
         message <- createMessage
           {| ins_negotiationId := negotiationId; ins_senderId := userId;
              ins_messageType := Chat; ins_content := Some content;
              ins_amount := None |} ;;
         sender <- getUser userId ;;
         broadcastNegotiationUpdate negotiationId
           {| um_id := msg_id message; um_senderId := userId;
              um_senderName := senderName sender; um_messageType := Chat;
              um_content := content; um_amount := None;
              um_createdAt := msg_createdAt message |}
     end)
    (ws_send ws (ErrorFrame "Failed to send message")).

Definition handleNegotiationOffer (ws : ConnId) (negotiationId : string)
    (amount : Z) (message : option string) : Async unit :=
  try_catch
    (userId <- userId_of ws ;;
     accessCheck <- validateNegotiationAccess userId negotiationId ;;
     match accessCheck with
     | inl error => ws_send ws (ErrorFrame error)
     | inr negotiation =>
         if bool_decide (neg_buyerId negotiation ≠ userId)
         then ws_send ws (ErrorFrame "Only buyers can make offers")
         else
           updatedAt <- now ;;
           _ <- updateNegotiation negotiationId (pretty amount) updatedAt ;;
           let content := or_else message ("Offered $" +:+ pretty amount) in
           offerMessage <- createMessage
             {| ins_negotiationId := negotiationId; ins_senderId := userId;
                ins_messageType := Offer; ins_content := Some content;
                ins_amount := Some (pretty amount) |} ;;
           sender <- getUser userId ;;
           broadcastNegotiationUpdate negotiationId
             {| um_id := msg_id offerMessage; um_senderId := userId;
                um_senderName := senderName sender; um_messageType := Offer;
                um_content := content; um_amount := Some amount;
                um_createdAt := msg_createdAt offerMessage |}
     end)
    (ws_send ws (ErrorFrame "Failed to make offer")).

Definition handleNegotiationCounter (ws : ConnId) (negotiationId : string)
    (amount : Z) (message : option string) : Async unit :=
  try_catch
    (userId <- userId_of ws ;;
     accessCheck <- validateNegotiationAccess userId negotiationId ;;
     match accessCheck with
     | inl error => ws_send ws (ErrorFrame error)
     | inr negotiation =>
         if bool_decide (neg_sellerId negotiation ≠ userId)
         then ws_send ws (ErrorFrame "Only sellers can make counter offers")
         else
           updatedAt <- now ;;
           _ <- updateNegotiation negotiationId (pretty amount) updatedAt ;;
           let content := or_else message ("Counter offer: $" +:+ pretty amount) in
           counterMessage <- createMessage
             {| ins_negotiationId := negotiationId; ins_senderId := userId;
                ins_messageType := Counter; ins_content := Some content;
                ins_amount := Some (pretty amount) |} ;;
           sender <- getUser userId ;;
           broadcastNegotiationUpdate negotiationId
             {| um_id := msg_id counterMessage; um_senderId := userId;
                um_senderName := senderName sender; um_messageType := Counter;
                um_content := content; um_amount := Some amount;
                um_createdAt := msg_createdAt counterMessage |}
     end)
    (ws_send ws (ErrorFrame "Failed to make counter offer")).

Definition handleNegotiationAccept (ws : ConnId) (negotiationId : string)
  : Async unit :=
  try_catch
    (userId <- userId_of ws ;;
     accessCheck <- validateNegotiationAccess userId negotiationId ;;
     match accessCheck with
     | inl error => ws_send ws (ErrorFrame error)
     | inr _ =>
         _ <- updateNegotiationStatus negotiationId "completed" ;;
         acceptMessage <- createMessage
           {| ins_negotiationId := negotiationId; ins_senderId := userId;
              ins_messageType := Accept; ins_content := Some "Offer accepted!";
              ins_amount := None |} ;;
         sender <- getUser userId ;;
         broadcastNegotiationUpdate negotiationId
           {| um_id := msg_id acceptMessage; um_senderId := userId;
              um_senderName := senderName sender; um_messageType := Accept;
              um_content := "Offer accepted!"; um_amount := None;
              um_createdAt := msg_createdAt acceptMessage |}
     end)
    (ws_send ws (ErrorFrame "Failed to accept offer")).

Definition handleNegotiationReject (ws : ConnId) (negotiationId : string)
    (message : option string) : Async unit :=
  try_catch
    (userId <- userId_of ws ;;
     accessCheck <- validateNegotiationAccess userId negotiationId ;;
     match accessCheck with
     | inl error => ws_send ws (ErrorFrame error)
     | inr _ =>
         let content := or_else message "Offer rejected" in
         rejectMessage <- createMessage
           {| ins_negotiationId := negotiationId; ins_senderId := userId;
              ins_messageType := Reject; ins_content := Some content;
              ins_amount := None |} ;;
         sender <- getUser userId ;;
         broadcastNegotiationUpdate negotiationId
           {| um_id := msg_id rejectMessage; um_senderId := userId;
              um_senderName := senderName sender; um_messageType := Reject;
              um_content := content; um_amount := None;
              um_createdAt := msg_createdAt rejectMessage |}
     end)
    (ws_send ws (ErrorFrame "Failed to reject offer")).

Definition handleNegotiationStatus (ws : ConnId) (negotiationId status : string)
  : Async unit :=
  try_catch
    (userId <- userId_of ws ;;
     accessCheck <- validateNegotiationAccess userId negotiationId ;;
     match accessCheck with
     | inl error => ws_send ws (ErrorFrame error)
     | inr _ =>
         _ <- updateNegotiationStatus negotiationId status ;;
         let content := "Negotiation status changed to: " +:+ status in
         statusMessage <- createMessage
           {| ins_negotiationId := negotiationId; ins_senderId := userId;
              ins_messageType := Status;
              ins_content := Some content; ins_amount := None |} ;;
         sender <- getUser userId ;;
         broadcastNegotiationUpdate negotiationId
           {| um_id := msg_id statusMessage; um_senderId := userId;
              um_senderName := senderName sender;
              um_messageType := Status;
              um_content := content; um_amount := None;
              um_createdAt := msg_createdAt statusMessage |} ;;;
         broadcastNegotiationStatusUpdate negotiationId status userId (Some content)
     end)
    (ws_send ws (ErrorFrame "Failed to update status")).

Definition handlePresenceUpdate (ws : ConnId) (userId : string) (isOnline : bool)
  : Async unit :=
  try_catch
    (uid <- gets (λ w, ws_userId (socket_of ws w)) ;;
     if bool_decide (uid ≠ Some userId)
     then ws_send ws (ErrorFrame "Cannot update presence for other users")
     else
       user <- updateUserOnlineStatus userId isOnline ;;
       match user with
       | Some user =>
           broadcastPresenceUpdate userId
             (Some (or_else (user_username user) "Unknown")) isOnline ;;;
           timestamp <- now ;;
           ws_send ws (PresenceUpdated userId isOnline timestamp)
       | None => ret ()
       end)
    (ws_send ws (ErrorFrame "Failed to update presence")).

Definition handlePresenceRequest (ws : ConnId) (userIds : option (list string))
  : Async unit :=
  try_catch
    (uid <- gets (λ w, ws_userId (socket_of ws w)) ;;
     if negb (truthy uid) then ws_send ws (ErrorFrame "Not authenticated")
     else
       connected <- gets getConnectedUsers ;;
       let targetUserIds := default connected userIds in
       usersPresence <- getUsersOnlineStatus targetUserIds ;;
       timestamp <- now ;;
       ws_send ws (PresenceData usersPresence timestamp))
    (ws_send ws (ErrorFrame "Failed to get presence data")).

(** The [switch] over [validatedMessage.type].  The union is closed, so
    the [default] arm of the source, which would reply
    ["Unknown message type: <type>"], has no value to run on. *)
Definition dispatch (ws : ConnId) (validatedMessage : WSMessage) : Async unit :=
  match validatedMessage with
  | join_negotiation negotiationId =>
      handleJoinNegotiation ws (Some negotiationId)
  | leave_negotiation negotiationId =>
      handleLeaveNegotiation ws (Some negotiationId)
  | negotiation_message negotiationId content =>
      handleNegotiationMessage ws negotiationId content
  | negotiation_offer negotiationId amount message =>
      handleNegotiationOffer ws negotiationId amount message
  | negotiation_counter negotiationId amount message =>
      handleNegotiationCounter ws negotiationId amount message
  | negotiation_accept negotiationId =>
      handleNegotiationAccept ws negotiationId
  | negotiation_reject negotiationId message =>
      handleNegotiationReject ws negotiationId message
  | negotiation_status negotiationId status =>
      handleNegotiationStatus ws negotiationId status
  | presence_update userId isOnline =>
      handlePresenceUpdate ws userId isOnline
  | request_presence userIds =>
      handlePresenceRequest ws userIds
  end.

Definition handleWebSocketMessage (ws : ConnId) (message : json) : Async unit :=
  s <- gets (socket_of ws) ;;
  if negb (ws_isAuthenticated s) || negb (truthy (ws_userId s))
  then ws_send ws (ErrorFrame "Not authenticated")
  else
    (* [console.log(..., message.type)]: reading a property of [null] throws *)
    match message with JNull => throw | _ => ret () end ;;;
    try_catch
      match wsMessageSchema_parse message with
      | Some validatedMessage => dispatch ws validatedMessage
      | None => throw
      end
      (ws_send ws (ErrorFrame "Invalid message format")).

(** The [message] listener; [data = None] is a text that [JSON.parse]
    rejects. *)
Definition on_message (ws : ConnId) (data : option json) : Async unit :=
  try_catch
    match data with
    | Some message => handleWebSocketMessage ws message
    | None => throw
    end
    (ws_send ws (ErrorFrame "Invalid message format")).

Definition remove_from_rooms (ws : ConnId) (rooms : list (string * list ConnId))
  : list (string * list ConnId) :=
  omap (λ entry,
          if set_has ws entry.2
          then let room := set_delete ws entry.2 in
               if decide (set_size room = 0%nat) then None
               else Some (entry.1, room)
          else Some entry) rooms.

Definition cleanupWebSocket (ws : ConnId) : Async unit :=
  uid <- gets (λ w, ws_userId (socket_of ws w)) ;;
  if negb (truthy uid) then ret ()
  else
    let userId := default "" uid in
    userSocketSet <- gets (λ w, map_get userId (userSockets w)) ;;
    match userSocketSet with
    | Some userSocketSet =>
        let remaining := set_delete ws userSocketSet in
        modify (λ w, with_userSockets (map_set userId remaining (userSockets w)) w) ;;;
        if decide (set_size remaining = 0%nat) then
          modify (λ w, with_userSockets (map_delete userId (userSockets w)) w) ;;;
          try_catch
            (user <- updateUserOnlineStatus userId false ;;
             _ <- setUserLastSeen userId ;;
             match user with
             | Some user =>
                 broadcastPresenceUpdate userId
                   (Some (or_else (user_username user) "Unknown")) false
             | None => ret ()
             end)
            (ret ())
        else ret ()
    | None => ret ()
    end ;;;
    modify (λ w, with_negotiationRooms
                   (remove_from_rooms ws (negotiationRooms w)) w).

Section Handshake.

(** [jwt.verify(token, wsSecret)]: [None] when it throws. *)
Variable jwt_verify : string → option DecodedToken.

(** [verifyClient]: the upgrade is refused unless the query has a token. *)
Definition verifyClient (token : option string) : bool := truthy token.

Definition authenticate (ws : ConnId) (userId : string) : Async unit :=
  modify (λ w, with_sockets
    (<[ws := {| ws_userId := Some userId; ws_isAuthenticated := true;
                ws_readyState := ws_readyState (socket_of ws w);
                ws_listening := ws_listening (socket_of ws w) |}]> (sockets w)) w).

Definition install_listeners (ws : ConnId) : Async unit :=
  modify (λ w, with_sockets
    (<[ws := {| ws_userId := ws_userId (socket_of ws w);
                ws_isAuthenticated := ws_isAuthenticated (socket_of ws w);
                ws_readyState := ws_readyState (socket_of ws w);
                ws_listening := true |}]> (sockets w)) w).

(** [wss.on('connection', async (ws, req) => ...)] *)
Definition on_connection (ws : ConnId) (token : option string) : Async unit :=
  try_catch
    (if negb (truthy token)
     then ws_close ws 1008 "Authentication token required"
     else
       decoded <- match jwt_verify (default "" token) with
                  | Some decoded => ret decoded
                  | None => throw
                  end ;;
       if negb (truthy (tok_userId decoded))
       then ws_close ws 1008 "Invalid token payload"
       else
         let userId := default "" (tok_userId decoded) in
         authenticate ws userId ;;;
         modify (λ w,
           if map_has userId (userSockets w) then w
           else with_userSockets (map_set userId [] (userSockets w)) w) ;;;
         modify (λ w, with_userSockets
           (map_set userId
              (set_add ws (default [] (map_get userId (userSockets w))))
              (userSockets w)) w) ;;;
         try_catch
           (_ <- updateUserOnlineStatus userId true ;;
            broadcastPresenceUpdate userId (tok_username decoded) true)
           (ret ()) ;;;
         timestamp <- now ;;
         ws_send ws (ConnectionConfirmed userId (tok_username decoded) timestamp) ;;;
         install_listeners ws)
    (ws_close ws 1008 "Authentication failed").

(** What reaches the server from outside. *)
Inductive Input :=
| Connection (ws : ConnId) (token : option string)
| Message (ws : ConnId) (data : option json)
| Close (ws : ConnId)
| Error (ws : ConnId)
| Tick (t : nat).

Definition closed_socket : Socket :=
  {| ws_userId := None; ws_isAuthenticated := false;
     ws_readyState := CLOSED; ws_listening := false |}.

Definition mark_closed (ws : ConnId) : Async unit :=
  modify (λ w, with_sockets
    (<[ws := {| ws_userId := ws_userId (socket_of ws w);
                ws_isAuthenticated := ws_isAuthenticated (socket_of ws w);
                ws_readyState := CLOSED;
                ws_listening := ws_listening (socket_of ws w) |}]> (sockets w)) w).

(** One event of the server's event loop.  A connection identifier names
    one transport connection: an upgrade request for an identifier already
    in use does not occur and is ignored.  An upgrade that [verifyClient]
    refuses is answered with HTTP 401 and never reaches the [connection]
    handler.  Frames and close events reach only sockets whose listeners
    are installed. *)
Definition step (i : Input) : Async unit :=
  match i with
  | Connection ws token =>
      known <- gets (λ w, bool_decide (is_Some (sockets w !! ws))) ;;
      if known : bool then ret ()
      else if verifyClient token then
        modify (λ w, with_sockets (<[ws := fresh_socket]> (sockets w)) w) ;;;
        on_connection ws token
      else
        modify (λ w, with_sockets (<[ws := closed_socket]> (sockets w)) w) ;;;
        emit (EvRefuse ws 401)
  | Message ws data =>
      s <- gets (socket_of ws) ;;
      if ws_listening s then on_message ws data else ret ()
  | Close ws =>
      s <- gets (socket_of ws) ;;
      mark_closed ws ;;;
      if ws_listening s then cleanupWebSocket ws else ret ()
  | Error ws =>
      s <- gets (socket_of ws) ;;
      if ws_listening s then cleanupWebSocket ws else ret ()
  | Tick t => modify (λ w, with_clock (clock w + t) w)
  end.

Definition run (inputs : list Input) : Async unit := forEach inputs step.

End Handshake.

Definition initial : World :=
  {| userSockets := []; negotiationRooms := []; sockets := ∅;
     negotiations := []; negotiationMessages := []; users := [];
     faults := []; clock := 0; log := [] |}.

End Server.

(** ** The client session manager ([NegotiationWebSocket]) *)

Module Client.
Import Schema.

Inductive Status := disconnected | connecting | connected | reconnecting | error.

#[global] Instance Status_eq_dec : EqDecision Status.
Proof. solve_decision. Defined.

Record ConnectionState := {
  cs_status : Status;
  cs_error : option string;
  retryCount : nat
}.

(** The body of a successful [POST /api/ws-token]. *)
Record WebSocketToken := {
  wt_token : string;
  wt_expiresIn : Z
}.

(** What the manager does to the outside: frames handed to the socket,
    sockets opened and closed, timers armed (with their delay in
    milliseconds). *)
Inductive Effect :=
| Sent (message : WSMessage)
| Opened (token : string)
| SocketClosed
| ReconnectIn (delay : Z)
| TokenRefreshIn (delay : Z).

Record Manager := {
  ws : bool;                          (* [this.ws !== null] *)
  token : option string;
  tokenExpiresAt : Z;
  reconnectTimeout : option Z;
  tokenRefreshTimeout : option Z;
  connectionState : ConnectionState;
  currentNegotiationRooms : list string;
  isUserDisconnected : bool;
  effects : list Effect
}.

Definition with_ws (v : bool) (m : Manager) : Manager :=
  {| ws := v; token := token m; tokenExpiresAt := tokenExpiresAt m;
     reconnectTimeout := reconnectTimeout m;
     tokenRefreshTimeout := tokenRefreshTimeout m;
     connectionState := connectionState m;
     currentNegotiationRooms := currentNegotiationRooms m;
     isUserDisconnected := isUserDisconnected m; effects := effects m |}.

Definition with_token (t : option string) (e : Z) (m : Manager) : Manager :=
  {| ws := ws m; token := t; tokenExpiresAt := e;
     reconnectTimeout := reconnectTimeout m;
     tokenRefreshTimeout := tokenRefreshTimeout m;
     connectionState := connectionState m;
     currentNegotiationRooms := currentNegotiationRooms m;
     isUserDisconnected := isUserDisconnected m; effects := effects m |}.

Definition with_reconnectTimeout (v : option Z) (m : Manager) : Manager :=
  {| ws := ws m; token := token m; tokenExpiresAt := tokenExpiresAt m;
     reconnectTimeout := v;
     tokenRefreshTimeout := tokenRefreshTimeout m;
     connectionState := connectionState m;
     currentNegotiationRooms := currentNegotiationRooms m;
     isUserDisconnected := isUserDisconnected m; effects := effects m |}.

Definition with_tokenRefreshTimeout (v : option Z) (m : Manager) : Manager :=
  {| ws := ws m; token := token m; tokenExpiresAt := tokenExpiresAt m;
     reconnectTimeout := reconnectTimeout m;
     tokenRefreshTimeout := v;
     connectionState := connectionState m;
     currentNegotiationRooms := currentNegotiationRooms m;
     isUserDisconnected := isUserDisconnected m; effects := effects m |}.

Definition with_connectionState (v : ConnectionState) (m : Manager) : Manager :=
  {| ws := ws m; token := token m; tokenExpiresAt := tokenExpiresAt m;
     reconnectTimeout := reconnectTimeout m;
     tokenRefreshTimeout := tokenRefreshTimeout m;
     connectionState := v;
     currentNegotiationRooms := currentNegotiationRooms m;
     isUserDisconnected := isUserDisconnected m; effects := effects m |}.

Definition with_rooms (v : list string) (m : Manager) : Manager :=
  {| ws := ws m; token := token m; tokenExpiresAt := tokenExpiresAt m;
     reconnectTimeout := reconnectTimeout m;
     tokenRefreshTimeout := tokenRefreshTimeout m;
     connectionState := connectionState m;
     currentNegotiationRooms := v;
     isUserDisconnected := isUserDisconnected m; effects := effects m |}.

Definition with_isUserDisconnected (v : bool) (m : Manager) : Manager :=
  {| ws := ws m; token := token m; tokenExpiresAt := tokenExpiresAt m;
     reconnectTimeout := reconnectTimeout m;
     tokenRefreshTimeout := tokenRefreshTimeout m;
     connectionState := connectionState m;
     currentNegotiationRooms := currentNegotiationRooms m;
     isUserDisconnected := v; effects := effects m |}.

Definition with_effects (v : list Effect) (m : Manager) : Manager :=
  {| ws := ws m; token := token m; tokenExpiresAt := tokenExpiresAt m;
     reconnectTimeout := reconnectTimeout m;
     tokenRefreshTimeout := tokenRefreshTimeout m;
     connectionState := connectionState m;
     currentNegotiationRooms := currentNegotiationRooms m;
     isUserDisconnected := isUserDisconnected m; effects := v |}.

Definition effect (e : Effect) (m : Manager) : Manager :=
  with_effects (effects m ++ [e]) m.

(** The manager as constructed. *)
Definition new : Manager :=
  {| ws := false; token := None; tokenExpiresAt := 0;
     reconnectTimeout := None; tokenRefreshTimeout := None;
     connectionState :=
       {| cs_status := disconnected; cs_error := None; retryCount := 0 |};
     currentNegotiationRooms := []; isUserDisconnected := false;
     effects := [] |}.

(** [updateConnectionState(newState)]: the given fields overwrite the
    current ones; [error] is kept when the partial state has none. *)
Definition updateConnectionState (status : Status) (error : option string)
    (retry : nat) (m : Manager) : Manager :=
  with_connectionState
    {| cs_status := status;
       cs_error := match error with
                   | Some e => Some e
                   | None => cs_error (connectionState m)
                   end;
       retryCount := retry |} m.

Definition isConnected (m : Manager) : bool :=
  bool_decide (cs_status (connectionState m) = connected).

Definition isConnecting (m : Manager) : bool :=
  bool_decide (cs_status (connectionState m) = connecting).

Definition clearReconnectTimeout (m : Manager) : Manager :=
  with_reconnectTimeout None m.

Definition clearTokenRefreshTimeout (m : Manager) : Manager :=
  with_tokenRefreshTimeout None m.

(** [send(message)]: dropped unless connected; a message the schema
    rejects is dropped too. *)
Definition send (message : json) (m : Manager) : Manager :=
  if negb (isConnected m) || negb (ws m) then m
  else match wsMessageSchema_parse message with
       | Some validatedMessage => effect (Sent validatedMessage) m
       | None => m
       end.

Definition join_frame (negotiationId : string) : json :=
  JObj [("type", JStr "join_negotiation"); ("negotiationId", JStr negotiationId)].

Definition leave_frame (negotiationId : string) : json :=
  JObj [("type", JStr "leave_negotiation"); ("negotiationId", JStr negotiationId)].

Definition joinNegotiation (negotiationId : string) (m : Manager) : Manager :=
  send (join_frame negotiationId)
    (with_rooms (Js.set_add negotiationId (currentNegotiationRooms m)) m).

Definition leaveNegotiation (negotiationId : string) (m : Manager) : Manager :=
  send (leave_frame negotiationId)
    (with_rooms (Js.set_delete negotiationId (currentNegotiationRooms m)) m).

Definition disconnect (m : Manager) : Manager :=
  let m := with_isUserDisconnected true m in
  let m := clearReconnectTimeout m in
  let m := clearTokenRefreshTimeout m in
  let m := if ws m then with_ws false (effect SocketClosed m) else m in
  updateConnectionState disconnected None 0 m.

(** [Math.min(Math.pow(2, retryCount) * 1000, 30000)] *)
Definition backoff (retry : nat) : Z := Z.min (2 ^ Z.of_nat retry * 1000) 30000.

Definition scheduleReconnect (m : Manager) : Manager :=
  if isUserDisconnected m then m
  else
    let m := clearReconnectTimeout m in
    let retry := (retryCount (connectionState m) + 1)%nat in
    let delay := backoff retry in
    let m := updateConnectionState reconnecting None retry m in
    effect (ReconnectIn delay) (with_reconnectTimeout (Some delay) m).

(** The outcome of [apiRequest('POST', '/api/ws-token')]: the token data, or
    a failure with the message of the error thrown (if it is an [Error]). *)
Inductive Response :=
| Granted (tokenData : WebSocketToken)
| Failed (message : option string).

(** [ensureValidToken()]: [inl message] when it throws. *)
Definition ensureValidToken (now : Z) (response : Response) (m : Manager)
  : (option string + unit) * Manager :=
  if truthy (token m)
     && bool_decide (now + 2 * 60 * 1000 < tokenExpiresAt m)%Z
  then (inr (), m)
  else match response with
       | Granted tokenData =>
           let m := with_token (Some (wt_token tokenData))
                      (now + wt_expiresIn tokenData) m in
           let m := clearTokenRefreshTimeout m in
           let refreshIn := (wt_expiresIn tokenData - 2 * 60 * 1000)%Z in
           if bool_decide (0 < refreshIn)%Z
           then (inr (), effect (TokenRefreshIn refreshIn)
                           (with_tokenRefreshTimeout (Some refreshIn) m))
           else (inr (), m)
       | Failed message => (inl message, with_token None 0 m)
       end.

Definition establishConnection (now : Z) (response : Response) (m : Manager)
  : Manager :=
  let m := updateConnectionState connecting None
             (retryCount (connectionState m)) m in
  let failed (message : string) (m : Manager) :=
    let m := updateConnectionState error (Some message)
               (retryCount (connectionState m)) m in
    if isUserDisconnected m then m else scheduleReconnect m in
  match ensureValidToken now response m with
  | (inr _, m) =>
      if truthy (token m)
      then with_ws true (effect (Opened (default "" (token m))) m)
      else failed "Failed to obtain WebSocket token" m
  | (inl message, m) => failed (default "Connection failed" message) m
  end.

Definition connect (now : Z) (response : Response) (m : Manager) : Manager :=
  if isConnecting m || isConnected m then m
  else establishConnection now response (with_isUserDisconnected false m).

(** [this.ws.onopen] *)
Definition ws_onopen (m : Manager) : Manager :=
  let m := updateConnectionState connected None 0 m in
  foldl (λ m negotiationId, send (join_frame negotiationId) m) m
    (currentNegotiationRooms m).

(** [this.ws.onclose] *)
Definition ws_onclose (m : Manager) : Manager :=
  let m := with_ws false m in
  if negb (isUserDisconnected m) then scheduleReconnect m
  else updateConnectionState disconnected None 0 m.

(** [this.ws.onerror] *)
Definition ws_onerror (m : Manager) : Manager :=
  updateConnectionState error (Some "Connection error")
    (retryCount (connectionState m)) m.

(** The callback armed by [scheduleReconnect]. *)
Definition reconnect_timer (now : Z) (response : Response) (m : Manager)
  : Manager :=
  if isUserDisconnected m then m else establishConnection now response m.






Definition updateNegotiationStatus (negotiationId status : string) (m : Manager)
  : Manager :=
  send (JObj [("type", JStr "negotiation_status");
              ("negotiationId", JStr negotiationId);
              ("status", JStr status)]) m.


(** [refreshToken()]; each of its two [await]s has its own time and its
    own answer to the token request, should it make one. *)
Definition refreshToken (now : Z) (response : Response)
    (now' : Z) (response' : Response) (m : Manager) : Manager :=
  match ensureValidToken now response m with
  | (inr _, m) =>
      if isConnected m then connect now' response' (disconnect m) else m
  | (inl _, m) =>
      if isConnected m then scheduleReconnect (disconnect m) else m
  end.

(** The callback armed by [ensureValidToken]. *)
Definition token_refresh_timer (now : Z) (response : Response)
    (now' : Z) (response' : Response) (m : Manager) : Manager :=
  if isConnected m then refreshToken now response now' response' m else m.

End Client.

(** ** Vocabulary of the properties *)

(** A negotiation is terminal when it is completed or cancelled. *)
Definition terminal (n : Negotiation) : Prop :=
  neg_status n = Some "completed" ∨ neg_status n = Some "cancelled".

(** The negotiation a negotiation-mutating frame is addressed to: chat,
    offer, counter, accept, reject and status change.  The other kinds
    (join, leave, presence) mutate no negotiation. *)
Definition target (m : WSMessage) : option string :=
  match m with
  | negotiation_message negotiationId _
  | negotiation_offer negotiationId _ _
  | negotiation_counter negotiationId _ _
  | negotiation_accept negotiationId
  | negotiation_reject negotiationId _
  | negotiation_status negotiationId _ => Some negotiationId
  | _ => None
  end.

(** The text of the error frame a handler's [catch] sends. *)
Definition failure_text (m : WSMessage) : string :=
  match m with
  | join_negotiation _ => "Failed to join negotiation"
  | leave_negotiation _ => ""
  | negotiation_message _ _ => "Failed to send message"
  | negotiation_offer _ _ _ => "Failed to make offer"
  | negotiation_counter _ _ _ => "Failed to make counter offer"
  | negotiation_accept _ => "Failed to accept offer"
  | negotiation_reject _ _ => "Failed to reject offer"
  | negotiation_status _ _ => "Failed to update status"
  | presence_update _ _ => "Failed to update presence"
  | request_presence _ => "Failed to get presence data"
  end.

(** The events logged between two worlds. *)
Definition since (w w' : World) : list Event :=
  drop (length (log w)) (log w').

(** The connections of [l] that are open, given the sockets [ss]. *)
Definition open_in (ss : gmap ConnId Socket) (l : list ConnId) : list ConnId :=
  filter (λ c, ws_readyState (default fresh_socket (ss !! c)) = OPEN) l.

(** [Q] holds of the completion and final world of [m] run from [w]. *)
Definition post {A} (m : Async A) (w : World)
    (Q : Completion A → World → Prop) : Prop :=
  Q (m w).1 (m w).2.

(** The oracle lets the next [k] storage calls return. *)
Fixpoint calm (k : nat) (fs : list bool) : Prop :=
  match k with
  | O => True
  | S k => default false (head fs) = false ∧ calm k (tail fs)
  end.

Definition no_fault (k : nat) (w : World) : Prop := calm k (faults w).

(** The effects by which an offer on negotiation [id] is applied: the
    write of [currentOffer], the persisted message row, the broadcast. *)
Definition offer_event (id : string) (e : Event) : Prop :=
  match e with
  | EvDb (UpdateNegotiation id' _) => id' = id
  | EvDb (CreateMessage row) => ins_negotiationId row = id
  | EvSend _ (NegotiationUpdate id' _) => id' = id
  | _ => False
  end.

(** [ws] handles a frame as user [uid]: it is authenticated as [uid]. *)
Definition authenticated_as (ws : ConnId) (uid : string) (w : World) : Prop :=
  ws_userId (Server.socket_of ws w) = Some uid
  ∧ ws_isAuthenticated (Server.socket_of ws w) = true
  ∧ uid ≠ "".

(** The reading of the spec: an offer takes effect only for the buyer of
    an [active] negotiation. *)
Definition offer_only_when_active (ws : ConnId) (id : string) (amount : Z)
    (message : option string) (w : World) : Prop :=
  let w' := exec (Server.handleNegotiationOffer ws id amount message) w in
  (∃ e, e ∈ since w w' ∧ offer_event id e) →
  ∃ n, Storage.select_negotiation id (negotiations w) = Some n
       ∧ Some (neg_buyerId n) = ws_userId (Server.socket_of ws w)
       ∧ neg_status n = Some "active".

(** The frame broadcast for a persisted message row. *)
Definition update_of (row : NegotiationMessage) (senderName content : string)
    (amount : option Z) : UpdateMessage :=
  {| um_id := msg_id row; um_senderId := msg_senderId row;
     um_senderName := senderName; um_messageType := msg_messageType row;
     um_content := content; um_amount := amount;
     um_createdAt := msg_createdAt row |}.

(** The frames a broadcast of [f] to the room of [id] hands out in [w]. *)
Definition room_sends (id : string) (f : Frame) (w : World) : list Event :=
  (λ c, EvSend c f) <$> open_in (sockets w) (default [] (Js.map_get id (negotiationRooms w))).

(** The reading of the spec: the frame [m] leaves a row in the message log,
    whatever the status of the negotiation. *)
Definition audit_persisted (ws : ConnId) (m : WSMessage) (w : World) : Prop :=
  ∃ row, negotiationMessages (exec (Server.dispatch ws m) w)
         = negotiationMessages w ++ [row].

(** The members of the room of negotiation [id]. *)
Definition room_of (id : string) (w : World) : list ConnId :=
  default [] (Js.map_get id (negotiationRooms w)).

(** The room registry after [ws] has been added to the room of [id]. *)
Definition joined_rooms (ws : ConnId) (id : string)
    (rooms : list (string * list ConnId)) : list (string * list ConnId) :=
  let rooms := if Js.map_has id rooms then rooms else Js.map_set id [] rooms in
  Js.map_set id (Js.set_add ws (default [] (Js.map_get id rooms))) rooms.

(** What a participant needs for a successful join of negotiation [id]:
    an authenticated socket, an existing negotiation it is a party of, and
    a storage read that returns. *)
Definition may_join (ws : ConnId) (id : string) (w : World) : Prop :=
  id ≠ ""
  ∧ (∃ uid n,
       uid ≠ ""
       ∧ ws_userId (Server.socket_of ws w) = Some uid
       ∧ Storage.select_negotiation id (negotiations w) = Some n
       ∧ (neg_buyerId n = uid ∨ neg_sellerId n = uid))
  ∧ no_fault 1 w.

(** Every [negotiation_update] handed out in the trace comes after the
    return of a [createMessage]. *)
Fixpoint persisted_first (persisted : bool) (t : list Event) : bool :=
  match t with
  | [] => true
  | EvDb (CreateMessage _) :: t => persisted_first true t
  | EvSend _ (NegotiationUpdate _ _) :: t =>
      persisted && persisted_first persisted t
  | _ :: t => persisted_first persisted t
  end.

(** The frames handed to sockets in a trace, and the sockets closed. *)
Definition sent (t : list Event) : list (ConnId * Frame) :=
  omap (λ e, match e with EvSend c f => Some (c, f) | _ => None end) t.

Definition closed (t : list Event) : list ConnId :=
  omap (λ e, match e with EvClose c _ _ => Some c | _ => None end) t.

(** The broadcast [um] carries the identity of the persisted row [row]. *)
Definition carries (um : UpdateMessage) (row : NegotiationMessage) : Prop :=
  um_id um = msg_id row
  ∧ um_senderId um = msg_senderId row
  ∧ um_messageType um = msg_messageType row
  ∧ um_createdAt um = msg_createdAt row.

(** The frame's [type] is none of the kinds of the schema. *)
Definition unknown_kind (message : json) : Prop :=
  match Schema.raw_type message with
  | Some t => t ∉ Schema.known_types
  | None => True
  end.

(** The sockets a presence update about [uid] is handed to: the open
    sockets of every other connected user, in registry order. *)
Definition presence_targets (uid : string) (ss : gmap ConnId Socket)
    (registry : list (string * list ConnId)) : list ConnId :=
  registry ≫= (λ entry, if decide (entry.1 ≠ uid) then open_in ss entry.2 else []).

Definition presence_sends (uid : string) (username : option string)
    (isOnline : bool) (w : World) : list Event :=
  (λ c, EvSend c (PresenceUpdate uid username isOnline (clock w)))
  <$> presence_targets uid (sockets w) (userSockets w).

(** The number of live connections of a user. *)
Definition connections (uid : string) (w : World) : nat :=
  length (default [] (Js.map_get uid (userSockets w))).

(** A presence update about [uid] is handed out in the trace. *)
Definition presence_broadcast (uid : string) (isOnline : bool) (t : list Event)
  : Prop :=
  ∃ c username lastSeen, EvSend c (PresenceUpdate uid username isOnline lastSeen) ∈ t.

(** The reading of the spec: an event of the server broadcasts "online"
    about a user only on the edge 0 → 1 of the user's connection count, and
    "offline" only on the edge 1 → 0. *)
Definition presence_only_on_edges (jwt_verify : string → option DecodedToken)
    (i : Server.Input) (w : World) : Prop :=
  let w' := exec (Server.step jwt_verify i) w in
  ∀ uid,
    (presence_broadcast uid true (since w w') →
       connections uid w = 0%nat ∧ connections uid w' = 1%nat)
    ∧ (presence_broadcast uid false (since w w') →
       connections uid w = 1%nat ∧ connections uid w' = 0%nat).

(** The registries hold sets: no connection twice, and no empty set. *)
Definition registry_wf (registry : list (string * list ConnId)) : Prop :=
  ∀ k s, Js.map_get k registry = Some s → NoDup s ∧ s ≠ [].

(** [ws] is a member of no set of the registry. *)
Definition absent (ws : ConnId) (registry : list (string * list ConnId)) : Prop :=
  Forall (λ entry, ws ∉ entry.2) registry.

(** No frame is handed to [ws] in the trace. *)
Definition quiet (ws : ConnId) (t : list Event) : Prop :=
  ∀ f, EvSend ws f ∉ t.

(** The connection [ws] is known to the server but is not registered: it
    has no listeners, it is in no set of either registry, and no frame has
    been handed to it since the log had [n] events. *)
Definition unregistered (ws : ConnId) (n : nat) (w : World) : Prop :=
  (∃ s, sockets w !! ws = Some s ∧ ws_listening s = false)
  ∧ absent ws (userSockets w)
  ∧ absent ws (negotiationRooms w)
  ∧ quiet ws (drop n (log w)).

(** The handshake token is absent, or [jwt.verify] throws on it, or its
    payload names no user. *)
Definition rejected_token (jwt_verify : string → option DecodedToken)
    (token : option string) : Prop :=
  truthy token = false
  ∨ jwt_verify (default "" token) = None
  ∨ (∃ decoded, jwt_verify (default "" token) = Some decoded
                ∧ truthy (tok_userId decoded) = false).

(** The reasons the [connection] handler gives when it closes a socket
    with the policy-violation code 1008. *)
Definition authentication_reasons : list string :=
  ["Authentication token required"; "Invalid token payload";
   "Authentication failed"].

(** [m] preserves the property [I] of worlds. *)
Definition keeps {A} (I : World → Prop) (m : Async A) : Prop :=
  ∀ w, I w → I (m w).2.

(** The connection attempt made at [now] ends with a token: the one held
    is good for more than two minutes, or the token request is granted a
    non-empty one. *)
Definition obtains_token (now : Z) (response : Client.Response)
    (m : Client.Manager) : Prop :=
  (truthy (Client.token m) = true
   ∧ (now + 2 * 60 * 1000 < Client.tokenExpiresAt m)%Z)
  ∨ ∃ tokenData, response = Client.Granted tokenData
                 ∧ Client.wt_token tokenData ≠ "".

(** ** A concrete deployment, for examples *)

Module Example.
Import Server.

Definition jwt_verify (token : string) : option DecodedToken :=
  if decide (token = "token-alice")
  then Some {| tok_userId := Some "alice-id"; tok_username := Some "alice" |}
  else if decide (token = "token-bob")
  then Some {| tok_userId := Some "bob-id"; tok_username := Some "bob" |}
  else if decide (token = "token-carol")
  then Some {| tok_userId := Some "carol-id"; tok_username := Some "carol" |}
  else if decide (token = "token-anonymous")
  then Some {| tok_userId := None; tok_username := Some "nobody" |}
  else None.

Definition account (id username : string) : User :=
  {| user_id := id; user_username := Some username;
     user_isOnline := Some false; user_lastSeen := None;
     user_updatedAt := None |}.

(** Negotiation [N1]: alice buys from bob. *)
Definition N1 (status : string) : Negotiation :=
  {| neg_id := "N1"; neg_productId := "P1"; neg_buyerId := "alice-id";
     neg_sellerId := "bob-id"; neg_status := Some status;
     neg_currentOffer := Some "90"; neg_updatedAt := None |}.

Definition database (status : string) : World :=
  with_users [account "alice-id" "alice"; account "bob-id" "bob";
              account "carol-id" "carol"]
    (with_negotiations [N1 status] initial).

(** Alice is connected on socket 1 and bob on socket 2. *)
Definition online (status : string) : World :=
  exec (run jwt_verify [Connection 1 (Some "token-alice");
                        Connection 2 (Some "token-bob")])
    (database status).

Definition join (id : string) : option json :=
  Some (JObj [("type", JStr "join_negotiation"); ("negotiationId", JStr id)]).

(** Both have joined the room of [N1]. *)
Definition joined (status : string) : World :=
  exec (run jwt_verify [Message 1 (join "N1"); Message 2 (join "N1")])
    (online status).

End Example.

(** ** Vocabulary of the further properties *)

(** The frame left the tables, both registries and the sockets as they
    were. *)
Definition untouched (w w' : World) : Prop :=
  negotiations w' = negotiations w
  ∧ negotiationMessages w' = negotiationMessages w
  ∧ users w' = users w
  ∧ userSockets w' = userSockets w
  ∧ negotiationRooms w' = negotiationRooms w
  ∧ sockets w' = sockets w.

(** The frame [m] on negotiation [id] was refused with [text]: nothing was
    touched, and the only events are the read of the negotiation and one
    error frame to the sender ([text], or the handler's own text when the
    read threw). *)
Definition refused (ws : ConnId) (id text : string) (m : WSMessage)
    (w w' : World) : Prop :=
  untouched w w'
  ∧ since w w' =
      if default false (head (faults w))
      then [EvDbThrew (GetNegotiation id); EvSend ws (ErrorFrame (failure_text m))]
      else [EvDb (GetNegotiation id); EvSend ws (ErrorFrame text)].

(** The tables a frame of kind [m] may write, by the handler it is
    dispatched to. *)
Definition writes_negotiation (m : WSMessage) : bool :=
  match m with
  | negotiation_offer _ _ _ | negotiation_counter _ _ _
  | negotiation_accept _ | negotiation_status _ _ => true
  | _ => false
  end.

Definition writes_rooms (m : WSMessage) : bool :=
  match m with
  | join_negotiation _ | leave_negotiation _ => true
  | _ => false
  end.

Definition writes_users (m : WSMessage) : bool :=
  match m with
  | presence_update _ _ => true
  | _ => false
  end.

(** The bounds the schema puts on the fields of a message. *)
Definition within_schema (m : WSMessage) : Prop :=
  match m with
  | negotiation_message _ content => (1 ≤ String.length content ≤ 1000)%nat
  | negotiation_offer _ amount _ | negotiation_counter _ amount _ => (0 < amount)%Z
  | negotiation_status _ status => status ∈ ["active"; "completed"; "cancelled"]
  | _ => True
  end.

(** The keys the schema reads. *)
Definition schema_keys : list string :=
  ["type"; "negotiationId"; "content"; "amount"; "message"; "status";
   "userId"; "isOnline"; "userIds"].

(** A run of failed connection attempts: the first by [connect], each
    later one by the reconnect timer; every attempt is made at its own time
    and fails with its own message. *)
Definition failed_attempts (attempts : list (Z * option string))
    (m : Client.Manager) : Client.Manager :=
  foldl (λ m attempt,
           Client.reconnect_timer attempt.1 (Client.Failed attempt.2) m)
    m attempts.

(** The effects of [m'] that [m] did not have yet. *)
Definition new_effects (m m' : Client.Manager) : list Client.Effect :=
  drop (length (Client.effects m)) (Client.effects m').

(** The columns of a negotiation that no frame writes. *)
Definition parties (n : Negotiation) : string * string * string * string :=
  (neg_id n, neg_productId n, neg_buyerId n, neg_sellerId n).

(** The statuses a [negotiation_status] frame may carry. *)
Definition status_enum : list string := ["active"; "completed"; "cancelled"].

(** What the socket layer may have made of the row [n]: the same row,
    with the status it had or one of the schema's three.  (Nothing is said
    of the offer: the column holds what storage makes of the amount.) *)
Definition evolved (n n' : Negotiation) : Prop :=
  parties n' = parties n
  ∧ (neg_status n' = neg_status n
     ∨ ∃ s, neg_status n' = Some s ∧ s ∈ status_enum).

(** [uid] is the buyer or the seller of negotiation [id]. *)
Definition party_of (rows : list Negotiation) (id uid : string) : Prop :=
  ∃ n, Storage.select_negotiation id rows = Some n
       ∧ (neg_buyerId n = uid ∨ neg_sellerId n = uid).

(** The message row was written by a party of its negotiation. *)
Definition by_party (rows : list Negotiation) (r : NegotiationMessage) : Prop :=
  party_of rows (msg_negotiationId r) (msg_senderId r).

(** A registry as a JavaScript [Map] of non-empty [Set]s has it: every key
    once, every set without repetition and with a member. *)
Definition wf_registry (registry : list (string * list ConnId)) : Prop :=
  NoDup registry.*1
  ∧ Forall (λ entry, NoDup entry.2 ∧ entry.2 ≠ []) registry.

(** The user a connection is authenticated as. *)
Definition user_of (ss : gmap ConnId Socket) (c : ConnId) : option string :=
  ss !! c ≫= ws_userId.

(** Every member [c] of the set under key [k] satisfies [P k c]. *)
Definition members_are (P : string → ConnId → Prop)
    (registry : list (string * list ConnId)) : Prop :=
  Forall (λ entry, Forall (P entry.1) entry.2) registry.

(** The registries agree with the sockets and the negotiations: a
    connection is registered under the user it is authenticated as, and
    sits only in rooms of negotiations that user is a party of. *)
Definition consistent (w : World) : Prop :=
  wf_registry (userSockets w)
  ∧ wf_registry (negotiationRooms w)
  ∧ members_are (λ uid c, user_of (sockets w) c = Some uid) (userSockets w)
  ∧ members_are (λ id c, ∃ uid, user_of (sockets w) c = Some uid
                                ∧ party_of (negotiations w) id uid)
      (negotiationRooms w).

(** The server as started: no connection yet. *)
Definition started (w : World) : Prop :=
  userSockets w = [] ∧ negotiationRooms w = [] ∧ sockets w = ∅.

(** A socket authenticated as a user carries a non-empty user id and has
    its listeners installed. *)
Definition authenticated_listen (w : World) : Prop :=
  ∀ c uid, user_of (sockets w) c = Some uid →
           uid ≠ "" ∧ ws_listening (Server.socket_of c w) = true.

(** Every [negotiation_update] of the trace was handed to a connection
    that is authenticated, in [w], as the buyer or the seller of the
    negotiation the update is about. *)
Definition updates_to_parties (rows : list Negotiation) (w : World)
    (t : list Event) : Prop :=
  ∀ c id um, EvSend c (NegotiationUpdate id um) ∈ t →
    ∃ uid, ws_userId (Server.socket_of c w) = Some uid ∧ party_of rows id uid.

(** ** Outbound frames on the wire, and the client's reading of them *)

Module Broadcast.
Import Schema.

(** [z.infer<typeof wsBroadcastSchema>]: the closed union of the frames the
    client hands to its message handlers. *)
Record BroadcastBody := {
  bm_id : string;
  bm_senderId : string;
  bm_senderName : string;
  bm_messageType : MessageType;
  bm_content : option string;
  bm_amount : option Z;
  bm_createdAt : string
}.

Inductive WSBroadcastMessage :=
| negotiation_update (negotiationId : string) (message : BroadcastBody)
| presence_update (userId username : string) (isOnline : bool) (lastSeen : string)
| negotiation_status_update
    (negotiationId status changedBy changedByName timestamp : string)
    (context : option string)
| error (message : string) (negotiationId code : option string).

Definition messageType_name (t : MessageType) : string :=
  match t with
  | Chat => "chat" | Offer => "offer" | Counter => "counter"
  | Accept => "accept" | Reject => "reject" | Status => "status"
  end.

(** [z.enum(["chat", "offer", "counter", "accept", "reject", "status"])] *)
Definition z_messageType (k : string) (o : list (string * json))
  : option MessageType :=
  match z_string k o with
  | Some s =>
      if decide (s = "chat") then Some Chat
      else if decide (s = "offer") then Some Offer
      else if decide (s = "counter") then Some Counter
      else if decide (s = "accept") then Some Accept
      else if decide (s = "reject") then Some Reject
      else if decide (s = "status") then Some Status
      else None
  | None => None
  end.

(** [z.number().optional()] *)
Definition z_number_optional (k : string) (o : list (string * json))
  : option (option Z) :=
  match field k o with
  | None => Some None
  | Some (JNum z) => Some (Some z)
  | Some _ => None
  end.

(** [z.object({...})] at key [k]: the fields of the nested object. *)
Definition z_object (k : string) (o : list (string * json))
  : option (list (string * json)) :=
  match field k o with
  | Some (JObj fields) => Some fields
  | _ => None
  end.

(** [wsBroadcastSchema.parse(rawMessage)]: [None] when it throws a
    [ZodError]. *)
Definition wsBroadcastSchema_parse (rawMessage : json)
  : option WSBroadcastMessage :=
  match rawMessage with
  | JObj o =>
      match z_string "type" o with
      | Some t =>
          if decide (t = "negotiation_update") then
            id ← z_string "negotiationId" o;
            m ← z_object "message" o;
            mid ← z_string "id" m;
            senderId ← z_string "senderId" m;
            senderName ← z_string "senderName" m;
            messageType ← z_messageType "messageType" m;
            content ← z_string_optional "content" m;
            amount ← z_number_optional "amount" m;
            createdAt ← z_string "createdAt" m;
            Some (negotiation_update id
                    {| bm_id := mid; bm_senderId := senderId;
                       bm_senderName := senderName;
                       bm_messageType := messageType; bm_content := content;
                       bm_amount := amount; bm_createdAt := createdAt |})
          else if decide (t = "presence_update") then
            userId ← z_string "userId" o;
            username ← z_string "username" o;
            isOnline ← z_boolean "isOnline" o;
            lastSeen ← z_string "lastSeen" o;
            Some (presence_update userId username isOnline lastSeen)
          else if decide (t = "negotiation_status_update") then
            id ← z_string "negotiationId" o;
            status ← z_status "status" o;
            changedBy ← z_string "changedBy" o;
            changedByName ← z_string "changedByName" o;
            timestamp ← z_string "timestamp" o;
            context ← z_string_optional "context" o;
            Some (negotiation_status_update id status changedBy changedByName
                    timestamp context)
          else if decide (t = "error") then
            d ← z_object "data" o;
            message ← z_string "message" d;
            negotiationId ← z_string_optional "negotiationId" d;
            code ← z_string_optional "code" d;
            Some (error message negotiationId code)
          else None
      | None => None
      end
  | _ => None
  end.

Section Outbound.

(** [Date.prototype.toISOString], on the clock of the model. *)
Variable toISOString : nat → string.

Definition presence_row (r : PresenceRow) : json :=
  JObj [("id", JStr (pr_id r)); ("username", JStr (pr_username r));
        ("isOnline", JBool (pr_isOnline r));
        ("lastSeen", match pr_lastSeen r with
                     | Some t => JStr (toISOString t)
                     | None => JNull
                     end)].

(** [JSON.parse(JSON.stringify(frame))]: what the client reads of a frame
    the server has handed to a socket. *)
Definition stringify (f : Frame) : json :=
  match f with
  | ConnectionConfirmed userId username timestamp =>
      JObj [("type", JStr "connection_confirmed");
            ("data", JObj ([("userId", JStr userId)]
                           ++ Wire.optional "username" (JStr <$> username)
                           ++ [("timestamp", JStr (toISOString timestamp))]))]
  | ErrorFrame message =>
      JObj [("type", JStr "error"); ("data", JObj [("message", JStr message)])]
  | NegotiationJoined negotiationId timestamp =>
      JObj [("type", JStr "negotiation_joined");
            ("data", JObj [("negotiationId", JStr negotiationId);
                           ("timestamp", JStr (toISOString timestamp))])]
  | NegotiationLeft negotiationId timestamp =>
      JObj [("type", JStr "negotiation_left");
            ("data", JObj [("negotiationId", JStr negotiationId);
                           ("timestamp", JStr (toISOString timestamp))])]
  | NegotiationUpdate negotiationId message =>
      JObj [("type", JStr "negotiation_update");
            ("negotiationId", JStr negotiationId);
            ("message",
             JObj ([("id", JStr (um_id message));
                    ("senderId", JStr (um_senderId message));
                    ("senderName", JStr (um_senderName message));
                    ("messageType",
                     JStr (messageType_name (um_messageType message)));
                    ("content", JStr (um_content message))]
                   ++ Wire.optional "amount" (JNum <$> um_amount message)
                   ++ [("createdAt",
                        JStr (toISOString (um_createdAt message)))]))]
  | PresenceUpdate userId username isOnline lastSeen =>
      JObj ([("type", JStr "presence_update"); ("userId", JStr userId)]
            ++ Wire.optional "username" (JStr <$> username)
            ++ [("isOnline", JBool isOnline);
                ("lastSeen", JStr (toISOString lastSeen))])
  | PresenceUpdated userId isOnline timestamp =>
      JObj [("type", JStr "presence_updated");
            ("data", JObj [("userId", JStr userId);
                           ("isOnline", JBool isOnline);
                           ("timestamp", JStr (toISOString timestamp))])]
  | PresenceData users timestamp =>
      JObj [("type", JStr "presence_data");
            ("data", JObj [("users", JArr (presence_row <$> users));
                           ("timestamp", JStr (toISOString timestamp))])]
  | NegotiationStatusUpdate negotiationId status changedBy changedByName
      timestamp context =>
      JObj ([("type", JStr "negotiation_status_update");
             ("negotiationId", JStr negotiationId); ("status", JStr status);
             ("changedBy", JStr changedBy);
             ("changedByName", JStr changedByName);
             ("timestamp", JStr (toISOString timestamp))]
            ++ Wire.optional "context" (JStr <$> context))
  end.

End Outbound.

(** [handleMessage]: the calls made to the registered handlers for one text
    frame; [data] is [None] when [JSON.parse] throws.  A throwing handler is
    caught on its own and stops no other. *)
Definition handleMessage {H} (messageHandlers : list H) (data : option json)
  : list (H * WSBroadcastMessage) :=
  match data with
  | Some rawMessage =>
      match wsBroadcastSchema_parse rawMessage with
      | Some message => (λ handler, (handler, message)) <$> messageHandlers
      | None => []
      end
  | None => []
  end.

(** The acknowledgements the server sends to the connection that asked. *)
Definition acknowledgement (f : Frame) : bool :=
  match f with
  | ConnectionConfirmed _ _ _ | NegotiationJoined _ _ | NegotiationLeft _ _
  | PresenceUpdated _ _ _ | PresenceData _ _ => true
  | _ => false
  end.

End Broadcast.

(** * Properties *)

Import Js Storage Schema Server.

(** ** Rules for running a handler *)

Lemma post_ret {A} (a : A) w Q : Q (Normal a) w → post (ret a) w Q.
Proof. done. Qed.

Lemma post_throw {A} w (Q : Completion A → World → Prop) : Q Thrown w → post throw w Q.
Proof. done. Qed.

Lemma post_bind {A B} (m : Async A) (k : A → Async B) w Q :
  post m w (λ c w', match c with
                    | Normal a => post (k a) w' Q
                    | Thrown => Q Thrown w'
                    end) →
  post (bind m k) w Q.
Proof. unfold post, bind. by destruct (m w) as [[a|] w']. Qed.

Lemma post_try_catch {A} (body handler : Async A) w Q :
  post body w (λ c w', match c with
                       | Normal a => Q (Normal a) w'
                       | Thrown => post handler w' Q
                       end) →
  post (try_catch body handler) w Q.
Proof. unfold post, try_catch. by destruct (body w) as [[a|] w']. Qed.

Lemma post_emit e w Q : Q (Normal ()) (with_log (log w ++ [e]) w) → post (emit e) w Q.
Proof. done. Qed.

Lemma post_gets {A} (f : World → A) w Q : Q (Normal (f w)) w → post (gets f) w Q.
Proof. done. Qed.

Lemma post_now w Q : Q (Normal (clock w)) w → post now w Q.
Proof. done. Qed.

Lemma post_modify f w Q : Q (Normal ()) (f w) → post (modify f) w Q.
Proof. done. Qed.

Lemma post_db_call {A} call (run : World → A * World) w Q :
  (default false (head (faults w)) = true →
   Q Thrown (with_log (log w ++ [EvDbThrew call]) (with_faults (tail (faults w)) w))) →
  (default false (head (faults w)) = false →
   Q (Normal (run (with_faults (tail (faults w)) w)).1)
     (with_log (log (run (with_faults (tail (faults w)) w)).2 ++ [EvDb call])
        (run (with_faults (tail (faults w)) w)).2)) →
  post (db_call call run) w Q.
Proof.
  unfold post, db_call. intros Ht Hf.
  destruct (default false (head (faults w))); [by apply Ht|].
  destruct (run _) as [a w2]. by apply Hf.
Qed.

Lemma with_log_id w : with_log (log w) w = w.
Proof. by destruct w. Qed.

Lemma forEach_send_if_open f l w :
  forEach l (send_if_open f) w =
  (Normal (), with_log (log w ++ ((λ c, EvSend c f) <$> open_in (sockets w) l)) w).
Proof.
  unfold open_in. revert w. induction l as [|c l IH]; intros w.
  all: change (λ c, ws_readyState (default fresh_socket (sockets w !! c)) = OPEN)
         with (λ c, ws_readyState (socket_of c w) = OPEN).
  - simpl. by rewrite app_nil_r, with_log_id.
  - simpl. unfold bind, send_if_open at 1. rewrite filter_cons.
    destruct (decide (ws_readyState (socket_of c w) = OPEN)) as [Ho|Ho].
    + unfold ws_send, emit. rewrite IH. simpl. unfold socket_of at 1. simpl.
      f_equal. unfold with_log; simpl. f_equal. by rewrite <- app_assoc.
    + unfold ret. by rewrite IH.
Qed.

Lemma post_forEach_send f l w Q :
  Q (Normal ()) (with_log (log w ++ ((λ c, EvSend c f) <$> open_in (sockets w) l)) w) →
  post (forEach l (send_if_open f)) w Q.
Proof. unfold post. by rewrite forEach_send_if_open. Qed.

Lemma post_broadcastToNegotiation id f w Q :
  Q (Normal ()) (with_log (log w ++ ((λ c, EvSend c f) <$> open_in (sockets w) (default [] (map_get id (negotiationRooms w))))) w) →
  post (broadcastToNegotiation id f) w Q.
Proof.
  unfold post, broadcastToNegotiation. destruct (map_get _ _); simpl.
  - by rewrite forEach_send_if_open.
  - unfold ret. by rewrite app_nil_r, with_log_id.
Qed.

Lemma post_broadcastToUser id f w Q :
  Q (Normal ()) (with_log (log w ++ ((λ c, EvSend c f) <$> open_in (sockets w) (default [] (map_get id (userSockets w))))) w) →
  post (broadcastToUser id f) w Q.
Proof.
  unfold post, broadcastToUser. destruct (map_get _ _); simpl.
  - by rewrite forEach_send_if_open.
  - unfold ret. by rewrite app_nil_r, with_log_id.
Qed.

Lemma forEach_presence uid f registry w :
  forEach registry (λ entry,
    if decide (entry.1 ≠ uid)
    then forEach entry.2 (send_if_open f)
    else ret ()) w =
  (Normal (),
   with_log (log w ++ ((λ c, EvSend c f) <$> presence_targets uid (sockets w) registry)) w).
Proof.
  unfold presence_targets. revert w.
  induction registry as [|entry registry IH]; intros w.
  - simpl. by rewrite app_nil_r, with_log_id.
  - simpl. unfold bind at 1.
    destruct (decide (entry.1 ≠ uid)).
    + rewrite forEach_send_if_open. simpl. rewrite IH. simpl.
      rewrite fmap_app, app_assoc. done.
    + unfold ret at 1. by rewrite IH.
Qed.

Lemma post_broadcastPresenceUpdate uid username isOnline w Q :
  Q (Normal ()) (with_log (log w ++ presence_sends uid username isOnline w) w) →
  post (broadcastPresenceUpdate uid username isOnline) w Q.
Proof.
  unfold post, broadcastPresenceUpdate, bind, now, gets. simpl.
  by rewrite forEach_presence.
Qed.


Ltac get_head t := lazymatch t with ?f _ => get_head f | _ => t end.

Ltac post_step :=
  lazymatch goal with
  | |- post (bind _ _) _ _ => apply post_bind
  | |- post (try_catch _ _) _ _ => apply post_try_catch
  | |- post (ret _) _ _ => apply post_ret
  | |- post throw _ _ => apply post_throw
  | |- post (emit _) _ _ => apply post_emit
  | |- post (ws_send _ _) _ _ => apply post_emit
  | |- post (gets _) _ _ => apply post_gets
  | |- post (userId_of _) _ _ => apply post_gets
  | |- post now _ _ => apply post_now
  | |- post (modify _) _ _ => apply post_modify
  | |- post (db_call _ _) _ _ =>
      apply post_db_call; (let H := fresh "Hfault" in intros H; simpl in H)
  | |- post (broadcastToNegotiation _ _) _ _ => apply post_broadcastToNegotiation
  | |- post (broadcastPresenceUpdate _ _ _) _ _ =>
      apply post_broadcastPresenceUpdate
  | |- post (broadcastToUser _ _) _ _ => apply post_broadcastToUser
  | |- post (broadcastNegotiationUpdate _ _) _ _ => apply post_broadcastToNegotiation
  | |- post (forEach _ (send_if_open _)) _ _ => apply post_forEach_send
  | |- post (forEach (_ :: _) _) _ _ => unfold forEach
  | |- post (match ?x with _ => _ end) _ _ => destruct x eqn:?
  | |- post (if ?x then _ else _) _ _ => destruct x eqn:?
  | |- post ?m _ _ => let h := get_head m in unfold h
  end.


Ltac post_run := repeat (post_step; simpl).

(** ** Elementary facts *)

Lemma since_app w l : drop (length (log w)) (log w ++ l) = l.
Proof. apply drop_app_length. Qed.

Lemma terminal_test n :
  terminal n →
  bool_decide (neg_status n = Some "completed")
  || bool_decide (neg_status n = Some "cancelled") = true.
Proof. intros [H | H]; rewrite H; reflexivity. Qed.

Lemma nonterminal_test n :
  bool_decide (neg_status n = Some "completed")
  || bool_decide (neg_status n = Some "cancelled") = false →
  ¬ terminal n.
Proof. intros H [Ht | Ht]; rewrite Ht in H; done. Qed.

Lemma nonterminal_test_inv n :
  ¬ terminal n →
  bool_decide (neg_status n = Some "completed")
  || bool_decide (neg_status n = Some "cancelled") = false.
Proof.
  intros Hn. apply orb_false_intro; apply bool_decide_eq_false;
    intros H; apply Hn; [by left | by right].
Qed.

Lemma truthy_Some s : s ≠ "" → truthy (Some s) = true.
Proof. intros Hs. simpl. by rewrite bool_decide_false. Qed.

Lemma socket_of_known ws s w : sockets w !! ws = Some s → socket_of ws w = s.
Proof. intros Hs. unfold socket_of. by rewrite Hs. Qed.

Lemma select_update_where id f rows :
  (∀ n, neg_id (f n) = neg_id n) →
  select_negotiation id (update_where neg_id id f rows)
  = f <$> select_negotiation id rows.
Proof.
  intros Hid. unfold select_negotiation, update_where.
  induction rows as [|r rows IH]; [done|].
  rewrite fmap_cons, !filter_cons.
  destruct (decide (neg_id r = id)) as [Hr|Hr].
  - rewrite decide_True by (by rewrite Hid). done.
  - rewrite decide_False by done. done.
Qed.

Lemma select_update_where_ne id id' f rows :
  (∀ n, neg_id (f n) = neg_id n) → id ≠ id' →
  select_negotiation id (update_where neg_id id' f rows)
  = select_negotiation id rows.
Proof.
  intros Hid Hne. unfold select_negotiation, update_where.
  induction rows as [|r rows IH]; [done|].
  rewrite fmap_cons, !filter_cons.
  destruct (decide (neg_id r = id')) as [Hr|Hr].
  - rewrite !decide_False by (rewrite ?Hid; congruence). done.
  - destruct (decide (neg_id r = id)); by rewrite ?IH.
Qed.

Lemma select_user_update id f rows :
  (∀ u, user_id (f u) = user_id u) →
  select_user id (update_where user_id id f rows) = f <$> select_user id rows.
Proof.
  intros Hid. unfold select_user, update_where.
  induction rows as [|r rows IH]; [done|].
  rewrite fmap_cons, !filter_cons.
  destruct (decide (user_id r = id)) as [Hr|Hr].
  - rewrite decide_True by (by rewrite Hid). done.
  - rewrite decide_False by done. done.
Qed.

(** Traces *)

Ltac trace_norm :=
  unfold since; simpl; rewrite <- ?app_assoc, since_app; simpl.

(** Decompose membership in an explicit trace. *)
Ltac in_trace H :=
  repeat first
    [ apply elem_of_cons in H as [H|H]
    | apply elem_of_app in H as [H|H]
    | apply elem_of_nil in H; destruct H
    | apply list_elem_of_fmap in H as (? & H & ?) ];
  try discriminate H.

(** ** Facts about [Set] and [Map] *)

Section JsFacts.
Context {A : Type} `{EqDecision A} {V : Type}.
Implicit Types (s : list A) (m : list (string * V)).

Lemma set_add_elem x s : x ∈ set_add x s.
Proof.
  unfold set_add, set_has. case_bool_decide; [done|].
  apply elem_of_app. right. by apply list_elem_of_singleton.
Qed.

Lemma set_add_elem_iff x y s : y ∈ set_add x s ↔ y = x ∨ y ∈ s.
Proof.
  unfold set_add, set_has. case_bool_decide.
  - split; [by right|]. by intros [->|].
  - rewrite elem_of_app, list_elem_of_singleton. tauto.
Qed.

Lemma set_add_idem x s : set_add x (set_add x s) = set_add x s.
Proof.
  unfold set_add at 1. unfold set_has.
  by rewrite bool_decide_true by apply set_add_elem.
Qed.

Lemma set_add_NoDup x s : NoDup s → NoDup (set_add x s).
Proof.
  intros Hs. unfold set_add, set_has. case_bool_decide; [done|].
  apply NoDup_app. split; [done|]. split; [|apply NoDup_singleton].
  intros y Hy ->%list_elem_of_singleton. done.
Qed.

Lemma set_delete_elem x y s : y ∈ set_delete x s ↔ y ≠ x ∧ y ∈ s.
Proof. unfold set_delete. by rewrite list_elem_of_filter. Qed.

Lemma set_delete_NoDup x s : NoDup s → NoDup (set_delete x s).
Proof. apply NoDup_filter. Qed.

(** In a list without duplicates a member occurs exactly once. *)
Lemma NoDup_occurs_once x s :
  NoDup s → x ∈ s → length (filter (λ y, y = x) s) = 1%nat.
Proof.
  induction 1 as [|y s Hy Hs IH]; [by intros ?%elem_of_nil|].
  rewrite filter_cons. intros [->|Hx]%elem_of_cons.
  - rewrite decide_True by done. simpl. f_equal.
    rewrite (elem_of_nil_inv (filter _ s)); [done|].
    intros z [-> Hz]%list_elem_of_filter. done.
  - rewrite decide_False by (intros ->; done). by apply IH.
Qed.

Lemma map_get_set_eq k v m : map_get k (map_set k v m) = Some v.
Proof.
  induction m as [|[k' v'] m IH]; simpl.
  - by rewrite decide_True.
  - destruct (decide (k' = k)); simpl.
    + by rewrite decide_True.
    + by rewrite decide_False.
Qed.

Lemma map_get_set_ne k k' v m :
  k ≠ k' → map_get k' (map_set k v m) = map_get k' m.
Proof.
  intros Hne. induction m as [|[k0 v0] m IH]; simpl.
  - by rewrite decide_False.
  - destruct (decide (k0 = k)) as [->|]; simpl.
    + by rewrite !decide_False.
    + destruct (decide (k0 = k')); done.
Qed.

Lemma map_set_set k v v' m : map_set k v (map_set k v' m) = map_set k v m.
Proof.
  induction m as [|[k0 v0] m IH]; simpl.
  - by rewrite decide_True.
  - destruct (decide (k0 = k)); simpl.
    + by rewrite decide_True.
    + rewrite decide_False by done. by rewrite IH.
Qed.

Lemma map_set_same k v m : map_get k m = Some v → map_set k v m = m.
Proof.
  induction m as [|[k0 v0] m IH]; simpl; [done|].
  destruct (decide (k0 = k)) as [->|].
  - by intros [= ->].
  - intros Hm. by rewrite IH.
Qed.

Lemma map_get_delete_eq k m : map_get k (map_delete k m) = None.
Proof.
  unfold map_delete. induction m as [|[k0 v0] m IH]; [done|].
  rewrite filter_cons. simpl. destruct (decide (k0 ≠ k)); simpl.
  - by rewrite decide_False.
  - done.
Qed.

Lemma map_get_delete_ne k k' m :
  k ≠ k' → map_get k' (map_delete k m) = map_get k' m.
Proof.
  intros Hne. unfold map_delete. induction m as [|[k0 v0] m IH]; [done|].
  rewrite filter_cons. simpl. destruct (decide (k0 ≠ k)) as [|Heq]; simpl.
  - by rewrite IH.
  - apply dec_stable in Heq as ->. by rewrite decide_False.
Qed.

Lemma map_has_get k m : map_has k m = true ↔ is_Some (map_get k m).
Proof. unfold map_has. apply bool_decide_eq_true. Qed.

End JsFacts.

Lemma map_get_elem {V} k (v : V) m : map_get k m = Some v → (k, v) ∈ m.
Proof.
  induction m as [|[k' v'] m IH]; simpl; [done|].
  destruct (decide (k' = k)) as [->|].
  - intros [= ->]. by left.
  - intros Hm. right. by apply IH.
Qed.

Lemma set_delete_last {A} `{EqDecision A} (x : A) s :
  NoDup s → s ≠ [] → set_delete x s = [] → s = [x].
Proof.
  unfold set_delete. intros Hnd Hne Hdel. destruct s as [|y s]; [done|].
  rewrite filter_cons in Hdel. destruct (decide (y ≠ x)) as [|Hy]; [done|].
  apply dec_stable in Hy as ->. f_equal.
  apply NoDup_cons in Hnd as [Hx _]. apply elem_of_nil_inv. intros z Hz.
  destruct (decide (z = x)) as [->|Hzx]; [done|].
  assert (z ∈ filter (λ y, y ≠ x) s) as Hin by (by apply list_elem_of_filter).
  rewrite Hdel in Hin. by apply elem_of_nil in Hin.
Qed.

Lemma set_delete_self {A} `{EqDecision A} (x : A) : set_delete x [x] = [].
Proof.
  unfold set_delete. rewrite filter_cons, decide_False; [done|].
  intros H. by apply H.
Qed.

Lemma elem_of_presence_targets c uid ss registry :
  c ∈ presence_targets uid ss registry ↔
  ∃ k s, (k, s) ∈ registry ∧ k ≠ uid ∧ c ∈ s
         ∧ ws_readyState (default fresh_socket (ss !! c)) = OPEN.
Proof.
  unfold presence_targets. rewrite list_elem_of_bind. split.
  - intros ([k s] & Hc & Hin). simpl in Hc.
    destruct (decide (k ≠ uid)); [|by apply elem_of_nil in Hc].
    apply list_elem_of_filter in Hc as [Hopen Hc]. by exists k, s.
  - intros (k & s & Hin & Hk & Hc & Hopen). exists (k, s). split; [|done].
    simpl. rewrite decide_True by done. by apply list_elem_of_filter.
Qed.

(** ** Invariants of handlers *)

Section Keeps.
Context (I : World → Prop).

Lemma keeps_ret {A} (a : A) : keeps I (ret a).
Proof. by intros w. Qed.

Lemma keeps_throw {A} : keeps I (@throw A).
Proof. by intros w. Qed.

Lemma keeps_gets {A} (f : World → A) : keeps I (gets f).
Proof. by intros w. Qed.

Lemma keeps_now : keeps I now.
Proof. by intros w. Qed.

Lemma keeps_bind {A B} (m : Async A) (k : A → Async B) :
  keeps I m → (∀ a, keeps I (k a)) → keeps I (bind m k).
Proof.
  intros Hm Hk w Hw. unfold bind. specialize (Hm w Hw).
  destruct (m w) as [[a|] w1]; [by apply Hk|done].
Qed.

Lemma keeps_try_catch {A} (body handler : Async A) :
  keeps I body → keeps I handler → keeps I (try_catch body handler).
Proof.
  intros Hb Hh w Hw. unfold try_catch. specialize (Hb w Hw).
  destruct (body w) as [[a|] w1]; [done|by apply Hh].
Qed.

Lemma keeps_forEach {A} (l : list A) (f : A → Async unit) :
  (∀ x, x ∈ l → keeps I (f x)) → keeps I (forEach l f).
Proof.
  induction l as [|x l IH]; intros Hf; simpl.
  - apply keeps_ret.
  - apply keeps_bind.
    + apply Hf. by left.
    + intros _. apply IH. intros y Hy. apply Hf. by right.
Qed.

Lemma keeps_modify (f : World → World) :
  (∀ w, I w → I (f w)) → keeps I (modify f).
Proof. intros Hf w Hw. by apply Hf. Qed.

End Keeps.

(** ** C1: a terminal negotiation refuses every mutating frame *)

(** A write that passed [validateNegotiationAccess] is addressed to another
    negotiation than a terminal one. *)
Lemma validated_is_other id id' n n' rows :
  select_negotiation id rows = Some n → terminal n →
  select_negotiation id' rows = Some n' →
  bool_decide (neg_status n' = Some "completed")
  || bool_decide (neg_status n' = Some "cancelled") = false →
  id ≠ id'.
Proof.
  intros Hsel Hterm Hsel' Hpass ->. simplify_eq.
  by rewrite (terminal_test _ Hterm) in Hpass.
Qed.

(** One event of the server leaves the row of a terminal negotiation as it
    is: a write that passes the access check goes to another row. *)
Lemma frozen_step jwt_verify id n i :
  terminal n →
  keeps (λ w, select_negotiation id (negotiations w) = Some n)
    (step jwt_verify i).
Proof.
  intros Hterm w Hsel.
  change (post (step jwt_verify i) w (λ _ w',
    select_negotiation id (negotiations w') = Some n)).
  destruct i as [c token|c data|c|c|t]; unfold step.
  all: repeat (post_step; simpl).
  all: repeat case_match; simpl; try done.
  all: rewrite select_update_where_ne;
    [done|done|eapply validated_is_other; eassumption].
Qed.

Lemma frozen_run jwt_verify id n inputs w :
  select_negotiation id (negotiations w) = Some n → terminal n →
  select_negotiation id (negotiations (exec (run jwt_verify inputs) w)) = Some n.
Proof.
  intros Hsel Hterm.
  apply (keeps_forEach (λ w, select_negotiation id (negotiations w) = Some n));
    [|done].
  intros i _. by apply frozen_step.
Qed.

(** C1.  For a negotiation whose status is completed or cancelled, each of
    the six negotiation-mutating frames (chat, offer, counter, accept,
    reject, status change) addressed to it is refused: the storage tables,
    both registries and the sockets are left as they were, and the only
    events are the read of the negotiation followed by one error frame to
    the sender, which is the terminal-negotiation error whenever the read
    returns.  No storage write and no broadcast takes place.  Hence no
    sequence of inputs to the server changes the row of the negotiation,
    its [currentOffer] and [status] in particular. *)
Theorem terminal_negotiation_refuses_mutation id n w :
  select_negotiation id (negotiations w) = Some n →
  terminal n →
  (∀ ws m,
     target m = Some id →
     let w' := exec (dispatch ws m) w in
     negotiations w' = negotiations w
     ∧ negotiationMessages w' = negotiationMessages w
     ∧ users w' = users w
     ∧ userSockets w' = userSockets w
     ∧ negotiationRooms w' = negotiationRooms w
     ∧ sockets w' = sockets w
     ∧ since w w' =
         if default false (head (faults w))
         then [EvDbThrew (GetNegotiation id);
               EvSend ws (ErrorFrame (failure_text m))]
         else [EvDb (GetNegotiation id);
               EvSend ws
                 (ErrorFrame "Cannot modify completed or cancelled negotiation")])
  ∧ (∀ jwt_verify inputs,
       select_negotiation id (negotiations (exec (run jwt_verify inputs) w))
       = Some n).
Proof.
  intros Hsel Hterm. split; [|intros jwt_verify inputs; by apply frozen_run].
  intros ws m Htarget w'. subst w'.
  change (post (dispatch ws m) w (λ _ w',
    negotiations w' = negotiations w
    ∧ negotiationMessages w' = negotiationMessages w
    ∧ users w' = users w
    ∧ userSockets w' = userSockets w
    ∧ negotiationRooms w' = negotiationRooms w
    ∧ sockets w' = sockets w
    ∧ since w w' =
      if default false (head (faults w))
      then [EvDbThrew (GetNegotiation id);
            EvSend ws (ErrorFrame (failure_text m))]
      else [EvDb (GetNegotiation id);
            EvSend ws
              (ErrorFrame "Cannot modify completed or cancelled negotiation")])).
  destruct m; simplify_eq/=.
  all: repeat (post_step; simpl; rewrite ?Hsel, ?(terminal_test _ Hterm)).
  all: unfold since; simpl; rewrite <- ?app_assoc, since_app.
  all: repeat match goal with H : default false _ = _ |- _ => rewrite H end.
  all: done.
Qed.

Lemma terminal_negotiation_refuses_mutation_witness :
  let w := Example.joined "completed" in
  let w' := exec (dispatch 1 (negotiation_offer "N1" 50 None)) w in
  let accept := Some (JObj [("type", JStr "negotiation_accept");
                            ("negotiationId", JStr "N1")]) in
  select_negotiation "N1" (negotiations w) = Some (Example.N1 "completed")
  ∧ terminal (Example.N1 "completed")
  ∧ negotiations w' = negotiations w
  ∧ since w w' =
      [EvDb (GetNegotiation "N1");
       EvSend 1 (ErrorFrame "Cannot modify completed or cancelled negotiation")]
  ∧ select_negotiation "N1"
      (negotiations (exec (run Example.jwt_verify
                             [Message 2 accept; Message 1 accept]) w))
    = Some (Example.N1 "completed").
Proof.
  assert (Hsel : select_negotiation "N1" (negotiations (Example.joined "completed"))
                 = Some (Example.N1 "completed")) by (vm_compute; reflexivity).
  assert (Hterm : terminal (Example.N1 "completed")) by (left; reflexivity).
  pose proof (terminal_negotiation_refuses_mutation "N1"
    (Example.N1 "completed") (Example.joined "completed") Hsel Hterm)
    as [Hframe Hrun].
  pose proof (Hframe 1%nat (negotiation_offer "N1" 50 None) eq_refl) as H.
  cbv zeta in H.
  destruct H as (Hn & _ & _ & _ & _ & _ & Hs).
  replace (default false (head (faults (Example.joined "completed")))) with false in Hs
    by (vm_compute; reflexivity).
  exact (conj Hsel (conj Hterm (conj Hn (conj Hs (Hrun _ _))))).
Defined.

(** ** C2: who may make an offer, and when *)

(** C2, as worded, fails: alice, the buyer, makes an offer of 100 on [N1]
    whose status is [accepted], not [active]; the offer is written to the
    negotiation all the same. *)
Lemma offer_on_accepted_negotiation_applied :
  ¬ offer_only_when_active 1 "N1" 100 None (Example.joined "accepted").
Proof.
  unfold offer_only_when_active. intros H.
  destruct H as (n & Hn & _ & Hstatus).
  - exists (EvDb (UpdateNegotiation "N1" "100")). split; [|reflexivity].
    vm_compute. apply list_elem_of_In. right. left. reflexivity.
  - vm_compute in Hn. injection Hn as <-. discriminate Hstatus.
Qed.

(** C2, amended.  An offer takes effect (a write of the negotiation, a
    persisted message row or a broadcast) only when the sender is the buyer
    of a negotiation that is neither completed nor cancelled.  For the
    buyer of such a negotiation, whatever its status otherwise ([accepted]
    and [rejected] included), and storage calls that return, the offer is
    applied: [currentOffer] becomes the offered amount, the offer row is
    appended to the message log, and the update goes to every open socket
    of the room. *)
Theorem offer_applied_for_buyer_unless_terminal ws uid w id amount message :
  ws_userId (socket_of ws w) = Some uid →
  let w' := exec (handleNegotiationOffer ws id amount message) w in
  let content := or_else message ("Offered $" +:+ pretty amount) in
  let row := new_message (pretty (length (negotiationMessages w))) (clock w)
               {| ins_negotiationId := id; ins_senderId := uid;
                  ins_messageType := Offer; ins_content := Some content;
                  ins_amount := Some (pretty amount) |} in
  ((negotiations w' ≠ negotiations w
    ∨ negotiationMessages w' ≠ negotiationMessages w
    ∨ (∃ e, e ∈ since w w' ∧ offer_event id e)) →
   ∃ n, select_negotiation id (negotiations w) = Some n
        ∧ neg_buyerId n = uid ∧ ¬ terminal n)
  ∧ (∀ n, select_negotiation id (negotiations w) = Some n →
          neg_buyerId n = uid → ¬ terminal n → no_fault 4 w →
          select_negotiation id (negotiations w')
            = Some (set_offer (pretty amount) (clock w) n)
          ∧ negotiationMessages w' = negotiationMessages w ++ [row]
          ∧ since w w' =
              [EvDb (GetNegotiation id);
               EvDb (UpdateNegotiation id (pretty amount));
               EvDb (CreateMessage
                       {| ins_negotiationId := id; ins_senderId := uid;
                          ins_messageType := Offer; ins_content := Some content;
                          ins_amount := Some (pretty amount) |});
               EvDb (GetUser uid)]
              ++ room_sends id
                   (NegotiationUpdate id
                      (update_of row (senderName (select_user uid (users w)))
                         content (Some amount))) w).
Proof.
  intros Huid w' content row. subst w'. split.
  - change (post (handleNegotiationOffer ws id amount message) w (λ _ w',
      (negotiations w' ≠ negotiations w
       ∨ negotiationMessages w' ≠ negotiationMessages w
       ∨ (∃ e, e ∈ since w w' ∧ offer_event id e)) →
      ∃ n, select_negotiation id (negotiations w) = Some n
           ∧ neg_buyerId n = uid ∧ ¬ terminal n)).
    repeat (post_step; simpl; rewrite ?Huid; simpl).
    all: unfold since; simpl; rewrite <- ?app_assoc, since_app; simpl.
    all: try (intros [?|[?|(e & He & Hev)]]; [done|done|];
              repeat (apply elem_of_cons in He as [->|He]; [done|]);
              by apply elem_of_nil in He).
    all: intros _; eexists; split; [done|]; split;
      [ match goal with
        | H : bool_decide (_ ≠ _) = false |- _ =>
            by apply bool_decide_eq_false, dec_stable in H
        end
      | by apply nonterminal_test ].
  - intros n Hsel Hbuyer Hnt (H0 & H1 & H2 & H3 & _).
    change (post (handleNegotiationOffer ws id amount message) w (λ _ w',
      select_negotiation id (negotiations w')
        = Some (set_offer (pretty amount) (clock w) n)
      ∧ negotiationMessages w' = negotiationMessages w ++ [row]
      ∧ since w w' =
          [EvDb (GetNegotiation id);
           EvDb (UpdateNegotiation id (pretty amount));
           EvDb (CreateMessage
                   {| ins_negotiationId := id; ins_senderId := uid;
                      ins_messageType := Offer; ins_content := Some content;
                      ins_amount := Some (pretty amount) |});
           EvDb (GetUser uid)]
          ++ room_sends id
               (NegotiationUpdate id
                  (update_of row (senderName (select_user uid (users w)))
                     content (Some amount))) w)).
    unfold handleNegotiationOffer.
    repeat (post_step; simpl;
            rewrite ?Huid, ?Hsel, ?(nonterminal_test_inv _ Hnt), ?Hbuyer; simpl;
            rewrite ?bool_decide_false by (intros ?; done); simpl).
    all: try congruence.
    rewrite select_update_where, Hsel by done.
    unfold since; simpl; rewrite <- ?app_assoc, since_app. done.
Qed.

Lemma offer_applied_for_buyer_unless_terminal_witness :
  let w := Example.joined "rejected" in
  let w' := exec (handleNegotiationOffer 1 "N1" 100 None) w in
  ws_userId (socket_of 1 w) = Some "alice-id"
  ∧ select_negotiation "N1" (negotiations w) = Some (Example.N1 "rejected")
  ∧ ¬ terminal (Example.N1 "rejected")
  ∧ no_fault 4 w
  ∧ select_negotiation "N1" (negotiations w')
    = Some (set_offer "100" 0 (Example.N1 "rejected")).
Proof.
  assert (Huid : ws_userId (socket_of 1 (Example.joined "rejected"))
                 = Some "alice-id") by (vm_compute; reflexivity).
  assert (Hsel : select_negotiation "N1" (negotiations (Example.joined "rejected"))
                 = Some (Example.N1 "rejected")) by (vm_compute; reflexivity).
  assert (Hnt : ¬ terminal (Example.N1 "rejected"))
    by (intros [H | H]; discriminate H).
  assert (Hcalm : no_fault 4 (Example.joined "rejected"))
    by (vm_compute; tauto).
  pose proof (proj2 (offer_applied_for_buyer_unless_terminal 1 "alice-id"
    (Example.joined "rejected") "N1" 100 None Huid)
    (Example.N1 "rejected") Hsel eq_refl Hnt Hcalm) as (H & _ & _).
  exact (conj Huid (conj Hsel (conj Hnt (conj Hcalm H)))).
Defined.

(** ** C3: a connection that does not authenticate *)

(** Facts about [absent] and [quiet]. *)

Lemma absent_get ws k s registry :
  absent ws registry → map_get k registry = Some s → ws ∉ s.
Proof.
  intros Ha Hget. induction registry as [|[k' s'] registry IH]; [done|].
  apply Forall_cons in Ha as [Hhd Htl]. simpl in Hget.
  destruct (decide (k' = k)); [by simplify_eq|by apply IH].
Qed.

Lemma absent_get_default ws k registry :
  absent ws registry → ws ∉ default [] (map_get k registry).
Proof.
  intros Ha. destruct (map_get k registry) as [s|] eqn:Hget; simpl.
  - by eapply absent_get.
  - apply not_elem_of_nil.
Qed.

Lemma absent_map_set ws k s registry :
  ws ∉ s → absent ws registry → absent ws (map_set k s registry).
Proof.
  intros Hs Ha. induction registry as [|[k' s'] registry IH]; simpl.
  - by apply Forall_singleton.
  - apply Forall_cons in Ha as [Hhd Htl].
    destruct (decide (k' = k)); apply Forall_cons; split; try done.
    by apply IH.
Qed.

Lemma absent_map_delete ws k registry :
  absent ws registry → absent ws (map_delete k registry).
Proof.
  unfold absent, map_delete. rewrite !Forall_forall.
  intros Ha entry [_ Hin]%list_elem_of_filter. by apply Ha.
Qed.

Lemma absent_remove_from_rooms ws c rooms :
  absent ws rooms → absent ws (remove_from_rooms c rooms).
Proof.
  intros Ha. unfold absent, remove_from_rooms. apply Forall_forall.
  intros [k s] ([k' s'] & Hin & Hsome)%list_elem_of_omap.
  assert (ws ∉ s') as Hs'.
  { unfold absent in Ha. rewrite Forall_forall in Ha. by apply (Ha (k', s')). }
  simpl in *. destruct (set_has c s').
  - destruct (decide (set_size (set_delete c s') = 0%nat)); [done|].
    simplify_eq. simpl. intros [_ ?]%set_delete_elem. done.
  - by simplify_eq.
Qed.

Lemma quiet_nil ws : quiet ws [].
Proof. intros f. apply not_elem_of_nil. Qed.

Lemma quiet_app ws t1 t2 : quiet ws t1 → quiet ws t2 → quiet ws (t1 ++ t2).
Proof. intros H1 H2 f [?|?]%elem_of_app; [by eapply H1|by eapply H2]. Qed.

Lemma quiet_drop_app ws n l t :
  quiet ws (drop n l) → quiet ws t → quiet ws (drop n (l ++ t)).
Proof.
  intros Hl Ht. rewrite drop_app. apply quiet_app; [done|].
  intros f Hin. apply (Ht f). by apply (subseteq_drop (n - length l) t).
Qed.

Lemma quiet_sends ws (f : Frame) l : ws ∉ l → quiet ws ((λ c, EvSend c f) <$> l).
Proof.
  intros Hl f' (c & Heq & Hc)%list_elem_of_fmap. by simplify_eq.
Qed.

Lemma not_in_open_in ws ss l : ws ∉ l → ws ∉ open_in ss l.
Proof. intros Hl [_ ?]%list_elem_of_filter. done. Qed.

Lemma not_in_presence_targets ws uid ss registry :
  absent ws registry → ws ∉ presence_targets uid ss registry.
Proof.
  intros Ha (k & s & Hin & _ & Hws & _)%elem_of_presence_targets.
  unfold absent in Ha. rewrite Forall_forall in Ha. by apply (Ha (k, s)).
Qed.

Section Unregistered.
Context (ws : ConnId) (n : nat).
Local Abbreviation I := (unregistered ws n).

(** A step that leaves the socket of [ws] and both registries alone and
    hands nothing to [ws] keeps it unregistered. *)
Lemma unregistered_frame w w' t :
  sockets w' !! ws = sockets w !! ws →
  userSockets w' = userSockets w →
  negotiationRooms w' = negotiationRooms w →
  log w' = log w ++ t →
  quiet ws t →
  I w → I w'.
Proof.
  intros Hs Hu Hr Hl Ht (Hsock & Habs & Habr & Hq).
  unfold unregistered. rewrite Hs, Hu, Hr, Hl.
  repeat split; try done. by apply quiet_drop_app.
Qed.

Lemma keeps_emit e : (∀ f, e ≠ EvSend ws f) → keeps I (emit e).
Proof.
  intros He w Hw. eapply (unregistered_frame w _ [e]); try done.
  intros f [Heq|Hin]%elem_of_cons;
    [exact (He f (eq_sym Heq))|by apply elem_of_nil in Hin].
Qed.

Lemma keeps_ws_send c f : c ≠ ws → keeps I (ws_send c f).
Proof. intros Hc. apply keeps_emit. by intros f' [= ->]. Qed.

Lemma keeps_send_if_open f c : c ≠ ws → keeps I (send_if_open f c).
Proof.
  intros Hc w Hw. unfold send_if_open. case_decide; [|done].
  by apply keeps_ws_send.
Qed.

Lemma keeps_db_call {A} call (run : World → A * World) :
  (∀ w, sockets (run w).2 = sockets w
        ∧ userSockets (run w).2 = userSockets w
        ∧ negotiationRooms (run w).2 = negotiationRooms w
        ∧ log (run w).2 = log w) →
  keeps I (db_call call run).
Proof.
  intros Hrun w Hw. unfold db_call.
  destruct (default false (head (faults w))).
  - eapply (unregistered_frame w _ [EvDbThrew call]); try done.
    intros f [?|Hin]%elem_of_cons; [done|by apply elem_of_nil in Hin].
  - destruct (Hrun (with_faults (tail (faults w)) w)) as (Hs & Hu & Hr & Hl).
    destruct (run _) as [a w2]. simpl in *.
    eapply (unregistered_frame w _ [EvDb call]); simpl; try done.
    + by rewrite Hs.
    + by rewrite Hl.
    + intros f [?|Hin]%elem_of_cons; [done|by apply elem_of_nil in Hin].
Qed.

Lemma keeps_sends (f : Frame) l :
  ws ∉ l → keeps I (forEach l (send_if_open f)).
Proof.
  intros Hl w Hw. rewrite forEach_send_if_open. simpl.
  eapply (unregistered_frame w _ (_ <$> open_in (sockets w) l)); try done.
  by apply quiet_sends, not_in_open_in.
Qed.

Lemma keeps_broadcastToNegotiation id f : keeps I (broadcastToNegotiation id f).
Proof.
  intros w Hw. unfold broadcastToNegotiation.
  destruct (map_get id (negotiationRooms w)) as [room|] eqn:Hget; [|done].
  apply keeps_sends; [|done]. eapply absent_get; [|done]. apply Hw.
Qed.

Lemma keeps_broadcastToUser uid f : keeps I (broadcastToUser uid f).
Proof.
  intros w Hw. unfold broadcastToUser.
  destruct (map_get uid (userSockets w)) as [room|] eqn:Hget; [|done].
  apply keeps_sends; [|done]. eapply absent_get; [|done]. apply Hw.
Qed.

Lemma keeps_broadcastPresenceUpdate uid username isOnline :
  keeps I (broadcastPresenceUpdate uid username isOnline).
Proof.
  intros w Hw. unfold broadcastPresenceUpdate, bind, now, gets. simpl.
  rewrite forEach_presence. simpl.
  eapply (unregistered_frame w _
            (_ <$> presence_targets uid (sockets w) (userSockets w))); try done.
  apply quiet_sends, not_in_presence_targets, Hw.
Qed.

(** Replacing the socket record of another connection. *)
Lemma keeps_set_socket c (s : World → Socket) :
  c ≠ ws →
  keeps I (modify (λ w, with_sockets (<[c := s w]> (sockets w)) w)).
Proof.
  intros Hc w Hw. eapply (unregistered_frame w _ []); simpl; try done.
  - by rewrite lookup_insert_ne.
  - by rewrite app_nil_r.
  - apply quiet_nil.
Qed.

Lemma keeps_set_userSockets (f : World → list (string * list ConnId)) :
  (∀ w, absent ws (userSockets w) → absent ws (f w)) →
  keeps I (modify (λ w, with_userSockets (f w) w)).
Proof.
  intros Hf w (Hsock & Habs & Habr & Hq). unfold modify. simpl.
  repeat split; try done. by apply Hf.
Qed.

Lemma keeps_set_negotiationRooms (f : World → list (string * list ConnId)) :
  (∀ w, absent ws (negotiationRooms w) → absent ws (f w)) →
  keeps I (modify (λ w, with_negotiationRooms (f w) w)).
Proof.
  intros Hf w (Hsock & Habs & Habr & Hq). unfold modify. simpl.
  repeat split; try done. by apply Hf.
Qed.

Lemma keeps_ws_close c code reason : c ≠ ws → keeps I (ws_close c code reason).
Proof.
  intros Hc. unfold ws_close. apply keeps_bind.
  - by apply (keeps_set_socket c (λ w, _)).
  - intros _. by apply keeps_emit.
Qed.

Lemma keeps_ensure_room id :
  keeps I (modify (λ w,
    if map_has id (negotiationRooms w) then w
    else with_negotiationRooms (map_set id [] (negotiationRooms w)) w)).
Proof.
  intros w Hw. unfold modify. simpl.
  destruct (map_has id (negotiationRooms w)); [done|].
  destruct Hw as (Hsock & Habs & Habr & Hq). repeat split; try done.
  simpl. apply absent_map_set; [apply not_elem_of_nil|done].
Qed.

Lemma keeps_ensure_user uid :
  keeps I (modify (λ w,
    if map_has uid (userSockets w) then w
    else with_userSockets (map_set uid [] (userSockets w)) w)).
Proof.
  intros w Hw. unfold modify. simpl.
  destruct (map_has uid (userSockets w)); [done|].
  destruct Hw as (Hsock & Habs & Habr & Hq). repeat split; try done.
  simpl. apply absent_map_set; [apply not_elem_of_nil|done].
Qed.

Lemma keeps_leave_room c id :
  keeps I (modify (λ w,
    match map_get id (negotiationRooms w) with
    | Some room =>
        let room' := set_delete c room in
        if decide (set_size room' = 0%nat)
        then with_negotiationRooms (map_delete id (negotiationRooms w)) w
        else with_negotiationRooms (map_set id room' (negotiationRooms w)) w
    | None => w
    end)).
Proof.
  intros w Hw. unfold modify. simpl.
  destruct (map_get id (negotiationRooms w)) as [room|] eqn:Hget; [|done].
  destruct Hw as (Hsock & Habs & Habr & Hq). simpl.
  destruct (decide (set_size (set_delete c room) = 0%nat)).
  - repeat split; try done. by apply absent_map_delete.
  - repeat split; try done. simpl. apply absent_map_set; [|done].
    intros [_ Hin]%set_delete_elem. by eapply absent_get.
Qed.

Lemma not_in_set_add c s : c ≠ ws → ws ∉ s → ws ∉ set_add c s.
Proof. intros Hc Hs [?|?]%set_add_elem_iff; done. Qed.

Lemma not_in_set_delete c s : ws ∉ s → ws ∉ set_delete c s.
Proof. intros Hs [_ ?]%set_delete_elem. done. Qed.

End Unregistered.

Ltac absent_solve :=
  repeat first
    [ assumption
    | apply absent_map_set
    | apply absent_map_delete
    | apply absent_remove_from_rooms
    | apply not_in_set_add
    | apply not_in_set_delete
    | apply absent_get_default
    | apply not_elem_of_nil
    | eapply absent_get; [|eassumption] ].

Ltac keeps_step :=
  lazymatch goal with
  | |- keeps _ (bind _ _) => apply keeps_bind; [|intros ?]
  | |- keeps _ (try_catch _ _) => apply keeps_try_catch
  | |- keeps _ (ret _) => apply keeps_ret
  | |- keeps _ throw => apply keeps_throw
  | |- keeps _ (gets _) => apply keeps_gets
  | |- keeps _ (userId_of _) => apply keeps_gets
  | |- keeps _ now => apply keeps_now
  | |- keeps _ (ws_send _ _) => apply keeps_ws_send; assumption
  | |- keeps _ (ws_close _ _ _) => apply keeps_ws_close; assumption
  | |- keeps _ (db_call _ _) => apply keeps_db_call; intros ?; done
  | |- keeps _ (broadcastToNegotiation _ _) => apply keeps_broadcastToNegotiation
  | |- keeps _ (broadcastNegotiationUpdate _ _) =>
      apply keeps_broadcastToNegotiation
  | |- keeps _ (broadcastToUser _ _) => apply keeps_broadcastToUser
  | |- keeps _ (broadcastPresenceUpdate _ _ _) =>
      apply keeps_broadcastPresenceUpdate
  | |- keeps _ (forEach (_ :: _) _) => unfold forEach
  | |- keeps _ (modify (λ w, if map_has _ (negotiationRooms w) then _ else _)) =>
      apply keeps_ensure_room
  | |- keeps _ (modify (λ w, if map_has _ (userSockets w) then _ else _)) =>
      apply keeps_ensure_user
  | |- keeps _ (modify (λ w, match map_get _ (negotiationRooms w) with _ => _ end)) =>
      apply keeps_leave_room
  | |- keeps _ (modify (λ w, with_sockets _ w)) =>
      apply (keeps_set_socket _ _ _ (λ w, _)); assumption
  | |- keeps _ (modify (λ w, with_userSockets _ w)) =>
      apply keeps_set_userSockets; intros ? ?; absent_solve
  | |- keeps _ (modify (λ w, with_negotiationRooms _ w)) =>
      apply keeps_set_negotiationRooms; intros ? ?; absent_solve
  | |- keeps _ (match ?x with _ => _ end) => destruct x
  | |- keeps _ (if ?x then _ else _) => destruct x
  | |- keeps _ ?m => let h := get_head m in unfold h
  end.

Section UnregisteredHandlers.
Context (jwt_verify : string → option DecodedToken).
Context (ws c : ConnId) (n : nat) (Hc : c ≠ ws).

Lemma keeps_dispatch m : keeps (unregistered ws n) (dispatch c m).
Proof. destruct m; simpl; repeat keeps_step. Qed.

Lemma keeps_on_message data : keeps (unregistered ws n) (on_message c data).
Proof.
  unfold on_message, handleWebSocketMessage.
  repeat first [apply keeps_dispatch | keeps_step].
Qed.

Lemma quiet_single e : (∀ f, e ≠ EvSend ws f) → quiet ws [e].
Proof.
  intros He f [Heq|Hin]%elem_of_cons;
    [exact (He f (eq_sym Heq))|by apply elem_of_nil in Hin].
Qed.

(** Cleanup reads the set it shrinks from the registry, so it is followed
    path by path. *)
Lemma keeps_cleanupWebSocket : keeps (unregistered ws n) (cleanupWebSocket c).
Proof.
  intros w (Hsock & Habs & Habr & Hq).
  change (post (cleanupWebSocket c) w (λ _ w', unregistered ws n w')).
  unfold cleanupWebSocket.
  repeat (post_step; simpl).
  all: unfold unregistered, presence_sends; simpl.
  all: split; [exact Hsock|]; split; [absent_solve|]; split; [absent_solve|].
  all: repeat (apply quiet_drop_app; [|first
         [ apply quiet_single; discriminate
         | apply quiet_sends, not_in_presence_targets; absent_solve ]]).
  all: exact Hq.
Qed.

Lemma keeps_on_connection token :
  keeps (unregistered ws n) (on_connection jwt_verify c token).
Proof. repeat keeps_step. Qed.

End UnregisteredHandlers.

(** Every event of the server keeps an unregistered connection
    unregistered. *)
Lemma keeps_step_any jwt_verify ws n i :
  keeps (unregistered ws n) (step jwt_verify i).
Proof.
  intros w Hw. pose proof Hw as ((s & Hs & Hl) & _).
  destruct i as [c token|c data|c|c|t]; unfold step.
  - unfold bind at 1, gets at 1. simpl.
    destruct (decide (c = ws)) as [->|Hc].
    + rewrite Hs, bool_decide_true by eauto. done.
    + destruct (bool_decide (is_Some (sockets w !! c))); [done|].
      assert (keeps (unregistered ws n)
                (if verifyClient token
                 then modify (λ w, with_sockets (<[c:=fresh_socket]> (sockets w)) w) ;;;
                      on_connection jwt_verify c token
                 else modify (λ w, with_sockets (<[c:=closed_socket]> (sockets w)) w) ;;;
                      emit (EvRefuse c 401))) as Hrest.
      { destruct (verifyClient token).
        - apply keeps_bind; [|intros _; by apply keeps_on_connection].
          by apply (keeps_set_socket _ _ _ (λ _, fresh_socket)).
        - apply keeps_bind; [|intros _; by apply keeps_emit].
          by apply (keeps_set_socket _ _ _ (λ _, closed_socket)). }
      by apply Hrest.
  - unfold bind at 1, gets at 1. simpl.
    destruct (decide (c = ws)) as [->|Hc].
    + by rewrite (socket_of_known _ _ _ Hs), Hl.
    + destruct (ws_listening (socket_of c w)); [|done].
      by apply keeps_on_message.
  - unfold bind at 1, gets at 1. simpl.
    destruct (decide (c = ws)) as [->|Hc].
    + rewrite (socket_of_known _ _ _ Hs), Hl. unfold bind, mark_closed, modify.
      simpl. destruct Hw as (_ & Habs & Habr & Hq).
      split; [|done]. simpl. rewrite lookup_insert_eq. eexists. split; [done|].
      simpl. by rewrite (socket_of_known _ _ _ Hs).
    + assert (keeps (unregistered ws n)
                (mark_closed c ;;;
                 if ws_listening (socket_of c w) then cleanupWebSocket c
                 else ret ())) as Hrest.
      { apply keeps_bind.
        - unfold mark_closed. by apply (keeps_set_socket _ _ _ (λ w, _)).
        - intros _. destruct (ws_listening (socket_of c w));
            [by apply keeps_cleanupWebSocket|apply keeps_ret]. }
      by apply Hrest.
  - unfold bind at 1, gets at 1. simpl.
    destruct (decide (c = ws)) as [->|Hc].
    + by rewrite (socket_of_known _ _ _ Hs), Hl.
    + destruct (ws_listening (socket_of c w)); [|done].
      by apply keeps_cleanupWebSocket.
  - destruct Hw as (Hsock & Habs & Habr & Hq). by repeat split.
Qed.

Lemma keeps_run jwt_verify ws n inputs :
  keeps (unregistered ws n) (run jwt_verify inputs).
Proof. apply keeps_forEach. intros i _. apply keeps_step_any. Qed.

(** The [connection] handler on a rejected token: one close with code 1008,
    and nothing else. *)
Lemma on_connection_rejected jwt_verify ws token w :
  rejected_token jwt_verify token →
  let w' := exec (on_connection jwt_verify ws token) w in
  (∃ reason, reason ∈ authentication_reasons
             ∧ since w w' = [EvClose ws 1008 reason])
  ∧ userSockets w' = userSockets w
  ∧ negotiationRooms w' = negotiationRooms w
  ∧ ws_listening (socket_of ws w') = ws_listening (socket_of ws w)
  ∧ ws_isAuthenticated (socket_of ws w') = ws_isAuthenticated (socket_of ws w)
  ∧ ws_readyState (socket_of ws w') = CLOSING
  ∧ is_Some (sockets w' !! ws).
Proof.
  intros Hrej w'. subst w'.
  change (post (on_connection jwt_verify ws token) w (λ _ w',
    (∃ reason, reason ∈ authentication_reasons
               ∧ since w w' = [EvClose ws 1008 reason])
    ∧ userSockets w' = userSockets w
    ∧ negotiationRooms w' = negotiationRooms w
    ∧ ws_listening (socket_of ws w') = ws_listening (socket_of ws w)
    ∧ ws_isAuthenticated (socket_of ws w') = ws_isAuthenticated (socket_of ws w)
    ∧ ws_readyState (socket_of ws w') = CLOSING
    ∧ is_Some (sockets w' !! ws))).
  unfold on_connection.
  destruct (truthy token) eqn:Htoken;
    [destruct Hrej as [?|[Hjwt|(decoded & Hjwt & Huid)]]; [congruence| |]|].
  all: cbn [negb]; rewrite ?Hjwt, ?Huid; cbn [negb].
  all: repeat (post_step; simpl; rewrite ?Huid; simpl).
  all: try congruence.
  all: unfold since, socket_of, authentication_reasons; simpl.
  all: rewrite since_app, lookup_insert_eq; simpl.
  all: split; [eexists; split; [|done]; repeat first [by left | right]|].
  all: repeat split; eauto.
Qed.

(** C3.  A connection whose token is absent, fails verification or names
    no user: the [connection] handler closes it with code 1008 and an
    authentication reason, and does nothing else.  On the event loop such a
    connection (refused with HTTP 401 by [verifyClient] already when the
    token is absent, closed with 1008 by the handler otherwise) is, after
    any further inputs, in no set of [userSockets], in no room, and has
    been handed no frame at all, so no [connection_confirmed]. *)
Theorem unauthenticated_connection_never_registered jwt_verify ws token w inputs :
  rejected_token jwt_verify token →
  sockets w !! ws = None →
  absent ws (userSockets w) →
  absent ws (negotiationRooms w) →
  let w1 := exec (step jwt_verify (Connection ws token)) w in
  let w' := exec (run jwt_verify inputs) w1 in
  (∃ reason, reason ∈ authentication_reasons
             ∧ since w (exec (on_connection jwt_verify ws token) w)
               = [EvClose ws 1008 reason])
  ∧ (if truthy token
     then ∃ reason, reason ∈ authentication_reasons
                    ∧ since w w1 = [EvClose ws 1008 reason]
     else since w w1 = [EvRefuse ws 401])
  ∧ absent ws (userSockets w')
  ∧ absent ws (negotiationRooms w')
  ∧ (∀ f, EvSend ws f ∉ since w w')
  ∧ ws_listening (socket_of ws w') = false.
Proof.
  intros Hrej Hfresh Habs Habr w1 w'.
  split; [apply (on_connection_rejected jwt_verify ws token w Hrej)|].
  set (wf := with_sockets (<[ws:=fresh_socket]> (sockets w)) w).
  assert (Hstep : w1 =
            if truthy token then exec (on_connection jwt_verify ws token) wf
            else with_log (log w ++ [EvRefuse ws 401])
                   (with_sockets (<[ws:=closed_socket]> (sockets w)) w)).
  { subst w1. unfold exec, step, bind, gets, modify, emit, verifyClient. simpl.
    rewrite Hfresh, bool_decide_false by (by intros [? ?]).
    by destruct (truthy token). }
  clearbody w1. subst w1.
  assert (Hw1 : (if truthy token
                 then ∃ reason, reason ∈ authentication_reasons
                                ∧ since w (exec (on_connection jwt_verify ws token) wf)
                                  = [EvClose ws 1008 reason]
                 else since w (with_log (log w ++ [EvRefuse ws 401])
                                 (with_sockets (<[ws:=closed_socket]> (sockets w)) w))
                      = [EvRefuse ws 401])
                ∧ unregistered ws (length (log w))
                    (if truthy token
                     then exec (on_connection jwt_verify ws token) wf
                     else with_log (log w ++ [EvRefuse ws 401])
                            (with_sockets (<[ws:=closed_socket]> (sockets w)) w))).
  { destruct (truthy token) eqn:Htoken.
    - destruct (on_connection_rejected jwt_verify ws token wf Hrej)
        as ((reason & Hreason & Hsince) & Hu & Hr & Hl & _ & _ & [s Hs]).
      split; [by exists reason|].
      split.
      { exists s. split; [done|].
        rewrite (socket_of_known _ _ _ Hs) in Hl. rewrite Hl.
        unfold socket_of, wf. simpl. by rewrite lookup_insert_eq. }
      rewrite Hu, Hr. split; [done|]. split; [done|].
      change (quiet ws (since wf (exec (on_connection jwt_verify ws token) wf))).
      rewrite Hsince. apply quiet_single. discriminate.
    - unfold since. simpl. rewrite since_app. split; [done|]. split.
      + exists closed_socket. simpl. by rewrite lookup_insert_eq.
      + split; [done|]. split; [done|]. simpl. rewrite since_app.
        apply quiet_single. discriminate. }
  destruct Hw1 as [Hfirst Hinv]. split.
  { by destruct (truthy token). }
  pose proof (keeps_run jwt_verify ws (length (log w)) inputs _ Hinv)
    as ((s & Hs & Hl) & Hu & Hr & Hq).
  split; [exact Hu|]. split; [exact Hr|]. split; [exact Hq|].
  assert (socket_of ws w' = s) as -> by (apply socket_of_known; exact Hs).
  exact Hl.
Qed.

Lemma unauthenticated_connection_never_registered_witness :
  let w := Example.online "active" in
  let inputs := [Message 7 (Example.join "N1");
                 Message 1 (Example.join "N1");
                 Connection 7 (Some "token-alice");
                 Close 7] in
  let w' := exec (run Example.jwt_verify inputs)
              (exec (step Example.jwt_verify (Connection 7 (Some "forged"))) w) in
  rejected_token Example.jwt_verify (Some "forged")
  ∧ sockets w !! 7%nat = None
  ∧ absent 7 (userSockets w)
  ∧ absent 7 (negotiationRooms w)
  ∧ since w (exec (step Example.jwt_verify (Connection 7 (Some "forged"))) w)
    = [EvClose 7 1008 "Authentication failed"]
  ∧ absent 7 (userSockets w')
  ∧ absent 7 (negotiationRooms w')
  ∧ (∀ f, EvSend 7 f ∉ since w w').
Proof.
  assert (Hrej : rejected_token Example.jwt_verify (Some "forged"))
    by (right; left; reflexivity).
  assert (Hfresh : sockets (Example.online "active") !! 7%nat = None)
    by (vm_compute; reflexivity).
  assert (Habs : absent 7 (userSockets (Example.online "active"))).
  { assert (Hreg : userSockets (Example.online "active")
                   = [("alice-id", [1%nat]); ("bob-id", [2%nat])])
      by (vm_compute; reflexivity).
    rewrite Hreg.
    repeat (apply Forall_cons; split;
            [simpl; intros [Heq|Hin%elem_of_nil]%elem_of_cons;
             [discriminate Heq|exact Hin]|]).
    apply Forall_nil_2. }
  assert (Habr : absent 7 (negotiationRooms (Example.online "active"))).
  { assert (Hreg : negotiationRooms (Example.online "active") = [])
      by (vm_compute; reflexivity).
    rewrite Hreg. apply Forall_nil_2. }
  pose proof (unauthenticated_connection_never_registered Example.jwt_verify 7
    (Some "forged") (Example.online "active")
    [Message 7 (Example.join "N1"); Message 1 (Example.join "N1");
     Connection 7 (Some "token-alice"); Close 7] Hrej Hfresh Habs Habr)
    as (_ & _ & Hu & Hr & Hq & _).
  assert (Hclose :
    since (Example.online "active")
      (exec (step Example.jwt_verify (Connection 7 (Some "forged")))
         (Example.online "active"))
    = [EvClose 7 1008 "Authentication failed"]) by (vm_compute; reflexivity).
  exact (conj Hrej (conj Hfresh (conj Habs (conj Habr
           (conj Hclose (conj Hu (conj Hr Hq))))))).
Defined.

(** ** C4: presence broadcasts *)

(** C4, as worded, fails: alice is online on socket 1 when her second
    device connects on socket 3, and bob is told again that she is online,
    on the interior transition 1 → 2 of her connection count. *)
Lemma second_device_announced_again :
  ¬ presence_only_on_edges Example.jwt_verify
      (Connection 3 (Some "token-alice")) (Example.online "active").
Proof.
  intros H. destruct (H "alice-id") as [Honline _].
  destruct Honline as [Hbefore _].
  - exists 2%nat, (Some "alice"), 0%nat. vm_compute.
    apply elem_of_cons. right. apply elem_of_cons. by left.
  - vm_compute in Hbefore. discriminate Hbefore.
Qed.

(** C4, amended.  Online: every authenticated connection whose
    online-status write returns hands a [presence_update] (online) to every
    open socket of every other connected user, whatever the number of
    connections the user already has.  Offline: connection cleanup hands
    out presence updates only about its own user, only "offline", and only
    when it removes the user's last connection (1 → 0), never on an
    interior transition such as 2 → 1; when it removes the last
    connection and the storage calls return the user's row, the update goes
    to every open socket of every other connected user. *)
Theorem presence_on_connect_and_on_last_close jwt_verify ws w :
  (∀ token decoded uid,
     sockets w !! ws = None →
     token ≠ "" →
     jwt_verify token = Some decoded →
     tok_userId decoded = Some uid →
     uid ≠ "" →
     no_fault 1 w →
     let w' := exec (step jwt_verify (Connection ws (Some token))) w in
     ∀ k s c,
       map_get k (userSockets w) = Some s → k ≠ uid → c ∈ s → c ≠ ws →
       ws_readyState (socket_of c w) = OPEN →
       EvSend c (PresenceUpdate uid (tok_username decoded) true (clock w))
       ∈ since w w')
  ∧ (∀ uid,
       ws_userId (socket_of ws w) = Some uid →
       uid ≠ "" →
       registry_wf (userSockets w) →
       let w' := exec (cleanupWebSocket ws) w in
       (∀ u b, presence_broadcast u b (since w w') →
          u = uid ∧ b = false
          ∧ connections uid w = 1%nat ∧ connections uid w' = 0%nat)
       ∧ (∀ user,
            map_get uid (userSockets w) = Some [ws] →
            select_user uid (users w) = Some user →
            no_fault 2 w →
            since w w' =
              [EvDb (UpdateUserOnlineStatus uid false);
               EvDb (SetUserLastSeen uid)]
              ++ presence_sends uid
                   (Some (or_else (user_username user) "Unknown")) false w')).
Proof.
  split.
  - intros token decoded uid Hfresh Htoken Hjwt Hd Huid (H0 & _) w'.
    intros k s c Hget Hk Hc Hcws Hopen. subst w'.
    change (post (step jwt_verify (Connection ws (Some token))) w (λ _ w',
      EvSend c (PresenceUpdate uid (tok_username decoded) true (clock w))
      ∈ since w w')).
    unfold step, on_connection, verifyClient.
    repeat (post_step; simpl; rewrite ?Hfresh, ?Hjwt, ?Hd; simpl;
            rewrite ?(bool_decide_false (token = "")),
                    ?(bool_decide_false (uid = "")) by done; simpl;
            try match goal with
                | |- context [if map_has ?k ?m then _ else _] =>
                    destruct (map_has k m) eqn:?; simpl
                end).
    all: try done; try congruence.
    all: unfold since, presence_sends; simpl.
    all: rewrite <- ?app_assoc, since_app.
    all: apply elem_of_cons; right; apply elem_of_app; left.
    all: apply (list_elem_of_fmap_2
             (λ c, EvSend c (PresenceUpdate uid (tok_username decoded) true (clock w)))).
    all: apply elem_of_presence_targets; exists k, s.
    all: split; [|split; [done|split; [done|]]].
    all: try (apply map_get_elem; by rewrite ?map_get_set_ne by done).
    all: rewrite !lookup_insert_ne by done; exact Hopen.
  - intros uid Huid Hne Hwf w'. subst w'. split.
    + change (post (cleanupWebSocket ws) w (λ _ w',
        ∀ u b, presence_broadcast u b (since w w') →
          u = uid ∧ b = false
          ∧ connections uid w = 1%nat ∧ connections uid w' = 0%nat)).
      unfold cleanupWebSocket.
      repeat (post_step; simpl; rewrite ?Huid; simpl;
              rewrite ?(bool_decide_false (uid = "")) by done; simpl).
      all: try done.
      all: unfold since, connections, presence_sends; simpl;
           rewrite <- ?app_assoc, ?since_app, ?drop_all; simpl.
      all: intros u' b (c & name & ts & Hin); in_trace Hin.
      all: simplify_eq.
      match goal with
      | Hget : map_get _ _ = Some ?l,
        Hsize : set_size (set_delete _ ?l) = 0%nat |- _ =>
          destruct (Hwf _ _ Hget) as [Hnd Hnonempty];
          pose proof Hsize as Hempty; apply length_zero_iff_nil in Hempty;
          rewrite Hget, map_get_delete_eq,
            (set_delete_last _ _ Hnd Hnonempty Hempty)
      end.
      done.
    + intros user Hget Huser (H0 & H1 & _).
      change (post (cleanupWebSocket ws) w (λ _ w',
        since w w' =
          [EvDb (UpdateUserOnlineStatus uid false); EvDb (SetUserLastSeen uid)]
          ++ presence_sends uid
               (Some (or_else (user_username user) "Unknown")) false w')).
      unfold cleanupWebSocket.
      repeat (post_step; simpl; rewrite ?Huid, ?Hget, ?set_delete_self; simpl;
              rewrite ?(bool_decide_false (uid = "")) by done; simpl;
              rewrite ?select_user_update, ?Huser by done; simpl).
      all: try congruence.
      unfold since, presence_sends; simpl.
      by rewrite <- ?app_assoc, since_app.
Qed.

Lemma presence_on_connect_and_on_last_close_witness :
  let w := Example.online "active" in
  sockets w !! 3%nat = None
  ∧ no_fault 2 w
  ∧ registry_wf (userSockets w)
  ∧ connections "alice-id" w = 1%nat
  ∧ EvSend 2 (PresenceUpdate "alice-id" (Some "alice") true 0)
    ∈ since w (exec (step Example.jwt_verify (Connection 3 (Some "token-alice"))) w)
  ∧ since w (exec (cleanupWebSocket 1) w)
    = [EvDb (UpdateUserOnlineStatus "alice-id" false);
       EvDb (SetUserLastSeen "alice-id");
       EvSend 2 (PresenceUpdate "alice-id" (Some "alice") false 0)].
Proof.
  assert (Hfresh : sockets (Example.online "active") !! 3%nat = None)
    by (vm_compute; reflexivity).
  assert (Hcalm : no_fault 2 (Example.online "active")) by (vm_compute; tauto).
  assert (Hwf : registry_wf (userSockets (Example.online "active"))).
  { assert (Hreg : userSockets (Example.online "active")
                   = [("alice-id", [1%nat]); ("bob-id", [2%nat])])
      by (vm_compute; reflexivity).
    rewrite Hreg. intros k s. simpl.
    repeat (case_decide; [intros [= <-]; split; [apply NoDup_singleton|done]|]).
    done. }
  assert (Hone : connections "alice-id" (Example.online "active") = 1%nat)
    by (vm_compute; reflexivity).
  assert (Hcalm1 : no_fault 1 (Example.online "active")) by (vm_compute; tauto).
  assert (Htoken : "token-alice" ≠ "") by discriminate.
  assert (Halice : "alice-id" ≠ "") by discriminate.
  assert (Hbob : "bob-id" ≠ "alice-id") by discriminate.
  assert (Hget : map_get "bob-id" (userSockets (Example.online "active"))
                 = Some [2%nat]) by (vm_compute; reflexivity).
  assert (Hin : 2%nat ∈ [2%nat]) by (by apply list_elem_of_singleton).
  assert (H23 : 2%nat ≠ 3%nat) by discriminate.
  assert (Hopen : ws_readyState (socket_of 2 (Example.online "active")) = OPEN)
    by (vm_compute; reflexivity).
  pose proof (proj1 (presence_on_connect_and_on_last_close Example.jwt_verify 3
                       (Example.online "active"))
    "token-alice"
    {| tok_userId := Some "alice-id"; tok_username := Some "alice" |} "alice-id"
    Hfresh Htoken eq_refl eq_refl Halice Hcalm1
    "bob-id" [2%nat] 2%nat Hget Hbob Hin H23 Hopen) as Hsend.
  assert (Huid : ws_userId (socket_of 1 (Example.online "active"))
                 = Some "alice-id") by (vm_compute; reflexivity).
  assert (Hset : map_get "alice-id" (userSockets (Example.online "active"))
                 = Some [1%nat]) by (vm_compute; reflexivity).
  assert (Huser : select_user "alice-id" (users (Example.online "active"))
                  = Some (set_online true 0 (Example.account "alice-id" "alice")))
    by (vm_compute; reflexivity).
  pose proof (proj2 (proj2 (presence_on_connect_and_on_last_close
                              Example.jwt_verify 1 (Example.online "active"))
                       "alice-id" Huid Halice Hwf)
                _ Hset Huser Hcalm) as Htrace.
  assert (Hsends : presence_sends "alice-id"
            (Some (or_else (user_username
                     (set_online true 0 (Example.account "alice-id" "alice")))
                     "Unknown"))
            false (exec (cleanupWebSocket 1) (Example.online "active"))
          = [EvSend 2 (PresenceUpdate "alice-id" (Some "alice") false 0)])
    by (vm_compute; reflexivity).
  rewrite Hsends in Htrace.
  exact (conj Hfresh (conj Hcalm (conj Hwf (conj Hone (conj Hsend Htrace))))).
Defined.

(** ** C5: persistence comes before the broadcast *)

Lemma persisted_first_true t : persisted_first true t = true.
Proof.
  induction t as [|e t IH]; [done|].
  destruct e as [c f| | |call|call]; simpl; try done.
  - by destruct f.
  - by destruct call.
Qed.

Lemma sent_app t1 t2 : sent (t1 ++ t2) = sent t1 ++ sent t2.
Proof. apply omap_app. Qed.

Lemma closed_app t1 t2 : closed (t1 ++ t2) = closed t1 ++ closed t2.
Proof. apply omap_app. Qed.

(** C5.  For each negotiation-mutating frame the message row is persisted
    before anything is broadcast: in the events of the handler every
    [negotiation_update] comes after the return of [createMessage], and it
    carries the identity of the one row the handler appended to the message
    log.  If [createMessage] throws, no [negotiation_update] is handed out:
    the only frame sent is the handler's error frame, to the sender, and no
    socket is closed or otherwise touched. *)
Theorem persist_before_broadcast ws w m id :
  target m = Some id →
  let w' := exec (dispatch ws m) w in
  let t := since w w' in
  persisted_first false t = true
  ∧ (∀ c id' um, EvSend c (NegotiationUpdate id' um) ∈ t →
       ∃ row, negotiationMessages w' = negotiationMessages w ++ [row]
              ∧ msg_negotiationId row = id' ∧ carries um row)
  ∧ ((∃ row, EvDbThrew (CreateMessage row) ∈ t) →
       sent t = [(ws, ErrorFrame (failure_text m))]
       ∧ closed t = []
       ∧ sockets w' = sockets w).
Proof.
  intros Htarget w' t. subst t w'.
  change (post (dispatch ws m) w (λ _ w',
    persisted_first false (since w w') = true
    ∧ (∀ c id' um, EvSend c (NegotiationUpdate id' um) ∈ since w w' →
         ∃ row, negotiationMessages w' = negotiationMessages w ++ [row]
                ∧ msg_negotiationId row = id' ∧ carries um row)
    ∧ ((∃ row, EvDbThrew (CreateMessage row) ∈ since w w') →
         sent (since w w') = [(ws, ErrorFrame (failure_text m))]
         ∧ closed (since w w') = []
         ∧ sockets w' = sockets w))).
  destruct m; simplify_eq/=.
  all: repeat (post_step; simpl).
  all: trace_norm.
  all: split; [by rewrite ?persisted_first_true|].
  all: split;
    [ intros c id' um Hin; in_trace Hin; simplify_eq; eexists; done
    | intros (row & Hin); in_trace Hin; simplify_eq; try done ].
Qed.

Lemma persist_before_broadcast_witness :
  let w := with_faults [false; true] (Example.joined "active") in
  let t := since w (exec (dispatch 1 (negotiation_message "N1" "hello")) w) in
  target (negotiation_message "N1" "hello") = Some "N1"
  ∧ persisted_first false t = true
  ∧ sent t = [(1%nat, ErrorFrame "Failed to send message")].
Proof.
  pose proof (persist_before_broadcast 1
    (with_faults [false; true] (Example.joined "active"))
    (negotiation_message "N1" "hello") "N1" eq_refl) as (Hfirst & _ & Hthrown).
  assert (Hin : ∃ row, EvDbThrew (CreateMessage row)
                  ∈ since (with_faults [false; true] (Example.joined "active"))
                      (exec (dispatch 1 (negotiation_message "N1" "hello"))
                         (with_faults [false; true] (Example.joined "active")))).
  { eexists. vm_compute. apply elem_of_cons. right. apply elem_of_cons. by left. }
  destruct (Hthrown Hin) as (Hsent & _ & _).
  exact (conj eq_refl (conj Hfirst Hsent)).
Defined.

(** ** C6: a frame of unknown type *)

Lemma parse_unknown_type message :
  unknown_kind message → wsMessageSchema_parse message = None.
Proof.
  unfold unknown_kind. destruct message as [| | | | |o]; try done.
  simpl. unfold wsMessageSchema_parse.
  destruct (z_string "type" o) as [t|]; [|done].
  intros Hunknown. unfold known_types in Hunknown.
  repeat (rewrite decide_False;
          [|intros ->; apply Hunknown; repeat first [by left | right]]).
  done.
Qed.

(** C6, on the code.  An authenticated connection that sends a frame whose
    [type] is none of the ten known kinds (or is missing, or is no string)
    is answered ["Invalid message format"]: the schema rejects the frame
    before the [switch] is reached, so the reply
    ["Unknown message type: <type>"] of its [default] arm is never sent.
    The connection stays open and nothing else changes. *)
Theorem unknown_type_answered_invalid_format ws w message :
  ws_isAuthenticated (socket_of ws w) = true →
  truthy (ws_userId (socket_of ws w)) = true →
  unknown_kind message →
  let w' := exec (on_message ws (Some message)) w in
  since w w' = [EvSend ws (ErrorFrame "Invalid message format")]
  ∧ (∀ t, EvSend ws (ErrorFrame ("Unknown message type: " +:+ t)) ∉ since w w')
  ∧ sockets w' = sockets w
  ∧ userSockets w' = userSockets w
  ∧ negotiationRooms w' = negotiationRooms w.
Proof.
  intros Hauth Huid Hunknown w'. subst w'.
  change (post (on_message ws (Some message)) w (λ _ w',
    since w w' = [EvSend ws (ErrorFrame "Invalid message format")]
    ∧ (∀ t, EvSend ws (ErrorFrame ("Unknown message type: " +:+ t)) ∉ since w w')
    ∧ sockets w' = sockets w
    ∧ userSockets w' = userSockets w
    ∧ negotiationRooms w' = negotiationRooms w)).
  unfold on_message, handleWebSocketMessage.
  rewrite (parse_unknown_type _ Hunknown).
  destruct message as [| | | | |o].
  all: repeat (post_step; simpl; rewrite ?Hauth, ?Huid; simpl).
  all: unfold since; simpl; rewrite since_app.
  all: split; [done|]; split; [|done].
  all: intros t [Heq|Hin]%elem_of_cons; [discriminate Heq|].
  all: by apply elem_of_nil in Hin.
Qed.

Lemma unknown_type_answered_invalid_format_witness :
  let w := Example.online "active" in
  let message := JObj [("type", JStr "foo")] in
  ws_isAuthenticated (socket_of 1 w) = true
  ∧ truthy (ws_userId (socket_of 1 w)) = true
  ∧ unknown_kind message
  ∧ since w (exec (on_message 1 (Some message)) w)
    = [EvSend 1 (ErrorFrame "Invalid message format")].
Proof.
  assert (Hauth : ws_isAuthenticated (socket_of 1 (Example.online "active")) = true)
    by (vm_compute; reflexivity).
  assert (Huid : truthy (ws_userId (socket_of 1 (Example.online "active"))) = true)
    by (vm_compute; reflexivity).
  assert (Hunknown : unknown_kind (JObj [("type", JStr "foo")])).
  { unfold unknown_kind, known_types. simpl. intros Hin.
    repeat (apply elem_of_cons in Hin as [Hin|Hin]; [discriminate Hin|]).
    by apply elem_of_nil in Hin. }
  pose proof (unknown_type_answered_invalid_format 1 (Example.online "active")
    (JObj [("type", JStr "foo")]) Hauth Huid Hunknown) as (H & _).
  exact (conj Hauth (conj Huid (conj Hunknown H))).
Defined.

(** ** C7 and C10: joining and leaving a room *)

Lemma room_of_joined ws id rooms :
  map_get id (joined_rooms ws id rooms)
  = Some (set_add ws (default [] (map_get id rooms))).
Proof.
  unfold joined_rooms. rewrite map_get_set_eq. do 2 f_equal.
  destruct (map_has id rooms) eqn:Hhas; [done|].
  rewrite map_get_set_eq. simpl.
  destruct (map_get id rooms) eqn:Hget; [|done].
  assert (map_has id rooms = true) by (apply map_has_get; by rewrite Hget).
  congruence.
Qed.

Lemma joined_rooms_idem ws id rooms :
  joined_rooms ws id (joined_rooms ws id rooms) = joined_rooms ws id rooms.
Proof.
  unfold joined_rooms at 1.
  assert (Hhas : map_has id (joined_rooms ws id rooms) = true).
  { apply map_has_get. by rewrite room_of_joined. }
  rewrite Hhas, room_of_joined. simpl. rewrite set_add_idem.
  apply map_set_same, room_of_joined.
Qed.

(** The world a successful join produces. *)
Lemma join_success ws id w :
  may_join ws id w →
  exec (handleJoinNegotiation ws (Some id)) w =
  with_log (log w ++ [EvDb (GetNegotiation id);
                      EvSend ws (NegotiationJoined id (clock w))])
    (with_negotiationRooms (joined_rooms ws id (negotiationRooms w))
       (with_faults (tail (faults w)) w)).
Proof.
  intros (Hid & (uid & n & Hne & Huid & Hsel & Hpart) & (H0 & _)).
  assert (Hpass : bool_decide (Some (neg_buyerId n) ≠ Some uid)
                  && bool_decide (Some (neg_sellerId n) ≠ Some uid) = false).
  { destruct Hpart as [Hb | Hs].
    - rewrite (bool_decide_false (Some (neg_buyerId n) ≠ Some uid))
        by (intros H; apply H; by rewrite Hb).
      done.
    - rewrite (bool_decide_false (Some (neg_sellerId n) ≠ Some uid))
        by (intros H; apply H; by rewrite Hs).
      apply andb_false_r. }
  change (post (handleJoinNegotiation ws (Some id)) w (λ _ w',
    w' = with_log (log w ++ [EvDb (GetNegotiation id);
                             EvSend ws (NegotiationJoined id (clock w))])
           (with_negotiationRooms (joined_rooms ws id (negotiationRooms w))
              (with_faults (tail (faults w)) w)))).
  unfold handleJoinNegotiation.
  rewrite (truthy_Some _ Hid).
  repeat (post_step; simpl;
          rewrite ?Huid, ?Hsel, ?Hpass, ?(truthy_Some _ Hne); simpl).
  all: try congruence.
  unfold joined_rooms, with_log, with_negotiationRooms, with_faults.
  destruct (map_has id (negotiationRooms w)); simpl;
    rewrite <- ?app_assoc; reflexivity.
Qed.

Lemma broadcast_reaches_member ws id f w :
  ws ∈ room_of id w →
  ws_readyState (socket_of ws w) = OPEN →
  EvSend ws f ∈ since w (exec (broadcastToNegotiation id f) w).
Proof.
  intros Hin Hopen.
  change (post (broadcastToNegotiation id f) w (λ _ w',
    EvSend ws f ∈ since w w')).
  post_step. unfold since. simpl. rewrite since_app.
  apply (list_elem_of_fmap_2 (λ c, EvSend c f)), list_elem_of_filter. done.
Qed.

(** C10.  Joining looks at participancy only, never at the status: for a
    negotiation that exists, whatever its status (completed and cancelled
    included), the join of a connection of the buyer or of the seller adds
    the connection to the room and answers [negotiation_joined]; every
    later broadcast to the room is handed to the connection while it is
    open. *)
Theorem join_ignores_status ws id w :
  may_join ws id w →
  let w' := exec (handleJoinNegotiation ws (Some id)) w in
  room_of id w' = set_add ws (room_of id w)
  ∧ ws ∈ room_of id w'
  ∧ since w w' = [EvDb (GetNegotiation id);
                  EvSend ws (NegotiationJoined id (clock w))]
  ∧ (∀ f, ws_readyState (socket_of ws w') = OPEN →
          EvSend ws f ∈ since w' (exec (broadcastToNegotiation id f) w')).
Proof.
  intros Hjoin w'.
  assert (Hroom : room_of id w' = set_add ws (room_of id w)).
  { subst w'. rewrite join_success by done. unfold room_of. simpl.
    by rewrite room_of_joined. }
  split; [done|]. split; [rewrite Hroom; apply set_add_elem|].
  split.
  - subst w'. rewrite join_success by done. unfold since. simpl.
    by rewrite since_app.
  - intros f Hopen. apply broadcast_reaches_member; [|done].
    rewrite Hroom. apply set_add_elem.
Qed.

Lemma join_ignores_status_witness :
  let w := Example.online "completed" in
  let w' := exec (handleJoinNegotiation 2 (Some "N1")) w in
  may_join 2 "N1" w
  ∧ neg_status <$> select_negotiation "N1" (negotiations w) = Some (Some "completed")
  ∧ 2%nat ∈ room_of "N1" w'
  ∧ since w w' = [EvDb (GetNegotiation "N1"); EvSend 2 (NegotiationJoined "N1" 0)].
Proof.
  assert (Hjoin : may_join 2 "N1" (Example.online "completed")).
  { split; [done|]. split.
    - exists "bob-id", (Example.N1 "completed").
      split; [done|]. split; [vm_compute; reflexivity|].
      split; [vm_compute; reflexivity|].
      by right.
    - vm_compute; tauto. }
  assert (Hstatus : neg_status <$> select_negotiation "N1"
                      (negotiations (Example.online "completed"))
                    = Some (Some "completed")) by (vm_compute; reflexivity).
  pose proof (join_ignores_status 2 "N1" (Example.online "completed") Hjoin)
    as (_ & Hin & Hsince & _).
  exact (conj Hjoin (conj Hstatus (conj Hin Hsince))).
Defined.

Lemma may_join_again ws id w :
  may_join ws id w → no_fault 2 w →
  may_join ws id (exec (handleJoinNegotiation ws (Some id)) w).
Proof.
  intros Hjoin (_ & H1 & _). rewrite join_success by done.
  destruct Hjoin as (Hid & Hparty & _). split; [done|]. split; [exact Hparty|].
  split; [exact H1 | exact I].
Qed.

(** The rooms after [handleLeaveNegotiation]. *)
Lemma leave_rooms ws id w :
  id ≠ "" →
  negotiationRooms (exec (handleLeaveNegotiation ws (Some id)) w) =
  match map_get id (negotiationRooms w) with
  | Some room =>
      if decide (set_size (set_delete ws room) = 0%nat)
      then map_delete id (negotiationRooms w)
      else map_set id (set_delete ws room) (negotiationRooms w)
  | None => negotiationRooms w
  end.
Proof.
  intros Hid.
  change (post (handleLeaveNegotiation ws (Some id)) w (λ _ w',
    negotiationRooms w' =
    match map_get id (negotiationRooms w) with
    | Some room =>
        if decide (set_size (set_delete ws room) = 0%nat)
        then map_delete id (negotiationRooms w)
        else map_set id (set_delete ws room) (negotiationRooms w)
    | None => negotiationRooms w
    end)).
  unfold handleLeaveNegotiation. rewrite (truthy_Some _ Hid). simpl.
  repeat (post_step; simpl).
  destruct (map_get id (negotiationRooms w)) as [room|]; [|done].
  by destruct (decide (set_size (set_delete ws room) = 0%nat)).
Qed.

(** C7.  Joining the same room twice is the same as joining it once: the
    second join leaves the room registry as the first one made it, and the
    connection occurs exactly once in the room.  One leave then removes
    the connection from the room, and the room itself is deleted from the
    registry when the connection was its only member. *)
Theorem join_idempotent_leave_cancels ws id w :
  may_join ws id w →
  no_fault 2 w →
  NoDup (room_of id w) →
  let w1 := exec (handleJoinNegotiation ws (Some id)) w in
  let w2 := exec (handleJoinNegotiation ws (Some id)) w1 in
  let w3 := exec (handleLeaveNegotiation ws (Some id)) w2 in
  negotiationRooms w2 = negotiationRooms w1
  ∧ length (filter (λ c, c = ws) (room_of id w2)) = 1%nat
  ∧ (ws ∉ room_of id w3)
  ∧ (∀ c, (c ∈ room_of id w3) ↔ (c ≠ ws ∧ c ∈ room_of id w))
  ∧ (room_of id w3 = [] → map_get id (negotiationRooms w3) = None).
Proof.
  intros Hjoin Hcalm Hnodup w1 w2 w3.
  pose proof (may_join_again ws id w Hjoin Hcalm) as Hjoin1.
  assert (Hrooms1 : negotiationRooms w1 = joined_rooms ws id (negotiationRooms w)).
  { subst w1. by rewrite join_success. }
  assert (Hrooms2 : negotiationRooms w2 = negotiationRooms w1).
  { subst w2. rewrite join_success by done. simpl. fold w1.
    rewrite Hrooms1. apply joined_rooms_idem. }
  assert (Hroom2 : room_of id w2 = set_add ws (room_of id w)).
  { unfold room_of. rewrite Hrooms2, Hrooms1, room_of_joined. done. }
  assert (Hid : id ≠ "") by apply Hjoin.
  assert (Hget2 : map_get id (negotiationRooms w2)
                  = Some (set_add ws (room_of id w))).
  { rewrite Hrooms2, Hrooms1. apply room_of_joined. }
  assert (Hroom3 : room_of id w3 = set_delete ws (set_add ws (room_of id w))).
  { unfold room_of at 1. subst w3. rewrite leave_rooms by done.
    rewrite Hget2.
    destruct (decide (set_size (set_delete ws (set_add ws (room_of id w))) = 0%nat))
      as [Hempty|Hnonempty].
    - rewrite map_get_delete_eq. simpl. symmetry.
      by apply length_zero_iff_nil.
    - by rewrite map_get_set_eq. }
  split; [done|]. split.
  { rewrite Hroom2. apply NoDup_occurs_once.
    - by apply set_add_NoDup.
    - apply set_add_elem. }
  split.
  { rewrite Hroom3. intros [Hne _]%set_delete_elem. done. }
  split.
  { intros c. rewrite Hroom3, set_delete_elem, set_add_elem_iff.
    split; [intros [Hc [->|Hin]]; done | intros [Hc Hin]; split; [done|by right]]. }
  intros Hempty. subst w3. rewrite leave_rooms by done. rewrite Hget2.
  rewrite Hroom3 in Hempty. rewrite Hempty. simpl.
  apply map_get_delete_eq.
Qed.

Lemma join_idempotent_leave_cancels_witness :
  let w := Example.online "active" in
  let w1 := exec (handleJoinNegotiation 1 (Some "N1")) w in
  let w2 := exec (handleJoinNegotiation 1 (Some "N1")) w1 in
  let w3 := exec (handleLeaveNegotiation 1 (Some "N1")) w2 in
  may_join 1 "N1" w
  ∧ no_fault 2 w
  ∧ NoDup (room_of "N1" w)
  ∧ length (filter (λ c, c = 1%nat) (room_of "N1" w2)) = 1%nat
  ∧ 1%nat ∉ room_of "N1" w3.
Proof.
  assert (Hjoin : may_join 1 "N1" (Example.online "active")).
  { split; [done|]. split.
    - exists "alice-id", (Example.N1 "active").
      split; [done|]. split; [vm_compute; reflexivity|].
      split; [vm_compute; reflexivity|].
      by left.
    - vm_compute; tauto. }
  assert (Hcalm : no_fault 2 (Example.online "active")) by (vm_compute; tauto).
  assert (Hnodup : NoDup (room_of "N1" (Example.online "active")))
    by (vm_compute; constructor).
  pose proof (join_idempotent_leave_cancels 1 "N1" (Example.online "active")
                Hjoin Hcalm Hnodup) as (_ & Hone & Hout & _).
  exact (conj Hjoin (conj Hcalm (conj Hnodup (conj Hone Hout)))).
Defined.

(** ** C8: reconnection of the client *)

Lemma join_frame_parses id :
  wsMessageSchema_parse (Client.join_frame id) = Some (join_negotiation id).
Proof. reflexivity. Qed.

(** Replaying the rooms on a connected manager sends one join per room,
    in order, and changes nothing else. *)
Lemma replay_rooms rooms m :
  Client.isConnected m = true → Client.ws m = true →
  foldl (λ m id, Client.send (Client.join_frame id) m) m rooms =
  Client.with_effects (Client.effects m ++ (Client.Sent ∘ join_negotiation <$> rooms)) m.
Proof.
  revert m. induction rooms as [|id rooms IH]; intros m Hc Hws; simpl.
  - rewrite app_nil_r. by destruct m.
  - unfold Client.send at 2. rewrite Hc, Hws, join_frame_parses. simpl.
    rewrite IH by done. unfold Client.with_effects, Client.effect. simpl.
    by rewrite <- app_assoc.
Qed.

Lemma backoff_values :
  Client.backoff 1 = 2000%Z ∧ Client.backoff 2 = 4000%Z
  ∧ Client.backoff 3 = 8000%Z ∧ Client.backoff 4 = 16000%Z
  ∧ ∀ n, (5 ≤ n)%nat → Client.backoff n = 30000%Z.
Proof.
  repeat split. intros n Hn. unfold Client.backoff.
  apply Z.min_r.
  assert (2 ^ 5 ≤ 2 ^ Z.of_nat n)%Z by (apply Z.pow_le_mono_r; lia).
  lia.
Qed.

(** A connection attempt that obtains its token opens a socket and touches
    neither the rooms nor the retry counter; it sends nothing. *)
Lemma attempt_opens now response m :
  obtains_token now response m →
  let m' := Client.establishConnection now response m in
  Client.ws m' = true
  ∧ Client.cs_status (Client.connectionState m') = Client.connecting
  ∧ Client.retryCount (Client.connectionState m')
    = Client.retryCount (Client.connectionState m)
  ∧ Client.currentNegotiationRooms m' = Client.currentNegotiationRooms m
  ∧ Client.isUserDisconnected m' = Client.isUserDisconnected m
  ∧ Client.reconnectTimeout m' = Client.reconnectTimeout m
  ∧ (∃ token refresh,
       new_effects m m' = refresh ++ [Client.Opened token]
       ∧ ∀ v, Client.Sent v ∉ refresh).
Proof.
  intros Hget. simpl.
  unfold Client.establishConnection, Client.ensureValidToken. simpl.
  destruct (truthy (Client.token m)
            && bool_decide (now + 2 * 60 * 1000 < Client.tokenExpiresAt m)%Z)
    eqn:Hvalid.
  - apply andb_true_iff in Hvalid as [Htok _]. simpl. rewrite Htok. simpl.
    do 6 (split; [done|]).
    exists (default "" (Client.token m)), []. split.
    + unfold new_effects. simpl. by rewrite drop_app_length.
    + intros v Hin. by apply elem_of_nil in Hin.
  - destruct Hget as [[Htok Hfresh]|(tokenData & -> & Hne)].
    { rewrite Htok, bool_decide_true in Hvalid by done. discriminate Hvalid. }
    destruct (bool_decide (0 < Client.wt_expiresIn tokenData - 2 * 60 * 1000)%Z);
      simpl; rewrite (bool_decide_false _ Hne); simpl.
    + do 6 (split; [done|]).
      eexists _, [_]. split.
      * unfold new_effects. simpl. rewrite <- app_assoc. by rewrite drop_app_length.
      * intros v Hin. apply list_elem_of_singleton in Hin. discriminate Hin.
    + do 6 (split; [done|]).
      eexists _, []. split.
      * unfold new_effects. simpl. by rewrite drop_app_length.
      * intros v Hin. by apply elem_of_nil in Hin.
Qed.

(** When the socket the manager holds opens, the counter is reset and the
    rooms are replayed. *)
Lemma open_replays m :
  Client.ws m = true →
  let m' := Client.ws_onopen m in
  Client.retryCount (Client.connectionState m') = 0%nat
  ∧ Client.cs_status (Client.connectionState m') = Client.connected
  ∧ new_effects m m'
    = Client.Sent ∘ join_negotiation <$> Client.currentNegotiationRooms m
  ∧ Client.currentNegotiationRooms m' = Client.currentNegotiationRooms m.
Proof.
  intros Hws. unfold Client.ws_onopen, new_effects. simpl.
  rewrite replay_rooms by done. simpl. by rewrite drop_app_length.
Qed.

(** When the manager holds no socket as one opens, the counter is reset
    all the same and nothing is sent. *)
Lemma open_without_socket m :
  Client.ws m = false →
  let m' := Client.ws_onopen m in
  Client.retryCount (Client.connectionState m') = 0%nat
  ∧ Client.cs_status (Client.connectionState m') = Client.connected
  ∧ Client.effects m' = Client.effects m
  ∧ Client.currentNegotiationRooms m' = Client.currentNegotiationRooms m
  ∧ Client.reconnectTimeout m' = Client.reconnectTimeout m
  ∧ Client.ws m' = false.
Proof.
  intros Hws. unfold Client.ws_onopen. simpl.
  set (m0 := Client.updateConnectionState Client.connected None 0 m).
  assert (Hall : ∀ rooms,
    foldl (λ m id, Client.send (Client.join_frame id) m) m0 rooms = m0).
  { induction rooms as [|id rooms IH]; [done|]. simpl.
    unfold Client.send at 2. simpl. rewrite Hws. simpl. apply IH. }
  by rewrite Hall.
Qed.

(** An unexpected close arms the reconnect timer for the next attempt. *)
Lemma unexpected_close_schedules_retry m :
  Client.isUserDisconnected m = false →
  let m' := Client.ws_onclose m in
  let n := S (Client.retryCount (Client.connectionState m)) in
  Client.ws m' = false
  ∧ Client.isUserDisconnected m' = false
  ∧ Client.retryCount (Client.connectionState m') = n
  ∧ Client.cs_status (Client.connectionState m') = Client.reconnecting
  ∧ Client.reconnectTimeout m' = Some (Client.backoff n)
  ∧ Client.currentNegotiationRooms m' = Client.currentNegotiationRooms m
  ∧ Client.token m' = Client.token m
  ∧ Client.tokenExpiresAt m' = Client.tokenExpiresAt m
  ∧ Client.effects m' = Client.effects m ++ [Client.ReconnectIn (Client.backoff n)].
Proof.
  intros Hd. unfold Client.ws_onclose, Client.scheduleReconnect. simpl.
  rewrite Hd. simpl. by rewrite Nat.add_1_r.
Qed.

(** The path the reconnection is written for: an unexpected close, the
    timer it armed, an attempt that obtains its token, and the open event
    of the socket of that attempt.  The rooms are replayed. *)
Lemma retry_replays_rooms now response m :
  Client.isUserDisconnected m = false →
  obtains_token now response m →
  let m1 := Client.ws_onclose m in
  let m2 := Client.reconnect_timer now response m1 in
  let m3 := Client.ws_onopen m2 in
  Client.retryCount (Client.connectionState m3) = 0%nat
  ∧ Client.cs_status (Client.connectionState m3) = Client.connected
  ∧ new_effects m2 m3
    = Client.Sent ∘ join_negotiation <$> Client.currentNegotiationRooms m.
Proof.
  intros Hd Hget m1 m2 m3.
  destruct (unexpected_close_schedules_retry m Hd)
    as (_ & Hd1 & _ & _ & _ & Hrooms1 & Htok1 & Hexp1 & _).
  fold m1 in Hd1, Hrooms1, Htok1, Hexp1.
  assert (Hget1 : obtains_token now response m1).
  { destruct Hget as [[Htok Hfresh]|Hgranted]; [left|by right].
    by rewrite Htok1, Hexp1. }
  assert (Hm2 : m2 = Client.establishConnection now response m1).
  { unfold m2, Client.reconnect_timer. by rewrite Hd1. }
  destruct (attempt_opens now response m1 Hget1)
    as (Hws2 & _ & _ & Hrooms2 & _). rewrite <- Hm2 in Hws2, Hrooms2.
  destruct (open_replays m2 Hws2) as (Hr & Hs & Hsent & _). fold m3 in Hr, Hs, Hsent.
  split; [done|]. split; [done|]. by rewrite Hsent, Hrooms2, Hrooms1.
Qed.

(** C8.  The reconnection after a token refresh.  On a connected manager
    whose token has come within two minutes of its expiry the refresh
    timer obtains a new token and runs [disconnect(); connect()]: the old
    socket is closed and a new one is opened with the new token.  When the
    new socket opens first, one [join_negotiation] is sent for every room.
    When the close event of the old socket comes first, its handler clears
    [this.ws], which by then is the new socket, and arms the reconnect
    timer; as the new socket opens the counter is reset to zero and the
    status is [connected], but every replayed join is dropped: nothing is
    sent, while the rooms are still remembered. *)
Theorem stale_close_drops_replayed_joins now tokenData now' response' m :
  Client.isConnected m = true →
  Client.ws m = true →
  truthy (Client.token m)
  && bool_decide (now + 2 * 60 * 1000 < Client.tokenExpiresAt m)%Z = false →
  Client.wt_token tokenData ≠ "" →
  (now' + 2 * 60 * 1000 < now + Client.wt_expiresIn tokenData)%Z →
  let m1 := Client.token_refresh_timer now (Client.Granted tokenData)
              now' response' m in
  let m2 := Client.ws_onclose m1 in
  let m3 := Client.ws_onopen m2 in
  let rooms := Client.currentNegotiationRooms m in
  (∃ refresh,
     new_effects m m1
     = refresh ++ [Client.SocketClosed; Client.Opened (Client.wt_token tokenData)]
     ∧ ∀ v, Client.Sent v ∉ refresh)
  ∧ Client.ws m1 = true
  ∧ Client.currentNegotiationRooms m1 = rooms
  ∧ new_effects m1 (Client.ws_onopen m1) = Client.Sent ∘ join_negotiation <$> rooms
  ∧ new_effects m1 m2 = [Client.ReconnectIn 2000]
  ∧ Client.ws m2 = false
  ∧ Client.cs_status (Client.connectionState m3) = Client.connected
  ∧ Client.retryCount (Client.connectionState m3) = 0%nat
  ∧ Client.currentNegotiationRooms m3 = rooms
  ∧ new_effects m2 m3 = []
  ∧ Client.reconnectTimeout m3 = Some 2000%Z.
Proof.
  intros Hc Hws Hstale Hne Hfresh m1 m2 m3 rooms.
  set (m0 := (Client.ensureValidToken now (Client.Granted tokenData) m).2).
  assert (Hm0 : Client.ensureValidToken now (Client.Granted tokenData) m
                = (inr (), m0)).
  { unfold m0, Client.ensureValidToken. rewrite Hstale.
    by destruct (bool_decide (0 < Client.wt_expiresIn tokenData - 2 * 60 * 1000)%Z). }
  assert (Hfacts : Client.isConnected m0 = true
                   ∧ Client.ws m0 = true
                   ∧ Client.token m0 = Some (Client.wt_token tokenData)
                   ∧ Client.tokenExpiresAt m0
                     = (now + Client.wt_expiresIn tokenData)%Z
                   ∧ Client.currentNegotiationRooms m0 = rooms
                   ∧ ∃ refresh, Client.effects m0 = Client.effects m ++ refresh
                                ∧ ∀ v, Client.Sent v ∉ refresh).
  { unfold m0, Client.ensureValidToken. rewrite Hstale.
    destruct (bool_decide (0 < Client.wt_expiresIn tokenData - 2 * 60 * 1000)%Z);
      simpl.
    - do 5 (split; [done|]). eexists [_]. split; [done|].
      intros v Hin. apply list_elem_of_singleton in Hin. discriminate Hin.
    - do 5 (split; [done|]). exists []. split; [by rewrite app_nil_r|].
      intros v Hin. by apply elem_of_nil in Hin. }
  destruct Hfacts as (Hc0 & Hws0 & Htok0 & Hexp0 & Hrooms0 & refresh & Heff0 & Hquiet).
  remember (Client.disconnect m0) as md eqn:Hmd_def.
  assert (Hmd : Client.effects md = Client.effects m0 ++ [Client.SocketClosed]
                ∧ Client.token md = Client.token m0
                ∧ Client.tokenExpiresAt md = Client.tokenExpiresAt m0
                ∧ Client.currentNegotiationRooms md = rooms
                ∧ Client.isConnecting md = false
                ∧ Client.isConnected md = false).
  { rewrite Hmd_def. unfold Client.disconnect. simpl. rewrite Hws0. simpl.
    by rewrite Hrooms0. }
  destruct Hmd as (Heffd & Htokd & Hexpd & Hroomsd & Hcgd & Hcd).
  assert (Hm1 : m1 = Client.establishConnection now' response'
                       (Client.with_isUserDisconnected false md)).
  { unfold m1, Client.token_refresh_timer, Client.refreshToken.
    rewrite Hc, Hm0, Hc0, <- Hmd_def. unfold Client.connect.
    by rewrite Hcgd, Hcd. }
  remember (Client.with_isUserDisconnected false md) as mc eqn:Hmc_def.
  assert (Hmc : Client.effects mc = Client.effects md
                ∧ Client.token mc = Client.token md
                ∧ Client.tokenExpiresAt mc = Client.tokenExpiresAt md
                ∧ Client.currentNegotiationRooms mc = rooms
                ∧ Client.isUserDisconnected mc = false
                ∧ Client.retryCount (Client.connectionState mc) = 0%nat).
  { rewrite Hmc_def. simpl. do 5 (split; [done|]).
    rewrite Hmd_def. unfold Client.disconnect. by destruct (Client.ws _). }
  destruct Hmc as (Heffc & Htokc & Hexpc & Hroomsc & Hdc & Hrc).
  assert (Hvalid : truthy (Client.token mc)
                   && bool_decide (now' + 2 * 60 * 1000
                                   < Client.tokenExpiresAt mc)%Z = true).
  { rewrite Htokc, Hexpc, Htokd, Hexpd, Htok0, Hexp0.
    rewrite (truthy_Some _ Hne). by rewrite bool_decide_true. }
  assert (Hm1' : m1 = Client.with_ws true
                        (Client.effect (Client.Opened (Client.wt_token tokenData))
                           (Client.updateConnectionState Client.connecting None
                              (Client.retryCount (Client.connectionState mc)) mc))).
  { rewrite Hm1. unfold Client.establishConnection, Client.ensureValidToken.
    simpl. rewrite Hvalid.
    apply andb_true_iff in Hvalid as [Htok _]. simpl. rewrite Htok.
    by rewrite Htokc, Htokd, Htok0. }
  assert (Heff1 : Client.effects m1
                  = Client.effects m ++ refresh
                    ++ [Client.SocketClosed;
                        Client.Opened (Client.wt_token tokenData)]).
  { rewrite Hm1'. simpl. rewrite Heffc, Heffd, Heff0.
    by rewrite <- !app_assoc. }
  assert (Hd1 : Client.isUserDisconnected m1 = false) by (by rewrite Hm1').
  assert (Hr1 : Client.retryCount (Client.connectionState m1) = 0%nat).
  { rewrite Hm1'. simpl. done. }
  assert (Hrooms1 : Client.currentNegotiationRooms m1 = rooms).
  { rewrite Hm1'. simpl. done. }
  assert (Hws1 : Client.ws m1 = true) by (by rewrite Hm1').
  split.
  { exists refresh. split; [|done]. unfold new_effects.
    by rewrite Heff1, drop_app_length. }
  split; [done|]. split; [done|]. split.
  { destruct (open_replays m1 Hws1) as (_ & _ & Hsent & _).
    by rewrite Hsent, Hrooms1. }
  destruct (unexpected_close_schedules_retry m1 Hd1)
    as (Hws2 & _ & _ & _ & Htimer2 & Hrooms2 & _ & _ & Heff2).
  fold m2 in Hws2, Htimer2, Hrooms2, Heff2. rewrite Hr1 in Htimer2, Heff2.
  split. { unfold new_effects. by rewrite Heff2, drop_app_length. }
  split; [done|].
  destruct (open_without_socket m2 Hws2) as (Hr3 & Hs3 & Heff3 & Hrooms3 & Htimer3 & _).
  fold m3 in Hr3, Hs3, Heff3, Hrooms3, Htimer3.
  split; [done|]. split; [done|]. split; [by rewrite Hrooms3, Hrooms2|].
  split. { unfold new_effects. by rewrite Heff3, drop_all. }
  by rewrite Htimer3, Htimer2.
Qed.

Lemma stale_close_drops_replayed_joins_witness :
  let m := Client.joinNegotiation "N1"
             (Client.ws_onopen
                (Client.connect 0
                   (Client.Granted {| Client.wt_token := "t1";
                                      Client.wt_expiresIn := 900000 |})
                   Client.new)) in
  let m1 := Client.token_refresh_timer 780000
              (Client.Granted {| Client.wt_token := "t2";
                                 Client.wt_expiresIn := 900000 |})
              780000 (Client.Failed None) m in
  let m2 := Client.ws_onclose m1 in
  let m3 := Client.ws_onopen m2 in
  Client.isConnected m = true
  ∧ Client.ws m = true
  ∧ Client.currentNegotiationRooms m3 = ["N1"]
  ∧ Client.cs_status (Client.connectionState m3) = Client.connected
  ∧ Client.retryCount (Client.connectionState m3) = 0%nat
  ∧ new_effects m2 m3 = [].
Proof.
  cbv zeta.
  assert (Hne : "t2" ≠ "") by (intros H; discriminate H).
  pose proof (stale_close_drops_replayed_joins 780000
    {| Client.wt_token := "t2"; Client.wt_expiresIn := 900000 |}
    780000 (Client.Failed None)
    (Client.joinNegotiation "N1"
       (Client.ws_onopen
          (Client.connect 0
             (Client.Granted {| Client.wt_token := "t1";
                                Client.wt_expiresIn := 900000 |})
             Client.new)))
    eq_refl eq_refl eq_refl Hne eq_refl) as H.
  cbv zeta in H.
  destruct H as (_ & _ & _ & _ & _ & _ & Hs & Hr & Hrooms & Hnone & _).
  exact (conj eq_refl (conj eq_refl (conj Hrooms (conj Hs (conj Hr Hnone))))).
Defined.

(** ** C9: chat and status messages on a closed negotiation *)

(** C9, as worded, fails: alice's chat message on the completed negotiation
    [N1] is refused and no row is added to the message log. *)
Lemma chat_on_completed_negotiation_not_persisted :
  ¬ audit_persisted 1 (negotiation_message "N1" "hello")
      (Example.joined "completed").
Proof.
  intros (row & Hrow). vm_compute in Hrow. discriminate Hrow.
Qed.

(** C9, amended.  A chat or status message from a participant is persisted
    when the negotiation is neither completed nor cancelled (in particular
    when it is accepted or rejected) and the storage calls return: the
    message log grows by exactly the chat, respectively status, row of the
    sender.  On a completed or cancelled negotiation the frame is refused
    and the message log is unchanged. *)
Theorem audit_message_persisted_unless_terminal ws uid w id n content status :
  ws_userId (socket_of ws w) = Some uid →
  select_negotiation id (negotiations w) = Some n →
  neg_buyerId n = uid ∨ neg_sellerId n = uid →
  let chat := exec (dispatch ws (negotiation_message id content)) w in
  let change := exec (dispatch ws (negotiation_status id status)) w in
  let row kind text :=
    new_message (pretty (length (negotiationMessages w))) (clock w)
      {| ins_negotiationId := id; ins_senderId := uid;
         ins_messageType := kind; ins_content := Some text;
         ins_amount := None |} in
  (¬ terminal n → no_fault 3 w →
     negotiationMessages chat = negotiationMessages w ++ [row Chat content]
     ∧ negotiationMessages change =
         negotiationMessages w
         ++ [row Status ("Negotiation status changed to: " +:+ status)])
  ∧ (terminal n →
     negotiationMessages chat = negotiationMessages w
     ∧ negotiationMessages change = negotiationMessages w).
Proof.
  intros Huid Hsel Hpart chat change row. subst chat change.
  assert (Hpass : bool_decide (neg_buyerId n ≠ uid)
                  && bool_decide (neg_sellerId n ≠ uid) = false).
  { destruct Hpart as [Hb | Hs].
    - rewrite (bool_decide_false (neg_buyerId n ≠ uid)) by (intros H; exact (H Hb)).
      done.
    - rewrite (bool_decide_false (neg_sellerId n ≠ uid)) by (intros H; exact (H Hs)).
      apply andb_false_r. }
  split.
  - intros Hnt (H0 & H1 & H2 & _). split.
    + change (post (dispatch ws (negotiation_message id content)) w (λ _ w',
        negotiationMessages w' = negotiationMessages w ++ [row Chat content])).
      simpl.
      repeat (post_step; simpl;
              rewrite ?Huid, ?Hsel, ?(nonterminal_test_inv _ Hnt), ?Hpass; simpl).
      all: first [congruence | done].
    + change (post (dispatch ws (negotiation_status id status)) w (λ _ w',
        negotiationMessages w' =
          negotiationMessages w
          ++ [row Status ("Negotiation status changed to: " +:+ status)])).
      simpl.
      repeat (post_step; simpl;
              rewrite ?Huid, ?Hsel, ?(nonterminal_test_inv _ Hnt), ?Hpass; simpl).
      all: first [congruence | done].
  - intros Hterm. split.
    + change (post (dispatch ws (negotiation_message id content)) w (λ _ w',
        negotiationMessages w' = negotiationMessages w)).
      simpl.
      repeat (post_step; simpl; rewrite ?Hsel, ?(terminal_test _ Hterm)).
      all: done.
    + change (post (dispatch ws (negotiation_status id status)) w (λ _ w',
        negotiationMessages w' = negotiationMessages w)).
      simpl.
      repeat (post_step; simpl; rewrite ?Hsel, ?(terminal_test _ Hterm)).
      all: done.
Qed.

Lemma audit_message_persisted_unless_terminal_witness :
  let w := Example.joined "accepted" in
  ws_userId (socket_of 2 w) = Some "bob-id"
  ∧ select_negotiation "N1" (negotiations w) = Some (Example.N1 "accepted")
  ∧ ¬ terminal (Example.N1 "accepted")
  ∧ no_fault 3 w
  ∧ negotiationMessages (exec (dispatch 2 (negotiation_message "N1" "hello")) w)
    = [ {| msg_id := "0"; msg_negotiationId := "N1"; msg_senderId := "bob-id";
           msg_messageType := Chat; msg_content := Some "hello";
           msg_amount := None; msg_createdAt := 0 |} ].
Proof.
  assert (Huid : ws_userId (socket_of 2 (Example.joined "accepted"))
                 = Some "bob-id") by (vm_compute; reflexivity).
  assert (Hsel : select_negotiation "N1" (negotiations (Example.joined "accepted"))
                 = Some (Example.N1 "accepted")) by (vm_compute; reflexivity).
  assert (Hnt : ¬ terminal (Example.N1 "accepted"))
    by (intros [H | H]; discriminate H).
  assert (Hcalm : no_fault 3 (Example.joined "accepted"))
    by (vm_compute; tauto).
  pose proof (proj1 (audit_message_persisted_unless_terminal 2 "bob-id"
    (Example.joined "accepted") "N1" (Example.N1 "accepted") "hello" "active"
    Huid Hsel (or_intror eq_refl)) Hnt Hcalm) as (H & _).
  exact (conj Huid (conj Hsel (conj Hnt (conj Hcalm H)))).
Defined.

(** * Further properties *)

(** ** Frames that are refused *)

Lemma untouched_refl w : untouched w w.
Proof. by repeat split. Qed.

(** X1.  A chat, offer, counter, accept, reject or status frame addressed
    to a negotiation that does not exist is refused with
    ["Negotiation not found"]: the tables, both registries and the sockets
    are left as they were, and the only events are the read of the
    negotiation and one error frame to the sender (the handler's own
    failure text when the read itself throws). *)
Theorem missing_negotiation_refused ws id m w :
  select_negotiation id (negotiations w) = None →
  target m = Some id →
  refused ws id "Negotiation not found" m w (exec (dispatch ws m) w).
Proof.
  intros Hsel Htarget.
  change (post (dispatch ws m) w (λ _ w',
    refused ws id "Negotiation not found" m w w')).
  unfold refused, untouched.
  destruct m; simplify_eq/=.
  all: repeat (post_step; simpl; rewrite ?Hsel).
  all: unfold since; simpl; rewrite <- ?app_assoc, since_app.
  all: repeat match goal with H : default false _ = _ |- _ => rewrite H end.
  all: done.
Qed.

(** X2.  Such a frame from a connection of a user who is neither the buyer
    nor the seller of an open negotiation is refused with
    ["Access denied to this negotiation"], and nothing is written or
    broadcast. *)
Theorem outsider_refused ws uid id n m w :
  ws_userId (socket_of ws w) = Some uid →
  select_negotiation id (negotiations w) = Some n →
  ¬ terminal n →
  neg_buyerId n ≠ uid → neg_sellerId n ≠ uid →
  target m = Some id →
  refused ws id "Access denied to this negotiation" m w (exec (dispatch ws m) w).
Proof.
  intros Huid Hsel Hnt Hb Hs Htarget.
  change (post (dispatch ws m) w (λ _ w',
    refused ws id "Access denied to this negotiation" m w w')).
  unfold refused, untouched.
  destruct m; simplify_eq/=.
  all: repeat (post_step; simpl;
               rewrite ?Huid, ?Hsel, ?(nonterminal_test_inv _ Hnt); simpl;
               rewrite ?(bool_decide_true (neg_buyerId n ≠ uid)),
                       ?(bool_decide_true (neg_sellerId n ≠ uid)) by done; simpl).
  all: unfold since; simpl; rewrite <- ?app_assoc, since_app.
  all: repeat match goal with H : default false _ = _ |- _ => rewrite H end.
  all: done.
Qed.

Lemma missing_negotiation_refused_witness :
  let w := Example.joined "active" in
  let m := negotiation_accept "N9" in
  select_negotiation "N9" (negotiations w) = None
  ∧ refused 1 "N9" "Negotiation not found" m w (exec (dispatch 1 m) w).
Proof.
  cbv zeta.
  assert (Hsel : select_negotiation "N9" (negotiations (Example.joined "active"))
                 = None) by (vm_compute; reflexivity).
  exact (conj Hsel
    (missing_negotiation_refused 1 "N9" (negotiation_accept "N9") _ Hsel eq_refl)).
Defined.

Lemma outsider_refused_witness :
  let w := exec (run Example.jwt_verify [Connection 3 (Some "token-carol")])
             (Example.joined "active") in
  let m := negotiation_message "N1" "hello" in
  ws_userId (socket_of 3 w) = Some "carol-id"
  ∧ select_negotiation "N1" (negotiations w) = Some (Example.N1 "active")
  ∧ refused 3 "N1" "Access denied to this negotiation" m w (exec (dispatch 3 m) w).
Proof.
  cbv zeta.
  set (w := exec (run Example.jwt_verify [Connection 3 (Some "token-carol")])
              (Example.joined "active")).
  assert (Huid : ws_userId (socket_of 3 w) = Some "carol-id")
    by (vm_compute; reflexivity).
  assert (Hsel : select_negotiation "N1" (negotiations w)
                 = Some (Example.N1 "active")) by (vm_compute; reflexivity).
  assert (Hnt : ¬ terminal (Example.N1 "active"))
    by (intros [H | H]; discriminate H).
  assert (Hb : neg_buyerId (Example.N1 "active") ≠ "carol-id")
    by (vm_compute; discriminate).
  assert (Hs : neg_sellerId (Example.N1 "active") ≠ "carol-id")
    by (vm_compute; discriminate).
  exact (conj Huid (conj Hsel
    (outsider_refused 3 "carol-id" "N1" (Example.N1 "active")
       (negotiation_message "N1" "hello") w Huid Hsel Hnt Hb Hs eq_refl))).
Defined.

(** ** Counter-offers and acceptance *)

(** X3.  On a negotiation that is neither completed nor cancelled, a
    counter-offer from the buyer (who is not also the seller) is refused
    with ["Only sellers can make counter offers"] and changes nothing; a
    counter-offer from the seller, when the storage calls return, sets
    [currentOffer] to the amount, appends the counter row to the message
    log and hands the update to every open socket of the room. *)
Theorem counter_only_from_seller ws uid id n w amount message :
  ws_userId (socket_of ws w) = Some uid →
  select_negotiation id (negotiations w) = Some n →
  ¬ terminal n →
  let w' := exec (handleNegotiationCounter ws id amount message) w in
  let content := or_else message ("Counter offer: $" +:+ pretty amount) in
  let ins := {| ins_negotiationId := id; ins_senderId := uid;
                ins_messageType := Counter; ins_content := Some content;
                ins_amount := Some (pretty amount) |} in
  let row := new_message (pretty (length (negotiationMessages w))) (clock w) ins in
  (neg_buyerId n = uid → neg_sellerId n ≠ uid → no_fault 1 w →
     untouched w w'
     ∧ since w w' = [EvDb (GetNegotiation id);
                     EvSend ws (ErrorFrame "Only sellers can make counter offers")])
  ∧ (neg_sellerId n = uid → no_fault 4 w →
       select_negotiation id (negotiations w')
         = Some (set_offer (pretty amount) (clock w) n)
       ∧ negotiationMessages w' = negotiationMessages w ++ [row]
       ∧ since w w' =
           [EvDb (GetNegotiation id);
            EvDb (UpdateNegotiation id (pretty amount));
            EvDb (CreateMessage ins);
            EvDb (GetUser uid)]
           ++ room_sends id
                (NegotiationUpdate id
                   (update_of row (senderName (select_user uid (users w)))
                      content (Some amount))) w).
Proof.
  intros Huid Hsel Hnt w' content ins row. subst w'. split.
  - intros Hb Hs (H0 & _).
    change (post (handleNegotiationCounter ws id amount message) w (λ _ w',
      untouched w w'
      ∧ since w w' = [EvDb (GetNegotiation id);
                      EvSend ws (ErrorFrame "Only sellers can make counter offers")])).
    unfold handleNegotiationCounter, untouched.
    repeat (post_step; simpl;
            rewrite ?Huid, ?Hsel, ?(nonterminal_test_inv _ Hnt), ?Hb; simpl;
            rewrite ?(bool_decide_false (uid ≠ uid)) by (intros ?; done);
            rewrite ?(bool_decide_true (neg_sellerId n ≠ uid)) by done; simpl).
    all: try congruence.
    unfold since; simpl; rewrite <- ?app_assoc, since_app. done.
  - intros Hs (H0 & H1 & H2 & H3 & _).
    change (post (handleNegotiationCounter ws id amount message) w (λ _ w',
      select_negotiation id (negotiations w')
        = Some (set_offer (pretty amount) (clock w) n)
      ∧ negotiationMessages w' = negotiationMessages w ++ [row]
      ∧ since w w' =
          [EvDb (GetNegotiation id);
           EvDb (UpdateNegotiation id (pretty amount));
           EvDb (CreateMessage ins);
           EvDb (GetUser uid)]
          ++ room_sends id
               (NegotiationUpdate id
                  (update_of row (senderName (select_user uid (users w)))
                     content (Some amount))) w)).
    unfold handleNegotiationCounter.
    repeat (post_step; simpl;
            rewrite ?Huid, ?Hsel, ?(nonterminal_test_inv _ Hnt), ?Hs; simpl;
            rewrite ?(bool_decide_false (uid ≠ uid)) by (intros ?; done);
            rewrite ?andb_false_r; simpl).
    all: try congruence.
    rewrite select_update_where, Hsel by done.
    unfold since; simpl; rewrite <- ?app_assoc, since_app. done.
Qed.

(** X4.  An accept frame from either party of an open negotiation, when
    the storage calls return, sets the status to [completed] (the offer is
    kept), appends the accept row and broadcasts it to the room; from then
    on no sequence of inputs to the server changes the row of the
    negotiation any more. *)
Theorem accept_completes_and_freezes ws uid id n w :
  ws_userId (socket_of ws w) = Some uid →
  select_negotiation id (negotiations w) = Some n →
  ¬ terminal n →
  neg_buyerId n = uid ∨ neg_sellerId n = uid →
  no_fault 4 w →
  let w' := exec (handleNegotiationAccept ws id) w in
  let ins := {| ins_negotiationId := id; ins_senderId := uid;
                ins_messageType := Accept; ins_content := Some "Offer accepted!";
                ins_amount := None |} in
  let row := new_message (pretty (length (negotiationMessages w))) (clock w) ins in
  let completed := set_status "completed" (clock w) n in
  select_negotiation id (negotiations w') = Some completed
  ∧ neg_currentOffer completed = neg_currentOffer n
  ∧ negotiationMessages w' = negotiationMessages w ++ [row]
  ∧ since w w' =
      [EvDb (GetNegotiation id);
       EvDb (UpdateNegotiationStatus id "completed");
       EvDb (CreateMessage ins);
       EvDb (GetUser uid)]
      ++ room_sends id
           (NegotiationUpdate id
              (update_of row (senderName (select_user uid (users w)))
                 "Offer accepted!" None)) w
  ∧ (∀ jwt_verify inputs,
       select_negotiation id (negotiations (exec (run jwt_verify inputs) w'))
       = Some completed).
Proof.
  intros Huid Hsel Hnt Hparty (H0 & H1 & H2 & H3 & _) w' ins row completed.
  assert (Hpass : bool_decide (neg_buyerId n ≠ uid)
                  && bool_decide (neg_sellerId n ≠ uid) = false).
  { destruct Hparty as [Hb | Hs].
    - by rewrite (bool_decide_false (neg_buyerId n ≠ uid))
        by (intros H; by apply H).
    - rewrite (bool_decide_false (neg_sellerId n ≠ uid))
        by (intros H; by apply H).
      apply andb_false_r. }
  assert (Hrun : select_negotiation id (negotiations w') = Some completed
    ∧ negotiationMessages w' = negotiationMessages w ++ [row]
    ∧ since w w' =
        [EvDb (GetNegotiation id);
         EvDb (UpdateNegotiationStatus id "completed");
         EvDb (CreateMessage ins);
         EvDb (GetUser uid)]
        ++ room_sends id
             (NegotiationUpdate id
                (update_of row (senderName (select_user uid (users w)))
                   "Offer accepted!" None)) w).
  { subst w'.
    change (post (handleNegotiationAccept ws id) w (λ _ w',
      select_negotiation id (negotiations w') = Some completed
      ∧ negotiationMessages w' = negotiationMessages w ++ [row]
      ∧ since w w' =
          [EvDb (GetNegotiation id);
           EvDb (UpdateNegotiationStatus id "completed");
           EvDb (CreateMessage ins);
           EvDb (GetUser uid)]
          ++ room_sends id
               (NegotiationUpdate id
                  (update_of row (senderName (select_user uid (users w)))
                     "Offer accepted!" None)) w)).
    unfold handleNegotiationAccept.
    repeat (post_step; simpl;
            rewrite ?Huid, ?Hsel, ?(nonterminal_test_inv _ Hnt), ?Hpass; simpl).
    all: try congruence.
    rewrite select_update_where, Hsel by done.
    unfold since; simpl; rewrite <- ?app_assoc, since_app. done. }
  destruct Hrun as (Hrow & Hlog & Htrace).
  repeat split; try done.
  intros jwt_verify inputs. apply frozen_run; [done|]. by left.
Qed.

Lemma counter_only_from_seller_witness :
  let w := Example.joined "active" in
  ws_userId (socket_of 2 w) = Some "bob-id"
  ∧ select_negotiation "N1" (negotiations w) = Some (Example.N1 "active")
  ∧ no_fault 4 w
  ∧ select_negotiation "N1"
      (negotiations (exec (handleNegotiationCounter 2 "N1" 95 None) w))
    = Some (set_offer "95" 0 (Example.N1 "active")).
Proof.
  cbv zeta.
  assert (Huid : ws_userId (socket_of 2 (Example.joined "active")) = Some "bob-id")
    by (vm_compute; reflexivity).
  assert (Hsel : select_negotiation "N1" (negotiations (Example.joined "active"))
                 = Some (Example.N1 "active")) by (vm_compute; reflexivity).
  assert (Hnt : ¬ terminal (Example.N1 "active"))
    by (intros [H | H]; discriminate H).
  assert (Hcalm : no_fault 4 (Example.joined "active")) by (vm_compute; tauto).
  pose proof (proj2 (counter_only_from_seller 2 "bob-id" "N1"
    (Example.N1 "active") (Example.joined "active") 95 None Huid Hsel Hnt)
    eq_refl Hcalm) as (H & _ & _).
  exact (conj Huid (conj Hsel (conj Hcalm H))).
Defined.

Lemma accept_completes_and_freezes_witness :
  let w := Example.joined "active" in
  let w' := exec (handleNegotiationAccept 2 "N1") w in
  ws_userId (socket_of 2 w) = Some "bob-id"
  ∧ select_negotiation "N1" (negotiations w) = Some (Example.N1 "active")
  ∧ no_fault 4 w
  ∧ select_negotiation "N1" (negotiations w')
    = Some (set_status "completed" 0 (Example.N1 "active"))
  ∧ select_negotiation "N1"
      (negotiations (exec (run Example.jwt_verify
         [Message 1 (Some (JObj [("type", JStr "negotiation_offer");
                                 ("negotiationId", JStr "N1");
                                 ("amount", JNum 1)]))]) w'))
    = Some (set_status "completed" 0 (Example.N1 "active")).
Proof.
  cbv zeta.
  assert (Huid : ws_userId (socket_of 2 (Example.joined "active")) = Some "bob-id")
    by (vm_compute; reflexivity).
  assert (Hsel : select_negotiation "N1" (negotiations (Example.joined "active"))
                 = Some (Example.N1 "active")) by (vm_compute; reflexivity).
  assert (Hnt : ¬ terminal (Example.N1 "active"))
    by (intros [H | H]; discriminate H).
  assert (Hcalm : no_fault 4 (Example.joined "active")) by (vm_compute; tauto).
  pose proof (accept_completes_and_freezes 2 "bob-id" "N1"
    (Example.N1 "active") (Example.joined "active") Huid Hsel Hnt
    (or_intror eq_refl) Hcalm) as H.
  cbv zeta in H. destruct H as (H1 & _ & _ & _ & H2).
  exact (conj Huid (conj Hsel (conj Hcalm (conj H1 (H2 _ _))))).
Defined.

(** ** The tables a frame writes *)

(** X5.  What a validated frame may touch.  No frame changes the user
    registry or a socket.  Only offer, counter, accept and status frames
    write the negotiations table; only the six negotiation frames append to
    the message log; only join and leave change the rooms; only a presence
    update writes the users table. *)
Theorem frame_footprint ws m w :
  let w' := exec (dispatch ws m) w in
  userSockets w' = userSockets w
  ∧ sockets w' = sockets w
  ∧ (writes_negotiation m = false → negotiations w' = negotiations w)
  ∧ (target m = None → negotiationMessages w' = negotiationMessages w)
  ∧ (writes_rooms m = false → negotiationRooms w' = negotiationRooms w)
  ∧ (writes_users m = false → users w' = users w).
Proof.
  intros w'. subst w'.
  change (post (dispatch ws m) w (λ _ w',
    userSockets w' = userSockets w
    ∧ sockets w' = sockets w
    ∧ (writes_negotiation m = false → negotiations w' = negotiations w)
    ∧ (target m = None → negotiationMessages w' = negotiationMessages w)
    ∧ (writes_rooms m = false → negotiationRooms w' = negotiationRooms w)
    ∧ (writes_users m = false → users w' = users w))).
  destruct m; simpl.
  all: repeat (post_step; simpl).
  all: repeat case_match; simpl.
  all: done.
Qed.

Lemma frame_footprint_witness :
  let w := Example.joined "active" in
  let m := negotiation_reject "N1" None in
  writes_negotiation m = false
  ∧ negotiations (exec (dispatch 1 m) w) = negotiations w.
Proof.
  cbv zeta.
  pose proof (frame_footprint 1 (negotiation_reject "N1" None)
                (Example.joined "active")) as H.
  cbv zeta in H. destruct H as (_ & _ & H & _).
  exact (conj eq_refl (H eq_refl)).
Defined.

(** ** Presence *)

(** X6.  A connection may set the presence of its own user only.  A
    [presence_update] naming another user is answered
    ["Cannot update presence for other users"] and changes nothing.  For
    its own user, when the write returns the user's row, the row gets the
    new [isOnline], every open socket of every other connected user is
    sent the update and the sender is acknowledged with
    [presence_updated]; when the user has no row, nothing is sent at
    all. *)
Theorem presence_update_only_for_self ws w userId isOnline :
  let w' := exec (handlePresenceUpdate ws userId isOnline) w in
  (ws_userId (socket_of ws w) ≠ Some userId →
     untouched w w'
     ∧ since w w' =
         [EvSend ws (ErrorFrame "Cannot update presence for other users")])
  ∧ (ws_userId (socket_of ws w) = Some userId → no_fault 1 w →
       match select_user userId (users w) with
       | Some user =>
           select_user userId (users w')
             = Some (set_online isOnline (clock w) user)
           ∧ since w w' =
               [EvDb (UpdateUserOnlineStatus userId isOnline)]
               ++ presence_sends userId
                    (Some (or_else (user_username user) "Unknown")) isOnline w
               ++ [EvSend ws (PresenceUpdated userId isOnline (clock w))]
       | None =>
           users w' = users w
           ∧ since w w' = [EvDb (UpdateUserOnlineStatus userId isOnline)]
       end).
Proof.
  intros w'. subst w'. split.
  - intros Hother.
    change (post (handlePresenceUpdate ws userId isOnline) w (λ _ w',
      untouched w w'
      ∧ since w w' =
          [EvSend ws (ErrorFrame "Cannot update presence for other users")])).
    unfold handlePresenceUpdate, untouched.
    repeat (post_step; simpl; rewrite ?bool_decide_true by done; simpl).
    all: try congruence.
    unfold since; simpl; rewrite since_app. done.
  - intros Hself (H0 & _).
    change (post (handlePresenceUpdate ws userId isOnline) w (λ _ w',
      match select_user userId (users w) with
      | Some user =>
          select_user userId (users w')
            = Some (set_online isOnline (clock w) user)
          ∧ since w w' =
              [EvDb (UpdateUserOnlineStatus userId isOnline)]
              ++ presence_sends userId
                   (Some (or_else (user_username user) "Unknown")) isOnline w
              ++ [EvSend ws (PresenceUpdated userId isOnline (clock w))]
      | None =>
          users w' = users w
          ∧ since w w' = [EvDb (UpdateUserOnlineStatus userId isOnline)]
      end)).
    unfold handlePresenceUpdate.
    post_step. post_step. post_step. simpl. rewrite Hself.
    rewrite bool_decide_false by (intros H; by apply H).
    post_step. unfold updateUserOnlineStatus. post_step; [congruence|].
    simpl. rewrite select_user_update by done.
    destruct (select_user userId (users w)) as [user|] eqn:Hu; simpl.
    + repeat (post_step; simpl).
      split.
      * by rewrite select_user_update, Hu by done.
      * unfold since; simpl; rewrite <- ?app_assoc, since_app. done.
    + post_step. split.
      * unfold update_where. rewrite <- (list_fmap_id (users w)) at 2.
        apply list_fmap_ext. intros i u Hiu. rewrite decide_False; [done|].
        intros Hid. unfold select_user in Hu.
        assert (u ∈ filter (λ u, user_id u = userId) (users w)) as Hin.
        { apply list_elem_of_filter. split; [done|].
          by apply list_elem_of_lookup_2 in Hiu. }
        destruct (filter _ (users w)); [by apply elem_of_nil in Hin|done].
      * unfold since; simpl; rewrite since_app. done.
Qed.

Lemma presence_update_only_for_self_witness :
  let w := Example.online "active" in
  ws_userId (socket_of 1 w) ≠ Some "bob-id"
  ∧ since w (exec (handlePresenceUpdate 1 "bob-id" false) w)
    = [EvSend 1 (ErrorFrame "Cannot update presence for other users")].
Proof.
  cbv zeta.
  assert (Hother : ws_userId (socket_of 1 (Example.online "active")) ≠ Some "bob-id")
    by (vm_compute; discriminate).
  pose proof (presence_update_only_for_self 1 (Example.online "active")
                "bob-id" false) as H.
  cbv zeta in H. destruct H as [H _]. destruct (H Hother) as [_ Ht].
  exact (conj Hother Ht).
Defined.

(** X7.  A [request_presence] is answered with one [presence_data] frame
    holding the rows of the requested users, or of the connected users
    when the frame names none, and it changes nothing.  An empty list of
    targets (an empty [userIds] array, or nobody connected) is answered
    with empty data without any storage call. *)
Theorem presence_request_reply ws w userIds :
  truthy (ws_userId (socket_of ws w)) = true →
  no_fault 1 w →
  let targets := default (getConnectedUsers w) userIds in
  let w' := exec (handlePresenceRequest ws userIds) w in
  untouched w w'
  ∧ sent (since w w') =
      [(ws, PresenceData
              (presence_row <$> filter (λ u, user_id u ∈ targets) (users w))
              (clock w))]
  ∧ (targets = [] → since w w' = [EvSend ws (PresenceData [] (clock w))]).
Proof.
  intros Huid (H0 & _) targets w'. subst w'.
  change (post (handlePresenceRequest ws userIds) w (λ _ w',
    untouched w w'
    ∧ sent (since w w') =
        [(ws, PresenceData
                (presence_row <$> filter (λ u, user_id u ∈ targets) (users w))
                (clock w))]
    ∧ (targets = [] → since w w' = [EvSend ws (PresenceData [] (clock w))]))).
  unfold handlePresenceRequest, untouched.
  post_step. post_step. post_step. simpl. rewrite Huid. simpl.
  post_step. post_step. simpl. fold targets.
  unfold getUsersOnlineStatus.
  destruct (decide (length targets = 0%nat)) as [Hlen|Hlen].
  - apply nil_length_inv in Hlen. rewrite Hlen.
    repeat (post_step; simpl).
    unfold since; simpl; rewrite since_app. simpl.
    rewrite (elem_of_nil_inv (filter _ (users w))); [done|].
    intros u [Hu _]%list_elem_of_filter. by apply elem_of_nil in Hu.
  - repeat (post_step; simpl).
    all: try congruence.
    unfold since; simpl; rewrite <- ?app_assoc, since_app. simpl.
    repeat split; try done. intros Hnil. by rewrite Hnil in Hlen.
Qed.

Lemma presence_request_reply_witness :
  let w := Example.online "active" in
  truthy (ws_userId (socket_of 1 w)) = true
  ∧ no_fault 1 w
  ∧ since w (exec (handlePresenceRequest 1 (Some [])) w)
    = [EvSend 1 (PresenceData [] (clock w))].
Proof.
  cbv zeta.
  assert (Huid : truthy (ws_userId (socket_of 1 (Example.online "active"))) = true)
    by (vm_compute; reflexivity).
  assert (Hcalm : no_fault 1 (Example.online "active")) by (vm_compute; tauto).
  pose proof (presence_request_reply 1 (Example.online "active") (Some [])
                Huid Hcalm) as H.
  cbv zeta in H. destruct H as (_ & _ & H).
  exact (conj Huid (conj Hcalm (H eq_refl))).
Defined.

(** ** Frames the schema rejects *)

(** X8.  A text frame that is not JSON, or JSON the schema rejects (a
    non-positive amount, an empty or over-long content, a status outside
    the enumeration, a missing field, [null]), is answered by exactly one
    error frame ["Invalid message format"] to the sender; no handler runs
    and nothing is touched. *)
Theorem malformed_frame_answered ws w data :
  ws_isAuthenticated (socket_of ws w) = true →
  truthy (ws_userId (socket_of ws w)) = true →
  match data with
  | Some message => wsMessageSchema_parse message = None
  | None => True
  end →
  let w' := exec (on_message ws data) w in
  untouched w w'
  ∧ since w w' = [EvSend ws (ErrorFrame "Invalid message format")].
Proof.
  intros Hauth Huid Hbad w'. subst w'.
  change (post (on_message ws data) w (λ _ w',
    untouched w w'
    ∧ since w w' = [EvSend ws (ErrorFrame "Invalid message format")])).
  unfold on_message, handleWebSocketMessage, untouched.
  destruct data as [message|].
  - rewrite Hbad.
    repeat (post_step; simpl; rewrite ?Hauth, ?Huid; simpl).
    all: unfold since; simpl; rewrite since_app; done.
  - repeat (post_step; simpl).
    unfold since; simpl; rewrite since_app; done.
Qed.

Lemma malformed_frame_answered_witness :
  let w := Example.joined "active" in
  let offer := JObj [("type", JStr "negotiation_offer");
                     ("negotiationId", JStr "N1"); ("amount", JNum 0)] in
  ws_isAuthenticated (socket_of 1 w) = true
  ∧ truthy (ws_userId (socket_of 1 w)) = true
  ∧ wsMessageSchema_parse offer = None
  ∧ since w (exec (on_message 1 (Some offer)) w)
    = [EvSend 1 (ErrorFrame "Invalid message format")].
Proof.
  cbv zeta.
  assert (Hauth : ws_isAuthenticated (socket_of 1 (Example.joined "active")) = true)
    by (vm_compute; reflexivity).
  assert (Huid : truthy (ws_userId (socket_of 1 (Example.joined "active"))) = true)
    by (vm_compute; reflexivity).
  assert (Hbad : wsMessageSchema_parse
            (JObj [("type", JStr "negotiation_offer");
                   ("negotiationId", JStr "N1"); ("amount", JNum 0)]) = None)
    by (vm_compute; reflexivity).
  pose proof (malformed_frame_answered 1 (Example.joined "active")
                (Some (JObj [("type", JStr "negotiation_offer");
                             ("negotiationId", JStr "N1"); ("amount", JNum 0)]))
                Hauth Huid Hbad) as H.
  cbv zeta in H. destruct H as [_ H].
  exact (conj Hauth (conj Huid (conj Hbad H))).
Defined.

(** ** The frame schema *)

Lemma z_content_bounds k o s :
  z_content k o = Some s → (1 ≤ String.length s ≤ 1000)%nat.
Proof.
  unfold z_content. destruct (z_string k o); [|done].
  case_bool_decide; [|done]. by intros [= <-].
Qed.

Lemma z_positive_bounds k o z : z_positive k o = Some z → (0 < z)%Z.
Proof.
  unfold z_positive. destruct (field k o) as [[]|]; try done.
  case_bool_decide; [|done]. by intros [= <-].
Qed.

Lemma z_status_bounds k o s :
  z_status k o = Some s → s ∈ ["active"; "completed"; "cancelled"].
Proof.
  unfold z_status. destruct (z_string k o); [|done].
  case_bool_decide; [|done]. by intros [= <-].
Qed.

Lemma mapM_as_string l : mapM as_string (JStr <$> l) = Some l.
Proof.
  induction l as [|s l IH]; [done|].
  rewrite fmap_cons. cbn [mapM]. rewrite IH. done.
Qed.

Lemma parse_within_schema message m :
  wsMessageSchema_parse message = Some m → within_schema m.
Proof.
  unfold wsMessageSchema_parse.
  destruct message as [| | | | |o]; try done.
  destruct (z_string "type" o) as [t|]; [|done].
  repeat case_decide; try done.
  all: intros Hp; simplify_option_eq; simpl; try done.
  all: eauto using z_content_bounds, z_positive_bounds, z_status_bounds.
Qed.

Lemma stringify_parses m :
  within_schema m → wsMessageSchema_parse (Wire.stringify m) = Some m.
Proof.
  destruct m as [id|id|id c|id a msg|id a msg|id|id msg|id s|u b|ids]; simpl.
  all: intros Hm; try reflexivity.
  - unfold wsMessageSchema_parse, z_content. simpl.
    by rewrite bool_decide_true.
  - unfold wsMessageSchema_parse, z_positive, z_string_optional. simpl.
    rewrite bool_decide_true by done. by destruct msg.
  - unfold wsMessageSchema_parse, z_positive, z_string_optional. simpl.
    rewrite bool_decide_true by done. by destruct msg.
  - unfold wsMessageSchema_parse, z_string_optional. simpl. by destruct msg.
  - unfold wsMessageSchema_parse, z_status. simpl.
    by rewrite bool_decide_true.
  - unfold wsMessageSchema_parse, z_strings_optional. simpl.
    destruct ids as [l|]; simpl; [|done].
    by rewrite mapM_as_string.
Qed.



Lemma field_unknown_key k k' v o1 o2 :
  k' ≠ k → field k' (o1 ++ (k, v) :: o2) = field k' (o1 ++ o2).
Proof.
  intros Hne. unfold field. rewrite !filter_app, filter_cons. simpl.
  by rewrite decide_False by (intros ->; done).
Qed.

(** X10.  Keys the schema does not know are ignored: a frame object with
    an additional key, anywhere, is parsed as the object without it. *)
Theorem schema_strips_unknown_keys k v o1 o2 :
  k ∉ schema_keys →
  wsMessageSchema_parse (JObj (o1 ++ (k, v) :: o2))
  = wsMessageSchema_parse (JObj (o1 ++ o2)).
Proof.
  intros Hk.
  assert (Hfield : ∀ k', k' ∈ schema_keys →
    field k' (o1 ++ (k, v) :: o2) = field k' (o1 ++ o2)).
  { intros k' Hk'. apply field_unknown_key. intros ->. done. }
  assert (Hin : ∀ k', bool_decide (k' ∈ schema_keys) = true → k' ∈ schema_keys)
    by (intros k'; apply bool_decide_eq_true_1).
  unfold wsMessageSchema_parse, z_content, z_status, z_string, z_positive,
    z_string_optional, z_boolean, z_strings_optional.
  rewrite !Hfield by (apply Hin; reflexivity).
  reflexivity.
Qed.

Lemma schema_strips_unknown_keys_witness :
  ("offerId" ∉ schema_keys)
  ∧ wsMessageSchema_parse
      (JObj [("type", JStr "negotiation_accept"); ("offerId", JStr "O7");
             ("negotiationId", JStr "N1")])
    = Some (negotiation_accept "N1").
Proof.
  assert (Hk : "offerId" ∉ schema_keys).
  { unfold schema_keys. intros H.
    repeat (apply elem_of_cons in H as [H|H]; [discriminate H|]).
    by apply elem_of_nil in H. }
  pose proof (schema_strips_unknown_keys "offerId" (JStr "O7")
                [("type", JStr "negotiation_accept")]
                [("negotiationId", JStr "N1")] Hk) as H.
  exact (conj Hk H).
Defined.

(** ** The client *)




(** X12.  A room joined while the client is not connected is remembered
    without a frame; when a connection attempt that obtains its token is
    followed at once by the open event of its socket, the room is joined
    with the others.  A room that has been left is not joined again when
    the connection is lost, the retry obtains its token and its socket
    opens, no other event coming in between, while the others are, in the
    order they were joined. *)
Theorem rooms_joined_offline_are_replayed now response m id :
  obtains_token now response m →
  (Client.isConnected m = false →
     let m1 := Client.joinNegotiation id m in
     let m2 := Client.establishConnection now response m1 in
     m1 = Client.with_rooms (set_add id (Client.currentNegotiationRooms m)) m
     ∧ Client.ws m2 = true
     ∧ new_effects m2 (Client.ws_onopen m2)
       = Client.Sent ∘ join_negotiation
           <$> set_add id (Client.currentNegotiationRooms m))
  ∧ (Client.isUserDisconnected m = false →
     let m1 := Client.leaveNegotiation id m in
     let m2 := Client.reconnect_timer now response (Client.ws_onclose m1) in
     let sent := new_effects m2 (Client.ws_onopen m2) in
     sent = Client.Sent ∘ join_negotiation
              <$> set_delete id (Client.currentNegotiationRooms m)
     ∧ Client.Sent (join_negotiation id) ∉ sent).
Proof.
  intros Hget. split.
  - intros Hc m1 m2.
    assert (Hjoin : m1 = Client.with_rooms
                           (set_add id (Client.currentNegotiationRooms m)) m).
    { unfold m1, Client.joinNegotiation, Client.send.
      change (Client.isConnected (Client.with_rooms _ m)) with (Client.isConnected m).
      by rewrite Hc. }
    assert (Hget1 : obtains_token now response m1) by (by rewrite Hjoin).
    destruct (attempt_opens now response m1 Hget1) as (Hws2 & _ & _ & Hrooms2 & _).
    fold m2 in Hws2, Hrooms2.
    destruct (open_replays m2 Hws2) as (_ & _ & Hsent & _).
    split; [done|]. split; [done|].
    by rewrite Hsent, Hrooms2, Hjoin.
  - intros Hd m1 m2 sent.
    assert (Hm1 : Client.currentNegotiationRooms m1
                  = set_delete id (Client.currentNegotiationRooms m)
                  ∧ Client.isUserDisconnected m1 = false
                  ∧ Client.token m1 = Client.token m
                  ∧ Client.tokenExpiresAt m1 = Client.tokenExpiresAt m).
    { unfold m1, Client.leaveNegotiation, Client.send. by repeat case_match. }
    destruct Hm1 as (Hrooms1 & Hd1 & Htok1 & Hexp1).
    assert (Hget1 : obtains_token now response m1).
    { destruct Hget as [[Htok Hfresh]|Hgranted]; [left|by right].
      by rewrite Htok1, Hexp1. }
    destruct (retry_replays_rooms now response m1 Hd1 Hget1) as (_ & _ & Hsent).
    fold m2 in Hsent. fold sent in Hsent. rewrite Hrooms1 in Hsent.
    split; [done|]. rewrite Hsent.
    intros (id' & Heq & Hin)%list_elem_of_fmap. simpl in Heq.
    injection Heq as <-. apply set_delete_elem in Hin as [Hne _]. done.
Qed.

Lemma rooms_joined_offline_are_replayed_witness :
  let granted := Client.Granted {| Client.wt_token := "t1";
                                   Client.wt_expiresIn := 900000 |} in
  let m := Client.with_rooms ["N1"; "N2"] Client.new in
  let m2 := Client.establishConnection 0 granted (Client.joinNegotiation "N3" m) in
  let m2' := Client.reconnect_timer 0 granted
               (Client.ws_onclose (Client.leaveNegotiation "N1" m)) in
  obtains_token 0 granted m
  ∧ Client.isConnected m = false
  ∧ Client.ws m = false
  ∧ Client.isUserDisconnected m = false
  ∧ new_effects m2 (Client.ws_onopen m2)
    = [Client.Sent (join_negotiation "N1"); Client.Sent (join_negotiation "N2");
       Client.Sent (join_negotiation "N3")]
  ∧ new_effects m2' (Client.ws_onopen m2') = [Client.Sent (join_negotiation "N2")].
Proof.
  cbv zeta.
  assert (Hget : obtains_token 0
            (Client.Granted {| Client.wt_token := "t1";
                               Client.wt_expiresIn := 900000 |})
            (Client.with_rooms ["N1"; "N2"] Client.new)).
  { right. eexists. split; [reflexivity|]. intros H. discriminate H. }
  pose proof (rooms_joined_offline_are_replayed 0
    (Client.Granted {| Client.wt_token := "t1"; Client.wt_expiresIn := 900000 |})
    (Client.with_rooms ["N1"; "N2"] Client.new) "N3" Hget) as [H _].
  destruct (H eq_refl) as (_ & _ & Hnew).
  pose proof (rooms_joined_offline_are_replayed 0
    (Client.Granted {| Client.wt_token := "t1"; Client.wt_expiresIn := 900000 |})
    (Client.with_rooms ["N1"; "N2"] Client.new) "N1" Hget) as [_ H'].
  destruct (H' eq_refl) as [Hleft _].
  exact (conj Hget (conj eq_refl (conj eq_refl (conj eq_refl (conj Hnew Hleft))))).
Defined.


(** X14.  A granted token is stored with its expiry and reused, without a
    new request, as long as more than two minutes of its lifetime remain;
    from two minutes before expiry on, the next call requests a new token,
    and a failed request clears the stored one. *)
Theorem token_reused_until_two_minutes_before_expiry now tokenData m :
  Client.wt_token tokenData ≠ "" →
  truthy (Client.token m) = false →
  let m1 := (Client.ensureValidToken now (Client.Granted tokenData) m).2 in
  Client.token m1 = Some (Client.wt_token tokenData)
  ∧ Client.tokenExpiresAt m1 = (now + Client.wt_expiresIn tokenData)%Z
  ∧ (∀ now' response,
       (now' + 2 * 60 * 1000 < now + Client.wt_expiresIn tokenData)%Z →
       Client.ensureValidToken now' response m1 = (inr (), m1))
  ∧ (∀ now' tokenData',
       (now + Client.wt_expiresIn tokenData ≤ now' + 2 * 60 * 1000)%Z →
       Client.token (Client.ensureValidToken now' (Client.Granted tokenData') m1).2
       = Some (Client.wt_token tokenData'))
  ∧ (∀ now' message,
       (now + Client.wt_expiresIn tokenData ≤ now' + 2 * 60 * 1000)%Z →
       Client.ensureValidToken now' (Client.Failed message) m1
       = (inl message, Client.with_token None 0 m1)).
Proof.
  intros Htoken Hstale m1.
  assert (Htok : Client.token m1 = Some (Client.wt_token tokenData)
                 ∧ Client.tokenExpiresAt m1 = (now + Client.wt_expiresIn tokenData)%Z).
  { subst m1. unfold Client.ensureValidToken. rewrite Hstale. simpl.
    by case_bool_decide. }
  destruct Htok as [Htok Hexp]. repeat split; try done.
  - intros now' response Hfresh. unfold Client.ensureValidToken.
    rewrite Htok, Hexp, (truthy_Some _ Htoken). simpl.
    by rewrite bool_decide_true by lia.
  - intros now' tokenData' Hold. unfold Client.ensureValidToken.
    rewrite Htok, Hexp, (truthy_Some _ Htoken). simpl.
    rewrite bool_decide_false by lia. by case_bool_decide.
  - intros now' message Hold. unfold Client.ensureValidToken.
    rewrite Htok, Hexp, (truthy_Some _ Htoken). simpl.
    by rewrite bool_decide_false by lia.
Qed.

Lemma failed_attempt now message m :
  Client.isUserDisconnected m = false →
  truthy (Client.token m) = false →
  let m' := Client.reconnect_timer now (Client.Failed message) m in
  let n := S (Client.retryCount (Client.connectionState m)) in
  Client.isUserDisconnected m' = false
  ∧ Client.token m' = None
  ∧ Client.ws m' = Client.ws m
  ∧ Client.cs_status (Client.connectionState m') = Client.reconnecting
  ∧ Client.cs_error (Client.connectionState m')
    = Some (default "Connection failed" message)
  ∧ Client.retryCount (Client.connectionState m') = n
  ∧ Client.reconnectTimeout m' = Some (Client.backoff n)
  ∧ Client.effects m' = Client.effects m ++ [Client.ReconnectIn (Client.backoff n)].
Proof.
  intros Hd Hstale. simpl.
  unfold Client.reconnect_timer, Client.establishConnection,
    Client.ensureValidToken.
  rewrite Hd. simpl. rewrite Hstale. simpl.
  unfold Client.scheduleReconnect. simpl. rewrite Hd. simpl.
  rewrite Nat.add_1_r. done.
Qed.

Lemma failed_attempts_spec attempts m :
  Client.isUserDisconnected m = false →
  truthy (Client.token m) = false →
  let m' := failed_attempts attempts m in
  let r := Client.retryCount (Client.connectionState m) in
  Client.isUserDisconnected m' = false
  ∧ truthy (Client.token m') = false
  ∧ Client.ws m' = Client.ws m
  ∧ Client.retryCount (Client.connectionState m') = (r + length attempts)%nat
  ∧ Client.effects m'
    = Client.effects m
      ++ ((λ i, Client.ReconnectIn (Client.backoff (r + i)))
          <$> seq 1 (length attempts)).
Proof.
  revert m. induction attempts as [|[now message] attempts IH]; intros m Hd Hstale.
  - simpl. rewrite Nat.add_0_r, app_nil_r. done.
  - destruct (failed_attempt now message m Hd Hstale)
      as (Hd1 & Htok1 & Hws1 & _ & _ & Hr1 & _ & He1).
    change (failed_attempts ((now, message) :: attempts) m)
      with (failed_attempts attempts
              (Client.reconnect_timer now (Client.Failed message) m)).
    destruct (IH _ Hd1 ltac:(by rewrite Htok1)) as (Hd' & Htok' & Hws' & Hr' & He').
    cbv zeta in *. rewrite Hr1 in Hr', He'. rewrite He1 in He'.
    repeat split; try done.
    + congruence.
    + rewrite Hr'. simpl. lia.
    + rewrite He', <- app_assoc. f_equal. simpl. f_equal.
      * by rewrite Nat.add_1_r.
      * rewrite <- (fmap_S_seq 1), <- list_fmap_compose.
        apply list_fmap_ext. intros _ i _. simpl. do 2 f_equal. lia.
Qed.

Lemma token_reused_until_two_minutes_before_expiry_witness :
  let tokenData := {| Client.wt_token := "t1"; Client.wt_expiresIn := 900000 |} in
  let m1 := (Client.ensureValidToken 0 (Client.Granted tokenData) Client.new).2 in
  Client.wt_token tokenData ≠ ""
  ∧ truthy (Client.token Client.new) = false
  ∧ Client.ensureValidToken 700000 (Client.Failed None) m1 = (inr (), m1).
Proof.
  cbv zeta.
  assert (Htoken : Client.wt_token
            {| Client.wt_token := "t1"; Client.wt_expiresIn := 900000 |} ≠ "")
    by discriminate.
  pose proof (token_reused_until_two_minutes_before_expiry 0
    {| Client.wt_token := "t1"; Client.wt_expiresIn := 900000 |}
    Client.new Htoken eq_refl) as H.
  cbv zeta in H. destruct H as (_ & _ & H & _).
  exact (conj Htoken (conj eq_refl
    (H 700000%Z (Client.Failed None) ltac:(simpl; lia)))).
Defined.

(** X15.  Connection attempts that fail for want of a token never stop:
    each failure increments the retry count and arms the next attempt
    after [min (1000 * 2^n, 30000)] milliseconds for the [n]-th failure in
    a row, a delay of more than one and at most thirty seconds. *)
Theorem failed_attempts_back_off attempts m :
  Client.isUserDisconnected m = false →
  truthy (Client.token m) = false →
  let m' := failed_attempts attempts m in
  let r := Client.retryCount (Client.connectionState m) in
  Client.retryCount (Client.connectionState m') = (r + length attempts)%nat
  ∧ new_effects m m'
    = (λ i, Client.ReconnectIn (Client.backoff (r + i))) <$> seq 1 (length attempts)
  ∧ Forall (λ e, ∃ delay, e = Client.ReconnectIn delay
                          ∧ (1000 < delay ≤ 30000)%Z) (new_effects m m')
  ∧ Client.ws m' = Client.ws m
  ∧ (attempts ≠ [] →
       Client.cs_status (Client.connectionState m') = Client.reconnecting
       ∧ Client.token m' = None
       ∧ Client.reconnectTimeout m'
         = Some (Client.backoff (r + length attempts))).
Proof.
  intros Hd Hstale m' r.
  destruct (failed_attempts_spec attempts m Hd Hstale) as (Hd' & Htok' & Hws' & Hr' & He').
  fold m' r in Hd', Htok', Hws', Hr', He'.
  assert (Hnew : new_effects m m'
    = (λ i, Client.ReconnectIn (Client.backoff (r + i))) <$> seq 1 (length attempts)).
  { unfold new_effects. rewrite He'. apply drop_app_length. }
  repeat split; try done.
  - rewrite Hnew. apply Forall_fmap, Forall_forall. intros i Hi. simpl.
    eexists. split; [done|]. apply elem_of_seq in Hi.
    unfold Client.backoff. split; [|apply Z.le_min_r].
    apply Z.min_glb_lt; [|lia].
    assert (2 ^ 1 ≤ 2 ^ Z.of_nat (r + i))%Z by (apply Z.pow_le_mono_r; lia).
    lia.
  - subst m'. destruct attempts as [|a attempts _] using rev_ind; [done|].
    unfold failed_attempts. rewrite foldl_app. simpl.
    fold (failed_attempts attempts m).
    destruct (failed_attempts_spec attempts m Hd Hstale) as (Hd1 & Htok1 & _).
    by destruct (failed_attempt a.1 a.2 _ Hd1 Htok1) as (_ & _ & _ & ? & _).
  - subst m'. destruct attempts as [|a attempts _] using rev_ind; [done|].
    unfold failed_attempts. rewrite foldl_app. simpl.
    fold (failed_attempts attempts m).
    destruct (failed_attempts_spec attempts m Hd Hstale) as (Hd1 & Htok1 & _).
    by destruct (failed_attempt a.1 a.2 _ Hd1 Htok1) as (_ & ? & _).
  - subst m'. destruct attempts as [|a attempts _] using rev_ind; [done|].
    unfold failed_attempts. rewrite foldl_app. simpl.
    fold (failed_attempts attempts m).
    destruct (failed_attempts_spec attempts m Hd Hstale)
      as (Hd1 & Htok1 & _ & Hr1 & _).
    destruct (failed_attempt a.1 a.2 _ Hd1 Htok1) as (_ & _ & _ & _ & _ & _ & Ht & _).
    rewrite Ht. cbv zeta in Hr1. rewrite Hr1, length_app. simpl.
    do 2 f_equal. lia.
Qed.

Lemma failed_attempts_back_off_witness :
  let attempts := [(0%Z, None); (2000%Z, Some "offline"); (6000%Z, None)] in
  Client.isUserDisconnected Client.new = false
  ∧ truthy (Client.token Client.new) = false
  ∧ new_effects Client.new (failed_attempts attempts Client.new)
    = [Client.ReconnectIn 2000; Client.ReconnectIn 4000; Client.ReconnectIn 8000].
Proof.
  cbv zeta.
  pose proof (failed_attempts_back_off
    [(0%Z, None); (2000%Z, Some "offline"); (6000%Z, None)]
    Client.new eq_refl eq_refl) as H.
  cbv zeta in H. destruct H as (_ & H & _).
  exact (conj eq_refl (conj eq_refl H)).
Defined.

(** ** From the client to the handler *)

Lemma dispatch_completes ws m w : (dispatch ws m w).1 = Normal ().
Proof.
  change (post (dispatch ws m) w (λ c _, c = Normal ())).
  destruct m; simpl.
  all: repeat (post_step; simpl).
  all: done.
Qed.

(** X16.  From the client to the handler.  A frame the client's [send]
    has handed to its socket (a finite amount, if it has one), reaching the
    server once the message listener of an authenticated connection is
    installed, is accepted by the server's schema and dispatched as the
    same message: the event does exactly what the handler of that message
    does. *)
Theorem client_frame_reaches_handler jwt_verify cm message v ws w :
  new_effects cm (Client.send message cm) = [Client.Sent v] →
  ws_listening (socket_of ws w) = true →
  ws_isAuthenticated (socket_of ws w) = true →
  truthy (ws_userId (socket_of ws w)) = true →
  step jwt_verify (Message ws (Some (Wire.stringify v))) w = dispatch ws v w.
Proof.
  intros Hsent Hl Hauth Huid.
  assert (Hparse : wsMessageSchema_parse message = Some v).
  { unfold new_effects, Client.send in Hsent.
    destruct (negb (Client.isConnected cm) || negb (Client.ws cm)).
    { by rewrite drop_all in Hsent. }
    destruct (wsMessageSchema_parse message) as [v'|].
    - simpl in Hsent. rewrite drop_app_length in Hsent. congruence.
    - by rewrite drop_all in Hsent. }
  assert (Hwire : wsMessageSchema_parse (Wire.stringify v) = Some v).
  { by apply stringify_parses, (parse_within_schema message). }
  unfold step, bind, gets. simpl. rewrite Hl.
  unfold on_message, handleWebSocketMessage, try_catch, bind, gets. simpl.
  rewrite Hauth, Huid. simpl.
  replace (match Wire.stringify v with JNull => throw | _ => ret () end w)
    with (ret () w) by (by destruct v).
  unfold ret. rewrite Hwire.
  pose proof (dispatch_completes ws v w) as Hc.
  destruct (dispatch ws v w) as [[[]|] w1]; [done|discriminate Hc].
Qed.

Lemma client_frame_reaches_handler_witness :
  let cm := Client.with_ws true
              (Client.updateConnectionState Client.connected None 0 Client.new) in
  let message := JObj [("type", JStr "negotiation_accept");
                       ("offerId", JStr "O7"); ("negotiationId", JStr "N1")] in
  let w := Example.joined "active" in
  new_effects cm (Client.send message cm) = [Client.Sent (negotiation_accept "N1")]
  ∧ ws_listening (socket_of 2 w) = true
  ∧ ws_isAuthenticated (socket_of 2 w) = true
  ∧ truthy (ws_userId (socket_of 2 w)) = true
  ∧ step Example.jwt_verify
      (Message 2 (Some (Wire.stringify (negotiation_accept "N1")))) w
    = dispatch 2 (negotiation_accept "N1") w.
Proof.
  cbv zeta.
  assert (Hl : ws_listening (socket_of 2 (Example.joined "active")) = true)
    by (vm_compute; reflexivity).
  assert (Hauth : ws_isAuthenticated (socket_of 2 (Example.joined "active")) = true)
    by (vm_compute; reflexivity).
  assert (Huid : truthy (ws_userId (socket_of 2 (Example.joined "active"))) = true)
    by (vm_compute; reflexivity).
  exact (conj eq_refl (conj Hl (conj Hauth (conj Huid
    (client_frame_reaches_handler Example.jwt_verify
       (Client.with_ws true
          (Client.updateConnectionState Client.connected None 0 Client.new))
       (JObj [("type", JStr "negotiation_accept");
              ("offerId", JStr "O7"); ("negotiationId", JStr "N1")])
       (negotiation_accept "N1") 2 (Example.joined "active")
       eq_refl Hl Hauth Huid))))).
Defined.

(** ** Registries *)

Section Registry.
Implicit Types (r : list (string * list ConnId)) (s : list ConnId).

Lemma map_get_None_keys {V} k (m : list (string * V)) :
  map_get k m = None ↔ k ∉ m.*1.
Proof.
  induction m as [|[k' v] m IH]; simpl.
  - split; [intros _; apply not_elem_of_nil|done].
  - rewrite not_elem_of_cons. destruct (decide (k' = k)) as [->|Hne].
    + split; [done|]. intros [? _]. done.
    + rewrite IH. split; [by intros ?; split; [congruence|]|by intros [_ ?]].
Qed.

Lemma map_has_cons {V} k k' (v : V) m :
  map_has k ((k', v) :: m) = if decide (k' = k) then true else map_has k m.
Proof.
  unfold map_has. simpl. destruct (decide (k' = k)); [|done].
  by rewrite bool_decide_true by eauto.
Qed.

Lemma map_set_keys {V} k (v : V) m :
  (map_set k v m).*1 = if map_has k m then m.*1 else m.*1 ++ [k].
Proof.
  induction m as [|[k' v'] m IH]; [done|].
  rewrite map_has_cons. cbn [map_set].
  destruct (decide (k' = k)) as [->|Hne]; [done|].
  rewrite !fmap_cons, IH. by destruct (map_has k m).
Qed.

Lemma map_set_keys_NoDup {V} k (v : V) m : NoDup m.*1 → NoDup (map_set k v m).*1.
Proof.
  intros Hm. rewrite map_set_keys. destruct (map_has k m) eqn:Hhas; [done|].
  apply NoDup_app. split; [done|]. split; [|apply NoDup_singleton].
  intros k' Hk' ->%list_elem_of_singleton.
  apply map_get_None_keys in Hk'; [done|].
  destruct (map_get k m) eqn:Hget; [|done].
  assert (map_has k m = true) by (apply map_has_get; by rewrite Hget).
  congruence.
Qed.

Lemma map_set_Forall {V} (P : string * V → Prop) k v m :
  P (k, v) → Forall P m → Forall P (map_set k v m).
Proof.
  intros Hv Hm. induction m as [|[k' v'] m IH]; simpl.
  - by apply Forall_singleton.
  - apply Forall_cons in Hm as [Hhd Htl].
    destruct (decide (k' = k)); apply Forall_cons; split; try done.
    by apply IH.
Qed.

Lemma map_delete_keys_NoDup {V} k (m : list (string * V)) :
  NoDup m.*1 → NoDup (map_delete k m).*1.
Proof.
  unfold map_delete. induction m as [|[k' v'] m IH]; [done|].
  rewrite fmap_cons, filter_cons. simpl. intros [Hk Hm]%NoDup_cons.
  destruct (decide (k' ≠ k)); [|by apply IH].
  rewrite fmap_cons. apply NoDup_cons. split; [|by apply IH].
  simpl. intros ((k0 & v0) & -> & [_ Hin]%list_elem_of_filter)%list_elem_of_fmap.
  apply Hk. apply list_elem_of_fmap. by exists (k0, v0).
Qed.

Lemma map_get_Forall {V} (P : string * V → Prop) k v m :
  Forall P m → map_get k m = Some v → P (k, v).
Proof.
  intros Hm Hget. rewrite Forall_forall in Hm. by apply Hm, map_get_elem.
Qed.

Lemma Forall_filter_sub {A} (P Q : A → Prop) `{∀ x, Decision (Q x)} (l : list A) :
  Forall P l → Forall P (filter Q l).
Proof.
  rewrite !Forall_forall. intros Hl x [_ Hx]%list_elem_of_filter. by apply Hl.
Qed.

Lemma joined_rooms_alt c k r :
  joined_rooms c k r = map_set k (set_add c (default [] (map_get k r))) r.
Proof.
  unfold joined_rooms. destruct (map_has k r) eqn:Hhas; [done|].
  rewrite map_get_set_eq, map_set_set. simpl.
  destruct (map_get k r) eqn:Hget; [|done].
  assert (map_has k r = true) by (apply map_has_get; by rewrite Hget).
  congruence.
Qed.

Lemma wf_joined c k r : wf_registry r → wf_registry (joined_rooms c k r).
Proof.
  intros [Hkeys Hsets]. rewrite joined_rooms_alt. split.
  - by apply map_set_keys_NoDup.
  - apply map_set_Forall; [|done]. simpl. split.
    + apply set_add_NoDup. destruct (map_get k r) as [s|] eqn:Hget; simpl.
      * by apply (map_get_Forall _ _ _ _ Hsets Hget).
      * apply NoDup_nil_2.
    + intros Hnil. pose proof (set_add_elem c (default [] (map_get k r))) as Hin.
      rewrite Hnil in Hin. by apply elem_of_nil in Hin.
Qed.

Lemma members_joined P c k r :
  P k c → members_are P r → members_are P (joined_rooms c k r).
Proof.
  intros Hc Hr. rewrite joined_rooms_alt. apply map_set_Forall; [|done].
  simpl. apply Forall_forall. intros c' [->|Hin]%set_add_elem_iff; [done|].
  destruct (map_get k r) as [s|] eqn:Hget; simpl in Hin;
    [|by apply elem_of_nil in Hin].
  pose proof (map_get_Forall _ _ _ _ Hr Hget) as Hs. simpl in Hs.
  rewrite Forall_forall in Hs. by apply Hs.
Qed.

Lemma wf_map_delete k r : wf_registry r → wf_registry (map_delete k r).
Proof.
  intros [Hkeys Hsets]. split; [by apply map_delete_keys_NoDup|].
  by apply Forall_filter_sub.
Qed.

Lemma members_map_delete P k r : members_are P r → members_are P (map_delete k r).
Proof. apply Forall_filter_sub. Qed.

Lemma wf_shrunk c k s r :
  map_get k r = Some s → set_delete c s ≠ [] →
  wf_registry r → wf_registry (map_set k (set_delete c s) r).
Proof.
  intros Hget Hne [Hkeys Hsets]. split; [by apply map_set_keys_NoDup|].
  apply map_set_Forall; [|done]. simpl. split; [|done].
  apply set_delete_NoDup. by apply (map_get_Forall _ _ _ _ Hsets Hget).
Qed.

Lemma members_shrunk P c k s r :
  map_get k r = Some s →
  members_are P r → members_are P (map_set k (set_delete c s) r).
Proof.
  intros Hget Hr. apply map_set_Forall; [|done]. simpl.
  pose proof (map_get_Forall _ _ _ _ Hr Hget) as Hs. simpl in Hs.
  rewrite Forall_forall in Hs. apply Forall_forall.
  intros c' [_ Hin]%set_delete_elem. by apply Hs.
Qed.

Lemma remove_from_rooms_keys c r :
  sublist (remove_from_rooms c r).*1 r.*1.
Proof.
  unfold remove_from_rooms. induction r as [|[k s] r IH]; [done|].
  simpl. destruct (set_has c s); simpl.
  - destruct (decide (set_size (set_delete c s) = 0%nat)); simpl.
    + by apply sublist_cons.
    + by apply sublist_skip.
  - by apply sublist_skip.
Qed.

Lemma wf_remove_from_rooms c r :
  wf_registry r → wf_registry (remove_from_rooms c r).
Proof.
  intros [Hkeys Hsets]. split.
  - eapply sublist_NoDup; [done|apply remove_from_rooms_keys].
  - unfold remove_from_rooms. apply Forall_forall.
    intros [k s] ([k' s'] & Hin & Hsome)%list_elem_of_omap.
    rewrite Forall_forall in Hsets. specialize (Hsets _ Hin). simpl in *.
    destruct (set_has c s'); [|by simplify_eq].
    destruct (decide (set_size (set_delete c s') = 0%nat)) as [|Hsize]; [done|].
    simplify_eq. simpl. split; [by apply set_delete_NoDup, Hsets|].
    intros Hnil. by rewrite Hnil in Hsize.
Qed.

Lemma members_remove_from_rooms P c r :
  members_are P r → members_are P (remove_from_rooms c r).
Proof.
  intros Hr. unfold members_are, remove_from_rooms. apply Forall_forall.
  intros [k s] ([k' s'] & Hin & Hsome)%list_elem_of_omap.
  unfold members_are in Hr. rewrite Forall_forall in Hr.
  specialize (Hr _ Hin). simpl in *.
  destruct (set_has c s'); [|by simplify_eq].
  destruct (decide (set_size (set_delete c s') = 0%nat)); [done|].
  simplify_eq. simpl. rewrite Forall_forall in Hr. apply Forall_forall.
  intros c' [_ Hc']%set_delete_elem. by apply Hr.
Qed.

Lemma members_mono (P Q : string → ConnId → Prop) r :
  (∀ k c, P k c → Q k c) → members_are P r → members_are Q r.
Proof.
  intros HPQ Hr. unfold members_are in *.
  eapply Forall_impl; [exact Hr|]. intros entry Hentry.
  eapply Forall_impl; [exact Hentry|]. apply HPQ.
Qed.

Lemma absent_remove_self c r : absent c (remove_from_rooms c r).
Proof.
  unfold absent, remove_from_rooms. apply Forall_forall.
  intros [k s] ([k' s'] & Hin & Hsome)%list_elem_of_omap. simpl in *.
  destruct (set_has c s') eqn:Hhas.
  - destruct (decide (set_size (set_delete c s') = 0%nat)); [done|].
    simplify_eq. simpl. intros [Hne _]%set_delete_elem. done.
  - simplify_eq. simpl. unfold set_has in Hhas.
    by apply bool_decide_eq_false in Hhas.
Qed.

End Registry.

(** ** What one event does to the registries *)

Lemma parties_update_where id f rows :
  (∀ n, parties (f n) = parties n) →
  parties <$> update_where neg_id id f rows = parties <$> rows.
Proof.
  intros Hf. unfold update_where. rewrite <- list_fmap_compose.
  apply list_fmap_ext. intros _ n _. simpl. by case_decide.
Qed.

Lemma select_parties id rows rows' n :
  parties <$> rows' = parties <$> rows →
  select_negotiation id rows = Some n →
  ∃ n', select_negotiation id rows' = Some n' ∧ parties n' = parties n.
Proof.
  unfold select_negotiation. revert rows'.
  induction rows as [|r rows IH]; intros [|r' rows'] Heq Hsel; try done.
  rewrite !fmap_cons in Heq.
  assert (parties r' = parties r ∧ parties <$> rows' = parties <$> rows)
    as [Hr Htl] by (split; congruence).
  assert (neg_id r' = neg_id r) as Hid by (unfold parties in Hr; congruence).
  rewrite filter_cons in Hsel. rewrite filter_cons, Hid.
  destruct (decide (neg_id r = id)).
  - simpl in Hsel. injection Hsel as <-. by exists r'.
  - by apply IH.
Qed.

Lemma party_of_stable rows rows' id uid :
  parties <$> rows' = parties <$> rows →
  party_of rows id uid → party_of rows' id uid.
Proof.
  intros Heq (n & Hsel & Hparty).
  destruct (select_parties _ _ _ _ Heq Hsel) as (n' & Hsel' & Hn').
  exists n'. split; [done|]. unfold parties in Hn'. simplify_eq. congruence.
Qed.

Lemma party_test (buyer seller : string) uid :
  bool_decide (Some buyer ≠ uid) && bool_decide (Some seller ≠ uid) = false →
  uid = Some buyer ∨ uid = Some seller.
Proof.
  intros [H|H]%andb_false_iff; apply bool_decide_eq_false, dec_stable in H; eauto.
Qed.

(** A frame leaves the sockets, the user registry and the parties of every
    negotiation alone; the rooms change only by a successful join (of a
    party) or by a leave. *)
Lemma dispatch_cases ws m w :
  let w' := exec (dispatch ws m) w in
  sockets w' = sockets w
  ∧ userSockets w' = userSockets w
  ∧ parties <$> negotiations w' = parties <$> negotiations w
  ∧ (negotiationRooms w' = negotiationRooms w
     ∨ (∃ id uid,
          ws_userId (socket_of ws w) = Some uid
          ∧ party_of (negotiations w) id uid
          ∧ negotiationRooms w' = joined_rooms ws id (negotiationRooms w))
     ∨ (∃ id room,
          map_get id (negotiationRooms w) = Some room
          ∧ negotiationRooms w' =
              if decide (set_size (set_delete ws room) = 0%nat)
              then map_delete id (negotiationRooms w)
              else map_set id (set_delete ws room) (negotiationRooms w))).
Proof.
  intros w'. subst w'.
  change (post (dispatch ws m) w (λ _ w',
    sockets w' = sockets w
    ∧ userSockets w' = userSockets w
    ∧ parties <$> negotiations w' = parties <$> negotiations w
    ∧ (negotiationRooms w' = negotiationRooms w
       ∨ (∃ id uid,
            ws_userId (socket_of ws w) = Some uid
            ∧ party_of (negotiations w) id uid
            ∧ negotiationRooms w' = joined_rooms ws id (negotiationRooms w))
       ∨ (∃ id room,
            map_get id (negotiationRooms w) = Some room
            ∧ negotiationRooms w' =
                if decide (set_size (set_delete ws room) = 0%nat)
                then map_delete id (negotiationRooms w)
                else map_set id (set_delete ws room) (negotiationRooms w))))).
  destruct m as [id|id|id c|id a msg|id a msg|id|id msg|id s|u b|ids].
  - (* join *)
    simpl. unfold handleJoinNegotiation.
    repeat (post_step; simpl).
    all: try (repeat split; try done; by left).
    match goal with
    | H : _ && _ = false |- _ => apply party_test in H as Hparty
    end.
    destruct (ws_userId (socket_of ws w)) as [uid|] eqn:Huid; [|by destruct Hparty].
    assert (party_of (negotiations w) id uid) as Hp.
    { eexists. split; [eassumption|]. destruct Hparty; simplify_eq; eauto. }
    assert (∀ rooms' : list (string * list ConnId),
              rooms' = joined_rooms ws id (negotiationRooms w) →
              rooms' = negotiationRooms w
              ∨ (∃ id0 uid0, Some uid = Some uid0
                   ∧ party_of (negotiations w) id0 uid0
                   ∧ rooms' = joined_rooms ws id0 (negotiationRooms w))
              ∨ (∃ id0 room,
                   map_get id0 (negotiationRooms w) = Some room
                   ∧ rooms' =
                       if decide (set_size (set_delete ws room) = 0%nat)
                       then map_delete id0 (negotiationRooms w)
                       else map_set id0 (set_delete ws room) (negotiationRooms w)))
      as Hcase.
    { intros rooms' ->. right. left. by exists id, uid. }
    unfold joined_rooms in Hcase.
    destruct (map_has id (negotiationRooms w)); simpl.
    all: repeat split; try done; by apply Hcase.
  - (* leave *)
    simpl. unfold handleLeaveNegotiation.
    repeat (post_step; simpl).
    1: by repeat split; try done; left.
    destruct (map_get id (negotiationRooms w)) as [room|] eqn:Hget.
    + repeat split; try (by case_decide). right. right.
      exists id, room. split; [done|]. by case_decide.
    + repeat split; try done. by left.
  - simpl. repeat (post_step; simpl).
    all: repeat split; try done; by left.
  - simpl. repeat (post_step; simpl).
    all: rewrite ?parties_update_where by done.
    all: repeat split; try done; by left.
  - simpl. repeat (post_step; simpl).
    all: rewrite ?parties_update_where by done.
    all: repeat split; try done; by left.
  - simpl. repeat (post_step; simpl).
    all: rewrite ?parties_update_where by done.
    all: repeat split; try done; by left.
  - simpl. repeat (post_step; simpl).
    all: repeat split; try done; by left.
  - simpl. repeat (post_step; simpl).
    all: rewrite ?parties_update_where by done.
    all: repeat split; try done; by left.
  - simpl. repeat (post_step; simpl).
    all: repeat split; try done; by left.
  - simpl. repeat (post_step; simpl).
    all: repeat split; try done; by left.
Qed.

(** The [message] listener either runs the handler of a validated frame,
    and does nothing else, or touches nothing. *)
Lemma on_message_cases ws data w :
  (∃ m, within_schema m ∧ on_message ws data w = dispatch ws m w)
  ∨ untouched w (exec (on_message ws data) w).
Proof.
  destruct data as [message|]; [|right; by repeat split].
  unfold on_message, handleWebSocketMessage, exec, try_catch, bind, gets. simpl.
  destruct (negb (ws_isAuthenticated (socket_of ws w))
            || negb (truthy (ws_userId (socket_of ws w))));
    [right; by repeat split|].
  destruct (wsMessageSchema_parse message) as [m|] eqn:Hparse.
  - left. exists m. split; [by eapply parse_within_schema|].
    assert (match message with JNull => throw | _ => ret () end w
            = (Normal (), w)) as -> by (by destruct message).
    pose proof (dispatch_completes ws m w) as Hc.
    destruct (dispatch ws m w) as [[[]|] w1]; [done|discriminate Hc].
  - right. destruct message; by repeat split.
Qed.

Lemma map_delete_map_set {V} k (v : V) m :
  map_delete k (map_set k v m) = map_delete k m.
Proof.
  unfold map_delete. induction m as [|[k' v'] m IH]; simpl.
  - rewrite filter_cons, decide_False; [done|]. simpl. intros H. by apply H.
  - destruct (decide (k' = k)) as [->|Hne].
    + rewrite !filter_cons. simpl.
      rewrite !decide_False by (intros H; by apply H). done.
    + rewrite !filter_cons. simpl. rewrite IH. done.
Qed.

(** What cleanup does to the registries. *)
Lemma cleanup_cases ws w :
  let w' := exec (cleanupWebSocket ws) w in
  sockets w' = sockets w
  ∧ negotiations w' = negotiations w
  ∧ negotiationMessages w' = negotiationMessages w
  ∧ ((ws_userId (socket_of ws w) = None ∨ ws_userId (socket_of ws w) = Some "")
     ∧ userSockets w' = userSockets w
     ∧ negotiationRooms w' = negotiationRooms w
     ∨ ∃ uid,
         ws_userId (socket_of ws w) = Some uid
         ∧ negotiationRooms w' = remove_from_rooms ws (negotiationRooms w)
         ∧ userSockets w' =
             match map_get uid (userSockets w) with
             | Some s =>
                 if decide (set_size (set_delete ws s) = 0%nat)
                 then map_delete uid (userSockets w)
                 else map_set uid (set_delete ws s) (userSockets w)
             | None => userSockets w
             end).
Proof.
  intros w'. subst w'.
  change (post (cleanupWebSocket ws) w (λ _ w',
    sockets w' = sockets w
    ∧ negotiations w' = negotiations w
    ∧ negotiationMessages w' = negotiationMessages w
    ∧ ((ws_userId (socket_of ws w) = None ∨ ws_userId (socket_of ws w) = Some "")
       ∧ userSockets w' = userSockets w
       ∧ negotiationRooms w' = negotiationRooms w
       ∨ ∃ uid,
           ws_userId (socket_of ws w) = Some uid
           ∧ negotiationRooms w' = remove_from_rooms ws (negotiationRooms w)
           ∧ userSockets w' =
               match map_get uid (userSockets w) with
               | Some s =>
                   if decide (set_size (set_delete ws s) = 0%nat)
                   then map_delete uid (userSockets w)
                   else map_set uid (set_delete ws s) (userSockets w)
               | None => userSockets w
               end))).
  unfold cleanupWebSocket.
  destruct (ws_userId (socket_of ws w)) as [uid|] eqn:Huid; simpl.
  2: { post_step. post_step. simpl. rewrite Huid. simpl. post_step.
       do 3 (split; [done|]). left. eauto. }
  destruct (decide (uid = "")) as [->|Hne].
  { post_step. post_step. simpl. rewrite Huid. simpl. post_step.
    do 3 (split; [done|]). left. eauto. }
  post_step. post_step. simpl. rewrite Huid. simpl.
  rewrite bool_decide_false by done. simpl.
  post_step. post_step. post_step. simpl.
  destruct (map_get uid (userSockets w)) as [s|] eqn:Hget.
  - post_step. post_step. simpl.
    destruct (decide (set_size (set_delete ws s) = 0%nat)) as [Hsize|Hsize].
    + repeat (post_step; simpl).
      all: rewrite ?map_delete_map_set.
      all: do 3 (split; [done|]); right; exists uid.
      all: rewrite Hget, decide_True by done.
      all: done.
    + repeat (post_step; simpl).
      do 3 (split; [done|]); right; exists uid.
      rewrite Hget, decide_False by done.
      done.
  - repeat (post_step; simpl).
    do 3 (split; [done|]); right; exists uid. rewrite Hget. done.
Qed.

(** What the upgrade of a new connection does to the registries. *)
Lemma connection_cases jwt_verify ws token w :
  sockets w !! ws = None →
  let w' := exec (step jwt_verify (Connection ws token)) w in
  negotiationRooms w' = negotiationRooms w
  ∧ negotiations w' = negotiations w
  ∧ negotiationMessages w' = negotiationMessages w
  ∧ (∀ c, c ≠ ws → sockets w' !! c = sockets w !! c)
  ∧ (userSockets w' = userSockets w ∧ user_of (sockets w') ws = None
     ∨ ∃ uid, uid ≠ ""
              ∧ user_of (sockets w') ws = Some uid
              ∧ ws_listening (socket_of ws w') = true
              ∧ userSockets w' = joined_rooms ws uid (userSockets w)).
Proof.
  intros Hfresh w'. subst w'.
  change (post (step jwt_verify (Connection ws token)) w (λ _ w',
    negotiationRooms w' = negotiationRooms w
    ∧ negotiations w' = negotiations w
    ∧ negotiationMessages w' = negotiationMessages w
    ∧ (∀ c, c ≠ ws → sockets w' !! c = sockets w !! c)
    ∧ (userSockets w' = userSockets w ∧ user_of (sockets w') ws = None
       ∨ ∃ uid, uid ≠ ""
                ∧ user_of (sockets w') ws = Some uid
                ∧ ws_listening (socket_of ws w') = true
                ∧ userSockets w' = joined_rooms ws uid (userSockets w)))).
  unfold step, on_connection, verifyClient.
  post_step. post_step. simpl. rewrite Hfresh.
  rewrite bool_decide_false by (by intros [? ?]).
  repeat (post_step; simpl).
  all: try match goal with
       | H : negb (truthy (tok_userId ?d)) = false |- _ =>
           destruct (tok_userId d) as [uid|]; [simpl in *|done]
       end.
  all: try match goal with
       | |- context [if map_has ?k ?m then _ else _] =>
           destruct (map_has k m) eqn:Hhas; simpl
       end.
  all: unfold user_of, socket_of; simpl.
  all: rewrite ?lookup_insert_eq; simpl.
  all: do 3 (split; [done|]).
  all: (split; [intros c Hc; by rewrite ?lookup_insert_ne by done|]).
  all: try (left; split; [done|]; by rewrite ?Hfresh).
  all: right; exists uid.
  all: (split; [intros ->; done|]); split; [done|]; split; [done|].
  all: unfold joined_rooms; by rewrite Hhas.
Qed.

(** ** The registries stay consistent *)

Lemma socket_user ws uid w :
  ws_userId (socket_of ws w) = Some uid → user_of (sockets w) ws = Some uid.
Proof.
  unfold socket_of, user_of. by destruct (sockets w !! ws).
Qed.

Lemma consistent_frame w w' :
  userSockets w' = userSockets w →
  negotiationRooms w' = negotiationRooms w →
  (∀ c, user_of (sockets w') c = user_of (sockets w) c) →
  parties <$> negotiations w' = parties <$> negotiations w →
  consistent w → consistent w'.
Proof.
  intros Hu Hr Hs Hp (Hwu & Hwr & Hmu & Hmr). unfold consistent.
  rewrite Hu, Hr. repeat split; try apply Hwu; try apply Hwr.
  - eapply members_mono; [|exact Hmu]. intros uid c. by rewrite Hs.
  - eapply members_mono; [|exact Hmr]. intros id c (uid & Hc & Hparty).
    exists uid. rewrite Hs. split; [done|]. by eapply party_of_stable.
Qed.

Lemma consistent_dispatch ws m w :
  consistent w → consistent (exec (dispatch ws m) w).
Proof.
  intros Hw. pose proof Hw as (Hwu & Hwr & Hmu & Hmr).
  destruct (dispatch_cases ws m w) as (Hs & Hu & Hp & Hrooms).
  destruct Hrooms as [Hr|[(id & uid & Huid & Hparty & Hr)|(id & room & Hget & Hr)]].
  - eapply consistent_frame; try done. intros c. by rewrite Hs.
  - unfold consistent. rewrite Hu, Hr, Hs. split; [done|].
    split; [by apply wf_joined|]. split; [done|].
    apply members_joined.
    + exists uid. split; [by apply socket_user|]. by eapply party_of_stable.
    + eapply members_mono; [|exact Hmr]. intros id' c (uid' & Hc & Hp').
      exists uid'. split; [done|]. by eapply party_of_stable.
  - assert (members_are (λ id c, ∃ uid, user_of (sockets w) c = Some uid
              ∧ party_of (negotiations (exec (dispatch ws m) w)) id uid)
              (negotiationRooms w)) as Hmr'.
    { eapply members_mono; [|exact Hmr]. intros id' c (uid' & Hc & Hp').
      exists uid'. split; [done|]. by eapply party_of_stable. }
    unfold consistent. rewrite Hu, Hr, Hs. split; [done|].
    destruct (decide (set_size (set_delete ws room) = 0%nat)) as [Hsize|Hsize].
    + split; [by apply wf_map_delete|]. split; [done|].
      by apply members_map_delete.
    + split; [apply wf_shrunk; try done; intros Hnil; by rewrite Hnil in Hsize|].
      split; [done|]. by apply members_shrunk.
Qed.

Lemma consistent_cleanup ws w :
  consistent w → consistent (exec (cleanupWebSocket ws) w).
Proof.
  intros Hw. pose proof Hw as (Hwu & Hwr & Hmu & Hmr).
  destruct (cleanup_cases ws w) as (Hs & Hn & _ & Hcases).
  destruct Hcases as [(_ & Hu & Hr)|(uid & Huid & Hr & Hu)].
  - apply (consistent_frame w);
      [done|done|intros c; by rewrite Hs|by rewrite Hn|done].
  - unfold consistent. rewrite Hu, Hr, Hs, Hn.
    assert (wf_registry
              match map_get uid (userSockets w) with
              | Some s =>
                  if decide (set_size (set_delete ws s) = 0%nat)
                  then map_delete uid (userSockets w)
                  else map_set uid (set_delete ws s) (userSockets w)
              | None => userSockets w
              end
            ∧ members_are (λ uid c, user_of (sockets w) c = Some uid)
                match map_get uid (userSockets w) with
                | Some s =>
                    if decide (set_size (set_delete ws s) = 0%nat)
                    then map_delete uid (userSockets w)
                    else map_set uid (set_delete ws s) (userSockets w)
                | None => userSockets w
                end) as [Hwu' Hmu'].
    { destruct (map_get uid (userSockets w)) as [s|] eqn:Hget; [|done].
      destruct (decide (set_size (set_delete ws s) = 0%nat)) as [Hsize|Hsize].
      - split; [by apply wf_map_delete|by apply members_map_delete].
      - split; [|by apply members_shrunk].
        apply wf_shrunk; try done. intros Hnil. by rewrite Hnil in Hsize. }
    split; [done|]. split; [by apply wf_remove_from_rooms|].
    split; [done|]. by apply members_remove_from_rooms.
Qed.

Lemma member_known P c r k s :
  members_are P r → (k, s) ∈ r → c ∈ s → P k c.
Proof.
  intros Hr Hin Hc. unfold members_are in Hr. rewrite Forall_forall in Hr.
  specialize (Hr _ Hin). rewrite Forall_forall in Hr. by apply Hr.
Qed.

Lemma members_strengthen (P Q : string → ConnId → Prop) r :
  members_are P r →
  (∀ k s c, (k, s) ∈ r → c ∈ s → P k c → Q k c) →
  members_are Q r.
Proof.
  intros Hr HPQ. unfold members_are in *. rewrite Forall_forall in Hr.
  apply Forall_forall. intros [k s] Hin. specialize (Hr _ Hin).
  rewrite Forall_forall in Hr. apply Forall_forall. intros c Hc.
  by apply (HPQ k s c), Hr.
Qed.

Lemma consistent_connection jwt_verify ws token w :
  consistent w → consistent (exec (step jwt_verify (Connection ws token)) w).
Proof.
  intros Hw. pose proof Hw as (Hwu & Hwr & Hmu & Hmr).
  destruct (sockets w !! ws) as [sk|] eqn:Hknown.
  { unfold step, exec, bind, gets. simpl.
    by rewrite Hknown, bool_decide_true by eauto. }
  destruct (connection_cases jwt_verify ws token w Hknown)
    as (Hr & Hn & _ & Hother & Hcases).
  assert (Hold : ∀ c uid, user_of (sockets w) c = Some uid →
            user_of (sockets (exec (step jwt_verify (Connection ws token)) w)) c
            = Some uid).
  { intros c uid Hc. destruct (decide (c = ws)) as [->|Hne].
    - unfold user_of in Hc. by rewrite Hknown in Hc.
    - unfold user_of in *. by rewrite Hother. }
  assert (members_are
            (λ uid c, user_of (sockets (exec (step jwt_verify (Connection ws token)) w)) c
                      = Some uid) (userSockets w)) as Hmu'.
  { eapply members_mono; [|exact Hmu]. intros uid c. apply Hold. }
  assert (members_are
            (λ id c, ∃ uid,
               user_of (sockets (exec (step jwt_verify (Connection ws token)) w)) c
               = Some uid
               ∧ party_of (negotiations w) id uid) (negotiationRooms w)) as Hmr'.
  { eapply members_mono; [|exact Hmr]. intros id c (uid & Hc & Hp).
    exists uid. split; [by apply Hold|done]. }
  unfold consistent. rewrite Hr, Hn.
  destruct Hcases as [[Hu Hnone]|(uid & _ & Hsome & _ & Hu)]; rewrite Hu.
  - done.
  - split; [by apply wf_joined|]. split; [done|]. split; [|done].
    by apply members_joined.
Qed.

Lemma consistent_set_socket c sk w :
  ws_userId sk = ws_userId (socket_of c w) →
  consistent w → consistent (with_sockets (<[c := sk]> (sockets w)) w).
Proof.
  intros Hsk. apply consistent_frame; try done. intros c'.
  unfold user_of. simpl. destruct (decide (c' = c)) as [->|Hne].
  - rewrite lookup_insert_eq. simpl. rewrite Hsk. unfold socket_of.
    by destruct (sockets w !! c).
  - by rewrite lookup_insert_ne.
Qed.

(** Every event of the server keeps the registries consistent. *)
Lemma consistent_step jwt_verify i : keeps consistent (step jwt_verify i).
Proof.
  intros w Hw. destruct i as [c token|c data|c|c|t].
  - by apply consistent_connection.
  - unfold step, bind, gets. simpl.
    destruct (ws_listening (socket_of c w)); [|done].
    destruct (on_message_cases c data w) as [(m & _ & Hm)|Hun].
    + rewrite Hm. by apply consistent_dispatch.
    + destruct Hun as (Hn & _ & _ & Hu & Hr & Hs). unfold exec in *.
      apply (consistent_frame w);
        [done|done|intros c'; by rewrite Hs|by rewrite Hn|done].
  - unfold step, bind, gets. simpl.
    destruct (ws_listening (socket_of c w)).
    + by apply consistent_cleanup, consistent_set_socket.
    + by apply consistent_set_socket.
  - unfold step, bind, gets. simpl.
    destruct (ws_listening (socket_of c w)); [|done].
    by apply consistent_cleanup.
  - by eapply consistent_frame.
Qed.

Lemma consistent_run jwt_verify inputs :
  keeps consistent (run jwt_verify inputs).
Proof. apply keeps_forEach. intros i _. apply consistent_step. Qed.

Lemma started_consistent w : started w → consistent w.
Proof.
  intros (Hu & Hr & _). unfold consistent. rewrite Hu, Hr.
  repeat split; try apply NoDup_nil_2; apply Forall_nil_2.
Qed.

(** ** What the socket layer writes *)

Lemma evolved_refl n : evolved n n.
Proof. repeat split; by left. Qed.

Lemma evolved_trans n0 n n' : evolved n0 n → evolved n n' → evolved n0 n'.
Proof.
  intros (Hp & Hs) (Hp' & Hs'). split; [congruence|].
  destruct Hs' as [Hs'|Hs']; [|by right].
  destruct Hs as [Hs|Hs]; [left; congruence|right]. by rewrite Hs'.
Qed.

Lemma evolved_rows_refl rows : Forall2 evolved rows rows.
Proof. apply Forall_Forall2_diag, Forall_forall. intros n _. apply evolved_refl. Qed.

Lemma evolved_rows_trans rows0 rows rows' :
  Forall2 evolved rows0 rows → Forall2 evolved rows rows' →
  Forall2 evolved rows0 rows'.
Proof.
  intros H1. revert rows'. induction H1 as [|n0 n rows0 rows Hn H1 IH];
    intros rows' H2.
  - by apply Forall2_nil_inv_l in H2 as ->.
  - apply Forall2_cons_inv_l in H2 as (n' & rows'' & Hn' & H2 & ->).
    constructor; [by eapply evolved_trans|by apply IH].
Qed.

Lemma evolved_update_where id f rows :
  (∀ n, evolved n (f n)) → Forall2 evolved rows (update_where neg_id id f rows).
Proof.
  intros Hf. unfold update_where. apply Forall2_fmap_r, Forall_Forall2_diag.
  apply Forall_forall. intros n _. simpl.
  case_decide; [apply Hf|apply evolved_refl].
Qed.

Lemma evolved_parties rows rows' :
  Forall2 evolved rows rows' → parties <$> rows' = parties <$> rows.
Proof.
  induction 1 as [|n n' rows rows' Hn _ IH]; [done|].
  rewrite !fmap_cons, IH. f_equal. apply Hn.
Qed.

Lemma dispatch_evolves ws m w :
  within_schema m →
  Forall2 evolved (negotiations w) (negotiations (exec (dispatch ws m) w)).
Proof.
  intros Hm.
  change (post (dispatch ws m) w (λ _ w',
    Forall2 evolved (negotiations w) (negotiations w'))).
  destruct m as [id|id|id c|id a msg|id a msg|id|id msg|id s|u b|ids]; simpl.
  all: repeat (post_step; simpl).
  all: repeat case_match; simpl.
  all: try apply evolved_rows_refl.
  all: apply evolved_update_where; intros row; repeat split; try (by left).
  all: right.
  all: try (eexists; split; [reflexivity|]).
  all: try (exists a; by split).
  all: try done.
  all: unfold status_enum; repeat first [by left | right].
Qed.

Lemma party_test_str (buyer seller uid : string) :
  bool_decide (buyer ≠ uid) && bool_decide (seller ≠ uid) = false →
  buyer = uid ∨ seller = uid.
Proof.
  intros [H|H]%andb_false_iff; apply bool_decide_eq_false, dec_stable in H; eauto.
Qed.

(** A frame appends at most one row to the message log, written by a
    party of the negotiation the frame is addressed to. *)
Lemma dispatch_log ws m w :
  let w' := exec (dispatch ws m) w in
  negotiationMessages w' = negotiationMessages w
  ∨ ∃ row, negotiationMessages w' = negotiationMessages w ++ [row]
           ∧ by_party (negotiations w) row
           ∧ target m = Some (msg_negotiationId row).
Proof.
  intros w'. subst w'.
  change (post (dispatch ws m) w (λ _ w',
    negotiationMessages w' = negotiationMessages w
    ∨ ∃ row, negotiationMessages w' = negotiationMessages w ++ [row]
             ∧ by_party (negotiations w) row
             ∧ target m = Some (msg_negotiationId row))).
  destruct m as [id|id|id c|id a msg|id a msg|id|id msg|id s|u b|ids]; simpl.
  1, 2: by repeat (post_step; simpl); repeat case_match; left.
  all: repeat (post_step; simpl).
  all: try (by left).
  all: right; eexists; split; [reflexivity|]; split; [|reflexivity].
  all: unfold by_party, party_of; simpl.
  all: eexists; split; [eassumption|].
  all: try (match goal with
            | H : bool_decide (_ ≠ _) = false |- _ =>
                apply bool_decide_eq_false, dec_stable in H
            end; eauto; fail).
  all: match goal with
       | H : _ && _ = false |- _ => apply party_test_str in H; destruct H
       end.
  all: eauto.
Qed.

(** ** The event loop *)

Lemma step_completes jwt_verify i w : (step jwt_verify i w).1 = Normal ().
Proof.
  change (post (step jwt_verify i) w (λ c _, c = Normal ())).
  destruct i as [c token|c data|c|c|t]; unfold step.
  all: repeat (post_step; simpl).
  all: done.
Qed.

Lemma run_cons jwt_verify i inputs w :
  exec (run jwt_verify (i :: inputs)) w
  = exec (run jwt_verify inputs) (exec (step jwt_verify i) w).
Proof.
  unfold run, exec. simpl. unfold bind.
  pose proof (step_completes jwt_verify i w) as Hc.
  by destruct (step jwt_verify i w) as [[[]|] w1].
Qed.

Lemma run_app jwt_verify inputs1 inputs2 w :
  exec (run jwt_verify (inputs1 ++ inputs2)) w
  = exec (run jwt_verify inputs2) (exec (run jwt_verify inputs1) w).
Proof.
  revert w. induction inputs1 as [|i inputs1 IH]; intros w; [done|].
  rewrite <- app_comm_cons, !run_cons. apply IH.
Qed.

(** One event rewrites negotiations only as [evolved] allows, and appends
    to the message log only rows written by a party. *)
Lemma step_history jwt_verify i w :
  let w' := exec (step jwt_verify i) w in
  Forall2 evolved (negotiations w) (negotiations w')
  ∧ ∃ added, negotiationMessages w' = negotiationMessages w ++ added
             ∧ Forall (by_party (negotiations w)) added.
Proof.
  intros w'. subst w'.
  assert (Hsame : ∀ w', negotiations w' = negotiations w →
            negotiationMessages w' = negotiationMessages w →
            Forall2 evolved (negotiations w) (negotiations w')
            ∧ ∃ added, negotiationMessages w' = negotiationMessages w ++ added
                       ∧ Forall (by_party (negotiations w)) added).
  { intros w' -> ->. split; [apply evolved_rows_refl|].
    exists []. by rewrite app_nil_r. }
  destruct i as [c token|c data|c|c|t].
  - destruct (sockets w !! c) as [sk|] eqn:Hknown.
    + unfold step, exec, bind, gets. simpl.
      rewrite Hknown, bool_decide_true by eauto. by apply Hsame.
    + destruct (connection_cases jwt_verify c token w Hknown)
        as (_ & Hn & Hm & _). by apply Hsame.
  - unfold step, exec, bind, gets. simpl.
    destruct (ws_listening (socket_of c w)); [|by apply Hsame].
    destruct (on_message_cases c data w) as [(m & Hm & Heq)|Hun].
    + rewrite Heq. split; [by apply dispatch_evolves|].
      destruct (dispatch_log c m w) as [Hlog|(row & Hlog & Hrow & _)].
      * exists []. by rewrite app_nil_r.
      * exists [row]. split; [done|]. by apply Forall_singleton.
    + destruct Hun as (Hn & Hm & _). by apply Hsame.
  - unfold step, exec, bind, gets. simpl.
    destruct (ws_listening (socket_of c w)); [|by apply Hsame].
    match goal with
    | |- context [cleanupWebSocket c ?w1] =>
        destruct (cleanup_cases c w1) as (_ & Hn & Hm & _)
    end.
    by apply Hsame.
  - unfold step, exec, bind, gets. simpl.
    destruct (ws_listening (socket_of c w)); [|by apply Hsame].
    destruct (cleanup_cases c w) as (_ & Hn & Hm & _). by apply Hsame.
  - by apply Hsame.
Qed.

Lemma run_history jwt_verify inputs w :
  let w' := exec (run jwt_verify inputs) w in
  Forall2 evolved (negotiations w) (negotiations w')
  ∧ ∃ added, negotiationMessages w' = negotiationMessages w ++ added
             ∧ Forall (by_party (negotiations w)) added.
Proof.
  revert w. induction inputs as [|i inputs IH]; intros w.
  - split; [apply evolved_rows_refl|]. exists []. by rewrite app_nil_r.
  - cbv zeta. rewrite run_cons.
    destruct (step_history jwt_verify i w) as (He1 & added1 & Hl1 & Hp1).
    destruct (IH (exec (step jwt_verify i) w)) as (He2 & added2 & Hl2 & Hp2).
    split; [by eapply evolved_rows_trans|].
    exists (added1 ++ added2). split; [by rewrite Hl2, Hl1, app_assoc|].
    apply Forall_app. split; [done|].
    eapply Forall_impl; [exact Hp2|]. intros row.
    apply party_of_stable. symmetry. by apply evolved_parties.
Qed.

Lemma user_socket c uid w :
  user_of (sockets w) c = Some uid → ws_userId (socket_of c w) = Some uid.
Proof. unfold user_of, socket_of. by destruct (sockets w !! c). Qed.

Lemma listen_same w w' :
  sockets w' = sockets w → authenticated_listen w → authenticated_listen w'.
Proof. intros Hs Hw c uid. unfold socket_of. rewrite Hs. apply Hw. Qed.

Lemma listen_set_socket c sk w :
  ws_userId sk = ws_userId (socket_of c w) →
  ws_listening sk = ws_listening (socket_of c w) →
  authenticated_listen w →
  authenticated_listen (with_sockets (<[c := sk]> (sockets w)) w).
Proof.
  intros Hu Hl Hw c' uid. unfold user_of, socket_of. simpl.
  destruct (decide (c' = c)) as [->|Hne].
  - rewrite lookup_insert_eq. simpl. rewrite Hu, Hl. intros Hc.
    by destruct (Hw c uid (socket_user _ _ _ Hc)).
  - rewrite lookup_insert_ne by done. apply Hw.
Qed.

Lemma listen_step jwt_verify i : keeps authenticated_listen (step jwt_verify i).
Proof.
  intros w Hw. destruct i as [c token|c data|c|c|t].
  - destruct (sockets w !! c) as [sk|] eqn:Hknown.
    + unfold step, bind, gets. simpl.
      by rewrite Hknown, bool_decide_true by eauto.
    + destruct (connection_cases jwt_verify c token w Hknown)
        as (_ & _ & _ & Hother & Hcases).
      unfold exec in *.
      intros c' uid Hc'. destruct (decide (c' = c)) as [->|Hne].
      * destruct Hcases as [[_ Hnone]|(uid' & Hne & Hsome & Hl & _)];
          [congruence|].
        split; [congruence|done].
      * unfold user_of, socket_of in *. rewrite Hother in * by done.
        by apply Hw.
  - unfold step, bind, gets. simpl.
    destruct (ws_listening (socket_of c w)); [|done].
    destruct (on_message_cases c data w) as [(m & _ & Heq)|Hun].
    + rewrite Heq. eapply listen_same; [|done]. apply dispatch_cases.
    + eapply listen_same; [|done]. apply Hun.
  - unfold step, bind, gets. simpl.
    destruct (ws_listening (socket_of c w)) eqn:Hl.
    + eapply listen_same; [apply cleanup_cases|].
      by apply listen_set_socket.
    + by apply listen_set_socket.
  - unfold step, bind, gets. simpl.
    destruct (ws_listening (socket_of c w)); [|done].
    eapply listen_same; [|done]. apply cleanup_cases.
  - by eapply listen_same.
Qed.

Lemma started_listen w : started w → authenticated_listen w.
Proof. intros (_ & _ & Hs) c uid. unfold user_of. by rewrite Hs. Qed.

(** X17.  No listener of the server lets an exception escape, whatever
    the inputs and whichever storage calls throw: every run of the event
    loop completes, and so does every handler of a validated frame (a
    failure inside a handler is answered with the handler's own error
    frame). *)
Theorem event_loop_never_throws jwt_verify inputs w :
  (run jwt_verify inputs w).1 = Normal ()
  ∧ ∀ ws m, (dispatch ws m w).1 = Normal ().
Proof.
  split; [|intros ws m; apply dispatch_completes].
  revert w. induction inputs as [|i inputs IH]; intros w; [done|].
  unfold run in *. simpl. unfold bind.
  pose proof (step_completes jwt_verify i w) as Hstep.
  destruct (step jwt_verify i w) as [[[]|] w1]; [apply IH|done].
Qed.

(** X18.  Whatever reaches the socket layer, it keeps the rows of the
    negotiations table: it creates and deletes none, and every row keeps
    its id, product, buyer and seller.  A status is either what it was or
    one of [active], [completed], [cancelled]. *)
Theorem negotiations_only_evolve jwt_verify inputs w :
  let w' := exec (run jwt_verify inputs) w in
  Forall2 evolved (negotiations w) (negotiations w')
  ∧ parties <$> negotiations w' = parties <$> negotiations w
  ∧ (∀ id n, select_negotiation id (negotiations w) = Some n →
       ∃ n', select_negotiation id (negotiations w') = Some n' ∧ evolved n n')
  ∧ (∀ id, select_negotiation id (negotiations w) = None →
       select_negotiation id (negotiations w') = None).
Proof.
  intros w'. destruct (run_history jwt_verify inputs w) as [Hev _].
  fold w' in Hev. split; [done|]. split; [by apply evolved_parties|].
  assert (Hsel : ∀ id rows rows', Forall2 evolved rows rows' →
    match select_negotiation id rows with
    | Some n => ∃ n', select_negotiation id rows' = Some n' ∧ evolved n n'
    | None => select_negotiation id rows' = None
    end).
  { intros id rows rows'. unfold select_negotiation.
    induction 1 as [|n n' rows rows' Hn _ IH]; [done|].
    rewrite !filter_cons.
    assert (neg_id n' = neg_id n) as ->
      by (destruct Hn as [Hp _]; unfold parties in Hp; congruence).
    destruct (decide (neg_id n = id)); [|done]. simpl. by exists n'. }
  split.
  - intros id n Hn. specialize (Hsel id _ _ Hev). by rewrite Hn in Hsel.
  - intros id Hn. specialize (Hsel id _ _ Hev). by rewrite Hn in Hsel.
Qed.

Lemma negotiations_only_evolve_witness :
  let w := Example.joined "active" in
  let offer := Some (JObj [("type", JStr "negotiation_offer");
                           ("negotiationId", JStr "N1"); ("amount", JNum 100)]) in
  let w' := exec (run Example.jwt_verify [Message 1 offer]) w in
  select_negotiation "N1" (negotiations w) = Some (Example.N1 "active")
  ∧ ∃ n', select_negotiation "N1" (negotiations w') = Some n'
          ∧ evolved (Example.N1 "active") n'.
Proof.
  cbv zeta.
  assert (Hsel : select_negotiation "N1" (negotiations (Example.joined "active"))
                 = Some (Example.N1 "active")) by (vm_compute; reflexivity).
  pose proof (negotiations_only_evolve Example.jwt_verify
    [Message 1 (Some (JObj [("type", JStr "negotiation_offer");
                            ("negotiationId", JStr "N1"); ("amount", JNum 100)]))]
    (Example.joined "active")) as H.
  cbv zeta in H. destruct H as (_ & _ & H & _).
  exact (conj Hsel (H "N1" (Example.N1 "active") Hsel)).
Defined.

(** X19.  The message log is append-only, and every row the server
    appends, whatever the inputs, was sent by the buyer or the seller of
    the negotiation it belongs to. *)
Theorem message_log_append_only jwt_verify inputs w :
  let w' := exec (run jwt_verify inputs) w in
  ∃ added,
    negotiationMessages w' = negotiationMessages w ++ added
    ∧ Forall (λ row,
        ∃ n, select_negotiation (msg_negotiationId row) (negotiations w) = Some n
             ∧ (msg_senderId row = neg_buyerId n
                ∨ msg_senderId row = neg_sellerId n)) added.
Proof.
  intros w'. destruct (run_history jwt_verify inputs w) as (_ & added & Hl & Hp).
  exists added. split; [done|].
  eapply Forall_impl; [exact Hp|]. intros row (n & Hn & Hparty).
  exists n. split; [done|]. destruct Hparty; eauto.
Qed.

(** X20.  From the start of the server on, every member of a negotiation
    room is a connection authenticated as the buyer or the seller of that
    negotiation. *)
Theorem rooms_hold_only_parties jwt_verify inputs w :
  started w →
  let w' := exec (run jwt_verify inputs) w in
  ∀ id room c,
    map_get id (negotiationRooms w') = Some room → c ∈ room →
    ∃ uid n,
      ws_userId (socket_of c w') = Some uid
      ∧ select_negotiation id (negotiations w) = Some n
      ∧ (neg_buyerId n = uid ∨ neg_sellerId n = uid).
Proof.
  intros Hstart w' id room c Hget Hc.
  pose proof (consistent_run jwt_verify inputs w (started_consistent w Hstart))
    as (_ & _ & _ & Hrooms).
  fold (exec (run jwt_verify inputs) w) in Hrooms. fold w' in Hrooms.
  destruct (member_known _ c _ id room Hrooms (map_get_elem _ _ _ Hget) Hc)
    as (uid & Huid & Hparty).
  destruct (run_history jwt_verify inputs w) as [Hev _]. fold w' in Hev.
  apply (party_of_stable _ (negotiations w)) in Hparty;
    [|symmetry; by apply evolved_parties].
  destruct Hparty as (n & Hn & Hp).
  exists uid, n. split; [by apply user_socket|done].
Qed.

Lemma rooms_hold_only_parties_witness :
  let w := Example.database "active" in
  let w' := exec (run Example.jwt_verify
                    [Connection 1 (Some "token-alice");
                     Message 1 (Example.join "N1")]) w in
  started w
  ∧ map_get "N1" (negotiationRooms w') = Some [1%nat]
  ∧ ∃ uid n,
      ws_userId (socket_of 1 w') = Some uid
      ∧ select_negotiation "N1" (negotiations w) = Some n
      ∧ (neg_buyerId n = uid ∨ neg_sellerId n = uid).
Proof.
  cbv zeta.
  assert (Hstart : started (Example.database "active"))
    by exact (conj eq_refl (conj eq_refl eq_refl)).
  assert (Hget : map_get "N1"
            (negotiationRooms
               (exec (run Example.jwt_verify
                        [Connection 1 (Some "token-alice");
                         Message 1 (Example.join "N1")])
                  (Example.database "active"))) = Some [1%nat])
    by (vm_compute; reflexivity).
  exact (conj Hstart (conj Hget
    (rooms_hold_only_parties Example.jwt_verify
       [Connection 1 (Some "token-alice"); Message 1 (Example.join "N1")]
       (Example.database "active") Hstart "N1" [1%nat] 1%nat Hget
       (list_elem_of_here 1%nat [])))).
Defined.

(** X21.  From the start of the server on, both registries are maps of
    non-empty sets with every key once; every connection registered under
    a user is authenticated as that user, who has a non-empty id, and has
    its listeners installed; [isUserConnected] agrees with
    [getConnectedUsers]. *)
Theorem registry_well_formed jwt_verify inputs w :
  started w →
  let w' := exec (run jwt_verify inputs) w in
  wf_registry (userSockets w')
  ∧ wf_registry (negotiationRooms w')
  ∧ (∀ uid s c, map_get uid (userSockets w') = Some s → c ∈ s →
       uid ≠ ""
       ∧ ws_userId (socket_of c w') = Some uid
       ∧ ws_listening (socket_of c w') = true)
  ∧ (∀ uid, isUserConnected uid w' = true ↔ uid ∈ getConnectedUsers w').
Proof.
  intros Hstart w'.
  pose proof (consistent_run jwt_verify inputs w (started_consistent w Hstart))
    as (Hwu & Hwr & Hmu & _).
  pose proof (keeps_forEach authenticated_listen inputs (step jwt_verify)
                (λ i _, listen_step jwt_verify i) w (started_listen w Hstart))
    as Hlisten.
  fold (run jwt_verify inputs) in Hlisten.
  fold (exec (run jwt_verify inputs) w) in Hwu, Hwr, Hmu, Hlisten.
  fold w' in Hwu, Hwr, Hmu, Hlisten.
  split; [done|]. split; [done|]. split.
  - intros uid s c Hget Hc.
    pose proof (member_known _ c _ uid s Hmu (map_get_elem _ _ _ Hget) Hc) as Hu.
    simpl in Hu. destruct (Hlisten c uid Hu) as [Hne Hl].
    split; [done|]. split; [by apply user_socket|done].
  - intros uid. unfold isUserConnected, getConnectedUsers, map_keys.
    destruct (map_get uid (userSockets w')) as [s|] eqn:Hget.
    + destruct Hwu as [_ Hsets].
      pose proof (map_get_Forall _ _ _ _ Hsets Hget) as [_ Hne]. simpl in Hne.
      split.
      * intros _. apply dec_stable. intros Hnot.
        apply map_get_None_keys in Hnot. congruence.
      * intros _. apply bool_decide_eq_true. unfold set_size.
        destruct s; [done|simpl; lia].
    + split; [done|]. intros Hin. by apply map_get_None_keys in Hget.
Qed.

Lemma registry_well_formed_witness :
  let w := Example.database "active" in
  let w' := exec (run Example.jwt_verify
                    [Connection 1 (Some "token-alice");
                     Connection 2 (Some "token-alice"); Close 1]) w in
  started w
  ∧ wf_registry (userSockets w')
  ∧ (isUserConnected "alice-id" w' = true ↔ "alice-id" ∈ getConnectedUsers w').
Proof.
  cbv zeta.
  assert (Hstart : started (Example.database "active"))
    by exact (conj eq_refl (conj eq_refl eq_refl)).
  pose proof (registry_well_formed Example.jwt_verify
    [Connection 1 (Some "token-alice"); Connection 2 (Some "token-alice"); Close 1]
    (Example.database "active") Hstart) as H.
  cbv zeta in H. destruct H as (Hwf & _ & _ & Hconn).
  exact (conj Hstart (conj Hwf (Hconn "alice-id"))).
Defined.

Lemma map_set_elem {V} k (v : V) k' v' m :
  NoDup m.*1 →
  (k', v') ∈ map_set k v m → (k' = k ∧ v' = v) ∨ ((k', v') ∈ m ∧ k' ≠ k).
Proof.
  induction m as [|[k0 v0] m IH]; simpl.
  - intros _ [= -> ->]%list_elem_of_singleton. by left.
  - intros [Hk0 Hm]%NoDup_cons.
    destruct (decide (k0 = k)) as [->|Hne].
    + intros [[= -> ->]|Hin]%elem_of_cons; [by left|].
      right. split; [by right|]. intros ->. apply Hk0.
      apply list_elem_of_fmap. by exists (k, v').
    + intros [[= -> ->]|Hin]%elem_of_cons.
      * right. split; [by left|done].
      * destruct (IH Hm Hin) as [?|[? ?]]; [by left|right].
        split; [by right|done].
Qed.

Lemma not_open_not_in ss l c :
  ws_readyState (default fresh_socket (ss !! c)) ≠ OPEN → c ∉ open_in ss l.
Proof. intros Hc [Hopen _]%list_elem_of_filter. done. Qed.

(** The four broadcasts hand nothing to a socket that is not open. *)
Lemma broadcasts_skip_not_open c w :
  ws_readyState (socket_of c w) ≠ OPEN →
  (∀ id f, quiet c (since w (exec (broadcastToNegotiation id f) w)))
  ∧ (∀ userId f, quiet c (since w (exec (broadcastToUser userId f) w)))
  ∧ (∀ userId username isOnline,
       quiet c (since w (exec (broadcastPresenceUpdate userId username isOnline) w)))
  ∧ (∀ id status changedBy context,
       quiet c (since w (exec (broadcastNegotiationStatusUpdate id status
                                 changedBy context) w))).
Proof.
  intros Hc. unfold socket_of in Hc. split; [|split; [|split]].
  - intros id f.
    change (post (broadcastToNegotiation id f) w (λ _ w', quiet c (since w w'))).
    post_step. unfold since. simpl. rewrite since_app.
    intros f' (c' & [= <- _] & Hin)%list_elem_of_fmap.
    by eapply not_open_not_in.
  - intros userId f.
    change (post (broadcastToUser userId f) w (λ _ w', quiet c (since w w'))).
    post_step. unfold since. simpl. rewrite since_app.
    intros f' (c' & [= <- _] & Hin)%list_elem_of_fmap.
    by eapply not_open_not_in.
  - intros userId username isOnline.
    change (post (broadcastPresenceUpdate userId username isOnline) w
              (λ _ w', quiet c (since w w'))).
    post_step. unfold since. simpl. rewrite since_app.
    apply quiet_sends.
    by intros (k & s & _ & _ & _ & Hopen)%elem_of_presence_targets.
  - intros id status changedBy context.
    change (post (broadcastNegotiationStatusUpdate id status changedBy context) w
              (λ _ w', quiet c (since w w'))).
    unfold broadcastNegotiationStatusUpdate.
    repeat (post_step; simpl).
    all: unfold since; simpl; rewrite <- ?app_assoc, ?since_app.
    all: intros f' Hin; in_trace Hin; simplify_eq.
    all: by eapply not_open_not_in.
Qed.

(** X22.  A closed connection.  When the close event reaches a connection
    whose listeners are installed, cleanup takes the connection out of the
    set of its user in the user registry, and the socket is closed.  A
    socket that is not open is handed nothing by a broadcast to a room, to
    a user, of presence or of a status change, whether or not a registry
    still lists it. *)
Theorem closed_socket_hears_no_broadcast jwt_verify ws uid w :
  ws_listening (socket_of ws w) = true →
  ws_userId (socket_of ws w) = Some uid →
  uid ≠ "" →
  let w' := exec (step jwt_verify (Close ws)) w in
  (ws ∉ default [] (map_get uid (userSockets w')))
  ∧ ws_readyState (socket_of ws w') = CLOSED
  ∧ ∀ w0, ws_readyState (socket_of ws w0) ≠ OPEN →
      (∀ id f, quiet ws (since w0 (exec (broadcastToNegotiation id f) w0)))
      ∧ (∀ userId f, quiet ws (since w0 (exec (broadcastToUser userId f) w0)))
      ∧ (∀ userId username isOnline,
           quiet ws (since w0 (exec (broadcastPresenceUpdate userId username
                                       isOnline) w0)))
      ∧ (∀ id status changedBy context,
           quiet ws (since w0 (exec (broadcastNegotiationStatusUpdate id status
                                       changedBy context) w0))).
Proof.
  intros Hl Huid Hne w'.
  assert (Hstate : (ws ∉ default [] (map_get uid (userSockets w')))
                   ∧ ws_readyState (socket_of ws w') = CLOSED).
  { subst w'. unfold step, exec, bind, gets. simpl. rewrite Hl.
    match goal with
    | |- context [with_sockets (<[ws := ?sk]> _) w] =>
        set (w1 := with_sockets (<[ws := sk]> (sockets w)) w)
    end.
    assert (Hsk : ws_userId (socket_of ws w1) = Some uid).
    { unfold w1, socket_of at 1. simpl. by rewrite lookup_insert_eq. }
    destruct (cleanup_cases ws w1) as (Hs & _ & _ & Hcases).
    destruct Hcases as [([Hnone|Hempty] & _)|(uid' & Hu' & _ & Hus)];
      [congruence|congruence|].
    assert (uid' = uid) as -> by congruence.
    unfold exec in *. change (userSockets w1) with (userSockets w) in Hus.
    split.
    - rewrite Hus. destruct (map_get uid (userSockets w)) as [s|] eqn:Hget.
      + destruct (decide (set_size (set_delete ws s) = 0%nat)).
        * rewrite map_get_delete_eq. simpl. apply not_elem_of_nil.
        * rewrite map_get_set_eq. simpl. by intros [? _]%set_delete_elem.
      + rewrite Hget. simpl. apply not_elem_of_nil.
    - unfold socket_of in *. rewrite Hs. unfold w1. simpl.
      by rewrite lookup_insert_eq. }
  destruct Hstate as (Hout & Hclosed).
  do 2 (split; [done|]).
  intros w0. apply broadcasts_skip_not_open.
Qed.

Lemma closed_socket_hears_no_broadcast_witness :
  let w := Example.joined "active" in
  let w' := exec (step Example.jwt_verify (Close 1)) w in
  ws_listening (socket_of 1 w) = true
  ∧ ws_userId (socket_of 1 w) = Some "alice-id"
  ∧ 1%nat ∈ room_of "N1" w
  ∧ (1%nat ∉ default [] (map_get "alice-id" (userSockets w')))
  ∧ quiet 1 (since w' (exec (broadcastToNegotiation "N1"
                               (ErrorFrame "x")) w')).
Proof.
  cbv zeta.
  assert (Hl : ws_listening (socket_of 1 (Example.joined "active")) = true)
    by (vm_compute; reflexivity).
  assert (Hu : ws_userId (socket_of 1 (Example.joined "active")) = Some "alice-id")
    by (vm_compute; reflexivity).
  assert (Hne : "alice-id" ≠ "") by (intros H; discriminate H).
  assert (Hin : 1%nat ∈ room_of "N1" (Example.joined "active")).
  { vm_compute. repeat first [apply list_elem_of_here | apply list_elem_of_further]. }
  pose proof (closed_socket_hears_no_broadcast Example.jwt_verify 1 "alice-id"
    (Example.joined "active") Hl Hu Hne) as H.
  cbv zeta in H. destruct H as (Hout & Hclosed & Hquiet).
  assert (Hnot : ws_readyState
                   (socket_of 1 (exec (step Example.jwt_verify (Close 1))
                                   (Example.joined "active"))) ≠ OPEN)
    by (rewrite Hclosed; intros Heq; discriminate Heq).
  destruct (Hquiet _ Hnot) as (Hroom & _).
  exact (conj Hl (conj Hu (conj Hin (conj Hout (Hroom "N1" (ErrorFrame "x")))))).
Defined.

(** ** Who is sent a negotiation update *)

(** One event only appends to the log, and hands negotiation updates only
    to members of the room of the negotiation. *)
Lemma step_trace jwt_verify i w :
  let w' := exec (step jwt_verify i) w in
  log w' = log w ++ since w w'
  ∧ ∀ c id um, EvSend c (NegotiationUpdate id um) ∈ since w w' →
      c ∈ default [] (map_get id (negotiationRooms w)).
Proof.
  intros w'. subst w'.
  change (post (step jwt_verify i) w (λ _ w',
    log w' = log w ++ since w w'
    ∧ ∀ c id um, EvSend c (NegotiationUpdate id um) ∈ since w w' →
        c ∈ default [] (map_get id (negotiationRooms w)))).
  destruct i as [c0 token|c0 data|c0|c0|t]; unfold step.
  all: repeat (post_step; simpl).
  all: repeat match goal with
       | |- context [if map_has ?k ?m then _ else _] =>
           destruct (map_has k m); simpl
       | |- context [match map_get ?k ?m with _ => _ end] =>
           destruct (map_get k m) eqn:?; simpl
       | |- context [if decide ?P then _ else _] => destruct (decide P); simpl
       end.
  all: unfold presence_sends, since; simpl.
  all: rewrite <- ?app_assoc, ?since_app, ?drop_all, ?app_nil_r; simpl.
  all: (split; [done|]).
  all: intros c id um Hin; in_trace Hin; simplify_eq.
  all: match goal with
       | H : _ ∈ open_in _ _ |- _ => by apply list_elem_of_filter in H as [_ ?]
       end.
Qed.

Lemma user_step jwt_verify i c uid :
  keeps (λ w, user_of (sockets w) c = Some uid) (step jwt_verify i).
Proof.
  intros w Hw. destruct i as [c0 token|c0 data|c0|c0|t].
  - destruct (sockets w !! c0) as [sk|] eqn:Hknown.
    + unfold step, bind, gets. simpl.
      by rewrite Hknown, bool_decide_true by eauto.
    + destruct (connection_cases jwt_verify c0 token w Hknown)
        as (_ & _ & _ & Hother & _).
      unfold exec, user_of in *. rewrite Hother; [done|].
      intros ->. by rewrite Hknown in Hw.
  - unfold step, bind, gets. simpl.
    destruct (ws_listening (socket_of c0 w)); [|done].
    destruct (on_message_cases c0 data w) as [(m & _ & Heq)|Hun].
    + rewrite Heq. destruct (dispatch_cases c0 m w) as (Hs & _).
      unfold exec in Hs. by rewrite Hs.
    + destruct Hun as (_ & _ & _ & _ & _ & Hs). unfold exec in Hs.
      by rewrite Hs.
  - assert (∀ sk, ws_userId sk = ws_userId (socket_of c0 w) →
              user_of (<[c0 := sk]> (sockets w)) c = Some uid) as Hset.
    { intros sk Hsk. unfold user_of. destruct (decide (c = c0)) as [->|Hne].
      - rewrite lookup_insert_eq. simpl. rewrite Hsk. by apply user_socket.
      - by rewrite lookup_insert_ne. }
    unfold step, bind, gets. simpl.
    destruct (ws_listening (socket_of c0 w)); [|by apply Hset].
    match goal with
    | |- context [cleanupWebSocket c0 ?w1] =>
        destruct (cleanup_cases c0 w1) as (Hs & _)
    end.
    unfold exec in Hs. rewrite Hs. by apply Hset.
  - unfold step, bind, gets. simpl.
    destruct (ws_listening (socket_of c0 w)); [|done].
    destruct (cleanup_cases c0 w) as (Hs & _). unfold exec in Hs.
    by rewrite Hs.
  - done.
Qed.

Lemma run_trace jwt_verify inputs w :
  consistent w →
  let w' := exec (run jwt_verify inputs) w in
  log w' = log w ++ since w w'
  ∧ updates_to_parties (negotiations w) w' (since w w').
Proof.
  revert w. induction inputs as [|i inputs IH]; intros w Hw.
  - cbv zeta. unfold since, run, exec. simpl. rewrite drop_all, app_nil_r.
    split; [done|]. by intros c id um Hin%elem_of_nil.
  - cbv zeta. rewrite run_cons.
    set (w1 := exec (step jwt_verify i) w).
    set (w' := exec (run jwt_verify inputs) w1).
    destruct (step_trace jwt_verify i w) as [Hl1 Ht1]. fold w1 in Hl1, Ht1.
    destruct (IH w1 (consistent_step jwt_verify i w Hw)) as [Hl2 Ht2].
    fold w' in Hl2, Ht2.
    assert (Hsince : since w w' = since w w1 ++ since w1 w').
    { unfold since at 1. rewrite Hl2, Hl1, <- app_assoc. apply drop_app_length. }
    split; [by rewrite Hsince, app_assoc, <- Hl1|].
    rewrite Hsince. intros c id um [Hin|Hin]%elem_of_app.
    + specialize (Ht1 c id um Hin).
      destruct (map_get id (negotiationRooms w)) as [room|] eqn:Hget;
        [|by apply elem_of_nil in Ht1].
      destruct Hw as (_ & _ & _ & Hrooms).
      destruct (member_known _ c _ id room Hrooms (map_get_elem _ _ _ Hget) Ht1)
        as (uid & Huid & Hparty).
      exists uid. split; [|done]. apply user_socket.
      apply (keeps_forEach (λ w, user_of (sockets w) c = Some uid) inputs
               (step jwt_verify) (λ i _, user_step jwt_verify i c uid)).
      by apply (user_step jwt_verify i c uid w).
    + destruct (Ht2 c id um Hin) as (uid & Huid & Hparty).
      exists uid. split; [done|].
      eapply party_of_stable; [|exact Hparty]. symmetry.
      apply evolved_parties. apply (step_history jwt_verify i w).
Qed.

(** X23.  Confidentiality of a negotiation.  From the start of the server
    on, every [negotiation_update] frame is handed only to connections
    authenticated as the buyer or the seller of the negotiation it is
    about. *)
Theorem updates_reach_only_parties jwt_verify inputs w :
  started w →
  let w' := exec (run jwt_verify inputs) w in
  ∀ c id um,
    EvSend c (NegotiationUpdate id um) ∈ since w w' →
    ∃ uid n,
      ws_userId (socket_of c w') = Some uid
      ∧ select_negotiation id (negotiations w) = Some n
      ∧ (neg_buyerId n = uid ∨ neg_sellerId n = uid).
Proof.
  intros Hstart w' c id um Hin.
  destruct (run_trace jwt_verify inputs w (started_consistent w Hstart))
    as [_ Hparties].
  destruct (Hparties c id um Hin) as (uid & Huid & n & Hn & Hparty).
  by exists uid, n.
Qed.

Lemma updates_reach_only_parties_witness :
  let w := Example.database "active" in
  let chat := Some (JObj [("type", JStr "negotiation_message");
                          ("negotiationId", JStr "N1");
                          ("content", JStr "hello")]) in
  let w' := exec (run Example.jwt_verify
                    [Connection 1 (Some "token-alice");
                     Connection 2 (Some "token-bob");
                     Message 2 (Example.join "N1"); Message 1 chat]) w in
  let um := {| um_id := "0"; um_senderId := "alice-id";
               um_senderName := "alice"; um_messageType := Chat;
               um_content := "hello"; um_amount := None; um_createdAt := 0 |} in
  started w
  ∧ EvSend 2 (NegotiationUpdate "N1" um) ∈ since w w'
  ∧ ∃ uid n,
      ws_userId (socket_of 2 w') = Some uid
      ∧ select_negotiation "N1" (negotiations w) = Some n
      ∧ (neg_buyerId n = uid ∨ neg_sellerId n = uid).
Proof.
  cbv zeta.
  assert (Hstart : started (Example.database "active"))
    by exact (conj eq_refl (conj eq_refl eq_refl)).
  set (inputs := [Connection 1 (Some "token-alice");
                  Connection 2 (Some "token-bob");
                  Message 2 (Example.join "N1");
                  Message 1 (Some (JObj [("type", JStr "negotiation_message");
                                         ("negotiationId", JStr "N1");
                                         ("content", JStr "hello")]))]).
  set (um := {| um_id := "0"; um_senderId := "alice-id";
                um_senderName := "alice"; um_messageType := Chat;
                um_content := "hello"; um_amount := None; um_createdAt := 0 |}).
  assert (Hin : EvSend 2 (NegotiationUpdate "N1" um)
                ∈ since (Example.database "active")
                    (exec (run Example.jwt_verify inputs)
                       (Example.database "active"))).
  { vm_compute.
    repeat first [apply list_elem_of_here | apply list_elem_of_further]. }
  exact (conj Hstart (conj Hin
    (updates_reach_only_parties Example.jwt_verify inputs
       (Example.database "active") Hstart 2%nat "N1" um Hin))).
Defined.

(** ** Joining, leaving and status changes *)

(** X24.  A join that is refused changes nothing.  For an authenticated
    connection, [join_negotiation] with an empty id is answered "Invalid
    negotiation ID" without a read; when the read of the negotiation
    throws it is answered "Failed to join negotiation"; a negotiation that
    does not exist is answered "Negotiation not found"; and a user who is
    neither buyer nor seller is answered "Access denied to this
    negotiation".  In each case the tables, both registries and the sockets
    are as before and the error frame is the only frame sent. *)
Theorem join_refused ws uid id w :
  ws_userId (socket_of ws w) = Some uid → uid ≠ "" →
  let w' := exec (handleJoinNegotiation ws (Some id)) w in
  let answer text := [EvDb (GetNegotiation id); EvSend ws (ErrorFrame text)] in
  (id = "" →
     untouched w w' ∧ since w w' = [EvSend ws (ErrorFrame "Invalid negotiation ID")])
  ∧ (id ≠ "" → default false (head (faults w)) = true →
       untouched w w'
       ∧ since w w' = [EvDbThrew (GetNegotiation id);
                       EvSend ws (ErrorFrame "Failed to join negotiation")])
  ∧ (id ≠ "" → no_fault 1 w →
       match select_negotiation id (negotiations w) with
       | None => untouched w w' ∧ since w w' = answer "Negotiation not found"
       | Some n =>
           neg_buyerId n ≠ uid → neg_sellerId n ≠ uid →
           untouched w w'
           ∧ since w w' = answer "Access denied to this negotiation"
       end).
Proof.
  intros Huid Hne w' answer. subst w' answer. split; [|split].
  - intros ->.
    change (post (handleJoinNegotiation ws (Some "")) w (λ _ w',
      untouched w w'
      ∧ since w w' = [EvSend ws (ErrorFrame "Invalid negotiation ID")])).
    unfold handleJoinNegotiation, untouched.
    repeat (post_step; simpl). unfold since; simpl; rewrite since_app. done.
  - intros Hid Hfault.
    change (post (handleJoinNegotiation ws (Some id)) w (λ _ w',
      untouched w w'
      ∧ since w w' = [EvDbThrew (GetNegotiation id);
                      EvSend ws (ErrorFrame "Failed to join negotiation")])).
    unfold handleJoinNegotiation, untouched.
    rewrite (truthy_Some _ Hid).
    repeat (post_step; simpl; rewrite ?Huid, ?(truthy_Some _ Hne); simpl).
    all: try congruence.
    unfold since; simpl; rewrite <- ?app_assoc, since_app. done.
  - intros Hid (H0 & _).
    destruct (select_negotiation id (negotiations w)) as [n|] eqn:Hsel.
    + intros Hb Hs.
      change (post (handleJoinNegotiation ws (Some id)) w (λ _ w',
        untouched w w'
        ∧ since w w' = [EvDb (GetNegotiation id);
                        EvSend ws (ErrorFrame "Access denied to this negotiation")])).
      unfold handleJoinNegotiation, untouched.
      rewrite (truthy_Some _ Hid).
      repeat (post_step; simpl;
              rewrite ?Huid, ?Hsel, ?(truthy_Some _ Hne); simpl;
              rewrite ?(bool_decide_true (Some (neg_buyerId n) ≠ Some uid)),
                      ?(bool_decide_true (Some (neg_sellerId n) ≠ Some uid))
                by congruence; simpl).
      all: try congruence.
      unfold since; simpl; rewrite <- ?app_assoc, since_app. done.
    + change (post (handleJoinNegotiation ws (Some id)) w (λ _ w',
        untouched w w'
        ∧ since w w' = [EvDb (GetNegotiation id);
                        EvSend ws (ErrorFrame "Negotiation not found")])).
      unfold handleJoinNegotiation, untouched.
      rewrite (truthy_Some _ Hid).
      repeat (post_step; simpl;
              rewrite ?Huid, ?Hsel, ?(truthy_Some _ Hne); simpl).
      all: try congruence.
      unfold since; simpl; rewrite <- ?app_assoc, since_app. done.
Qed.

Lemma join_refused_witness :
  let w := exec (run Example.jwt_verify [Connection 3 (Some "token-carol")])
             (Example.joined "active") in
  let w' := exec (handleJoinNegotiation 3 (Some "N1")) w in
  ws_userId (socket_of 3 w) = Some "carol-id"
  ∧ no_fault 1 w
  ∧ since w w' = [EvDb (GetNegotiation "N1");
                  EvSend 3 (ErrorFrame "Access denied to this negotiation")]
  ∧ negotiationRooms w' = negotiationRooms w.
Proof.
  cbv zeta.
  set (w := exec (run Example.jwt_verify [Connection 3 (Some "token-carol")])
              (Example.joined "active")).
  assert (Huid : ws_userId (socket_of 3 w) = Some "carol-id")
    by (vm_compute; reflexivity).
  assert (Hne : "carol-id" ≠ "") by discriminate.
  assert (Hcalm : no_fault 1 w) by (vm_compute; tauto).
  assert (Hsel : select_negotiation "N1" (negotiations w)
                 = Some (Example.N1 "active")) by (vm_compute; reflexivity).
  pose proof (join_refused 3 "carol-id" "N1" w Huid Hne) as H.
  cbv zeta in H. destruct H as (_ & _ & H).
  assert (Hid : "N1" ≠ "") by discriminate.
  specialize (H Hid Hcalm). rewrite Hsel in H.
  destruct (H ltac:(vm_compute; discriminate) ltac:(vm_compute; discriminate))
    as [(_ & _ & _ & _ & Hr & _) Ht].
  exact (conj Huid (conj Hcalm (conj Ht Hr))).
Defined.

(** X25.  [leave_negotiation] makes no check of its own: whoever sends it,
    and whether or not the connection was in the room or the negotiation
    exists, the only event is one [negotiation_left] frame to the sender;
    afterwards the sender is not in that room, every other member of it is
    kept, every other room is as before, and no table and no entry of the
    user registry changes. *)
Theorem leave_always_acknowledged ws id w :
  id ≠ "" →
  let w' := exec (handleLeaveNegotiation ws (Some id)) w in
  since w w' = [EvSend ws (NegotiationLeft id (clock w))]
  ∧ (ws ∉ room_of id w')
  ∧ (∀ c, c ≠ ws → c ∈ room_of id w' ↔ c ∈ room_of id w)
  ∧ (∀ id', id' ≠ id → room_of id' w' = room_of id' w)
  ∧ negotiations w' = negotiations w
  ∧ negotiationMessages w' = negotiationMessages w
  ∧ userSockets w' = userSockets w.
Proof.
  intros Hid w'.
  assert (Hrooms := leave_rooms ws id w Hid). fold w' in Hrooms.
  assert (Hrest : since w w' = [EvSend ws (NegotiationLeft id (clock w))]
                  ∧ negotiations w' = negotiations w
                  ∧ negotiationMessages w' = negotiationMessages w
                  ∧ userSockets w' = userSockets w).
  { subst w'.
    change (post (handleLeaveNegotiation ws (Some id)) w (λ _ w',
      since w w' = [EvSend ws (NegotiationLeft id (clock w))]
      ∧ negotiations w' = negotiations w
      ∧ negotiationMessages w' = negotiationMessages w
      ∧ userSockets w' = userSockets w)).
    unfold handleLeaveNegotiation. rewrite (truthy_Some _ Hid). simpl.
    repeat (post_step; simpl).
    repeat case_match; simpl; unfold since; simpl; rewrite since_app; done. }
  destruct Hrest as (Ht & Hn & Hm & Hu).
  split; [done|]. unfold room_of. rewrite Hrooms.
  destruct (map_get id (negotiationRooms w)) as [room|] eqn:Hget; simpl.
  - destruct (decide (set_size (set_delete ws room) = 0%nat)) as [Hsize|Hsize].
    + rewrite map_get_delete_eq. simpl.
      split; [apply not_elem_of_nil|]. split; [|split; [|done]].
      * intros c Hc. split; [by intros ?%elem_of_nil|]. intros Hin.
        assert (c ∈ set_delete ws room) as Hc' by (by apply set_delete_elem).
        destruct (set_delete ws room); [by apply elem_of_nil in Hc'|done].
      * intros id' Hid'. by rewrite map_get_delete_ne.
    + rewrite map_get_set_eq. simpl.
      split; [by intros [? _]%set_delete_elem|]. split; [|split; [|done]].
      * intros c Hc. rewrite set_delete_elem. tauto.
      * intros id' Hid'. by rewrite map_get_set_ne.
  - rewrite Hget. simpl. split; [apply not_elem_of_nil|by repeat split].
Qed.

Lemma leave_always_acknowledged_witness :
  let w := Example.online "active" in
  let w' := exec (handleLeaveNegotiation 1 (Some "N9")) w in
  "N9" ≠ ""
  ∧ since w w' = [EvSend 1 (NegotiationLeft "N9" (clock w))].
Proof.
  cbv zeta.
  assert (Hid : "N9" ≠ "") by discriminate.
  pose proof (leave_always_acknowledged 1 "N9" (Example.online "active") Hid) as H.
  cbv zeta in H. destruct H as [H _].
  exact (conj Hid H).
Defined.

(** X26.  A status change by a party of a negotiation that is neither
    completed nor cancelled, when no storage call fails: the row takes the
    new status, one [status] message is appended to the log, the room is
    sent the [negotiation_update], and then every open connection of the
    buyer and of the seller is sent the [negotiation_status_update],
    whether or not it has joined the room. *)
Theorem status_change_notifies_both_parties ws uid id n status w :
  ws_userId (socket_of ws w) = Some uid →
  select_negotiation id (negotiations w) = Some n →
  ¬ terminal n →
  neg_buyerId n = uid ∨ neg_sellerId n = uid →
  no_fault 6 w →
  let w' := exec (handleNegotiationStatus ws id status) w in
  let content := "Negotiation status changed to: " +:+ status in
  let ins := {| ins_negotiationId := id; ins_senderId := uid;
                ins_messageType := Status; ins_content := Some content;
                ins_amount := None |} in
  let row := new_message (pretty (length (negotiationMessages w))) (clock w) ins in
  let name := senderName (select_user uid (users w)) in
  let notice := NegotiationStatusUpdate id status uid name (clock w) (Some content) in
  select_negotiation id (negotiations w') = Some (set_status status (clock w) n)
  ∧ negotiationMessages w' = negotiationMessages w ++ [row]
  ∧ since w w' =
      [EvDb (GetNegotiation id);
       EvDb (UpdateNegotiationStatus id status);
       EvDb (CreateMessage ins);
       EvDb (GetUser uid)]
      ++ room_sends id (NegotiationUpdate id (update_of row name content None)) w
      ++ [EvDb (GetNegotiation id); EvDb (GetUser uid)]
      ++ ((λ c, EvSend c notice)
          <$> open_in (sockets w)
                (default [] (map_get (neg_buyerId n) (userSockets w))))
      ++ ((λ c, EvSend c notice)
          <$> open_in (sockets w)
                (default [] (map_get (neg_sellerId n) (userSockets w))))
  ∧ (∀ party s c,
       party = neg_buyerId n ∨ party = neg_sellerId n →
       map_get party (userSockets w) = Some s → c ∈ s →
       ws_readyState (socket_of c w) = OPEN →
       EvSend c notice ∈ since w w').
Proof.
  intros Huid Hsel Hnt Hparty (H0 & H1 & H2 & H3 & H4 & H5 & _)
    w' content ins row name notice.
  assert (Hpass : bool_decide (neg_buyerId n ≠ uid)
                  && bool_decide (neg_sellerId n ≠ uid) = false).
  { destruct Hparty as [Hb | Hs].
    - by rewrite (bool_decide_false (neg_buyerId n ≠ uid))
        by (intros H; by apply H).
    - rewrite (bool_decide_false (neg_sellerId n ≠ uid))
        by (intros H; by apply H).
      apply andb_false_r. }
  assert (Hrun : select_negotiation id (negotiations w')
                 = Some (set_status status (clock w) n)
    ∧ negotiationMessages w' = negotiationMessages w ++ [row]
    ∧ since w w' =
        [EvDb (GetNegotiation id);
         EvDb (UpdateNegotiationStatus id status);
         EvDb (CreateMessage ins);
         EvDb (GetUser uid)]
        ++ room_sends id (NegotiationUpdate id (update_of row name content None)) w
        ++ [EvDb (GetNegotiation id); EvDb (GetUser uid)]
        ++ ((λ c, EvSend c notice)
            <$> open_in (sockets w)
                  (default [] (map_get (neg_buyerId n) (userSockets w))))
        ++ ((λ c, EvSend c notice)
            <$> open_in (sockets w)
                  (default [] (map_get (neg_sellerId n) (userSockets w))))).
  { subst w'.
    change (post (handleNegotiationStatus ws id status) w (λ _ w',
      select_negotiation id (negotiations w')
        = Some (set_status status (clock w) n)
      ∧ negotiationMessages w' = negotiationMessages w ++ [row]
      ∧ since w w' =
          [EvDb (GetNegotiation id);
           EvDb (UpdateNegotiationStatus id status);
           EvDb (CreateMessage ins);
           EvDb (GetUser uid)]
          ++ room_sends id (NegotiationUpdate id (update_of row name content None)) w
          ++ [EvDb (GetNegotiation id); EvDb (GetUser uid)]
          ++ ((λ c, EvSend c notice)
              <$> open_in (sockets w)
                    (default [] (map_get (neg_buyerId n) (userSockets w))))
          ++ ((λ c, EvSend c notice)
              <$> open_in (sockets w)
                    (default [] (map_get (neg_sellerId n) (userSockets w)))))).
    unfold handleNegotiationStatus.
    repeat (post_step; simpl;
            rewrite ?Huid, ?Hsel, ?(nonterminal_test_inv _ Hnt), ?Hpass; simpl;
            rewrite ?select_update_where, ?Hsel by done; simpl).
    all: try congruence.
    unfold since; simpl; rewrite <- ?app_assoc, since_app. done. }
  destruct Hrun as (Hrow & Hlog & Htrace).
  split; [done|]. split; [done|]. split; [done|].
  intros party s c Hp Hget Hc Hopen. rewrite Htrace.
  assert (c ∈ open_in (sockets w) (default [] (map_get party (userSockets w))))
    as Hin by (rewrite Hget; by apply list_elem_of_filter).
  rewrite !elem_of_app. right. right.
  destruct Hp as [->| ->]; [right; left|right; right].
  all: by apply (list_elem_of_fmap_2 (λ c, EvSend c notice)).
Qed.

Lemma status_change_notifies_both_parties_witness :
  let w := Example.online "active" in
  let w' := exec (handleNegotiationStatus 1 "N1" "cancelled") w in
  ws_userId (socket_of 1 w) = Some "alice-id"
  ∧ select_negotiation "N1" (negotiations w) = Some (Example.N1 "active")
  ∧ no_fault 6 w
  ∧ room_of "N1" w = []
  ∧ EvSend 2
      (NegotiationStatusUpdate "N1" "cancelled" "alice-id" "alice" 0
         (Some "Negotiation status changed to: cancelled"))
    ∈ since w w'.
Proof.
  cbv zeta.
  assert (Huid : ws_userId (socket_of 1 (Example.online "active")) = Some "alice-id")
    by (vm_compute; reflexivity).
  assert (Hsel : select_negotiation "N1" (negotiations (Example.online "active"))
                 = Some (Example.N1 "active")) by (vm_compute; reflexivity).
  assert (Hnt : ¬ terminal (Example.N1 "active"))
    by (intros [H | H]; discriminate H).
  assert (Hcalm : no_fault 6 (Example.online "active")) by (vm_compute; tauto).
  assert (Hroom : room_of "N1" (Example.online "active") = [])
    by (vm_compute; reflexivity).
  assert (Hget : map_get "bob-id" (userSockets (Example.online "active"))
                 = Some [2%nat]) by (vm_compute; reflexivity).
  assert (Hopen : ws_readyState (socket_of 2 (Example.online "active")) = OPEN)
    by (vm_compute; reflexivity).
  assert (Hname : senderName (select_user "alice-id"
                                (users (Example.online "active"))) = "alice")
    by (vm_compute; reflexivity).
  assert (Hclock : clock (Example.online "active") = 0%nat)
    by (vm_compute; reflexivity).
  pose proof (status_change_notifies_both_parties 1 "alice-id" "N1"
    (Example.N1 "active") "cancelled" (Example.online "active")
    Huid Hsel Hnt (or_introl eq_refl) Hcalm) as H.
  cbv zeta in H. destruct H as (_ & _ & _ & H).
  specialize (H "bob-id" [2%nat] 2%nat (or_intror eq_refl) Hget
                (list_elem_of_here 2%nat []) Hopen).
  rewrite Hname, Hclock in H.
  exact (conj Huid (conj Hsel (conj Hcalm (conj Hroom H)))).
Defined.

(** ** An accepted connection *)

Lemma closed_sends {A} (f : A → Frame) (g : A → ConnId) l :
  closed ((λ a, EvSend (g a) (f a)) <$> l) = [].
Proof. induction l; [done|]. simpl. apply IHl. Qed.

Lemma last_cons_snoc {A} (a : A) l x : last (a :: l ++ [x]) = Some x.
Proof. by rewrite app_comm_cons, last_snoc. Qed.

(** X27.  A handshake that succeeds.  For a new connection whose token
    verifies to a non-empty user id, the connection is added to the user's
    set in the registry, the socket is authenticated, open and listening,
    no room changes, nothing is closed, and the last frame is
    [connection_confirmed] to the connection itself.  A failure of the
    write of the online status is swallowed: then the only events are the
    failed call and the confirmation, and the user rows are unchanged;
    without a failure the user's row is marked online. *)
Theorem connection_accepted jwt_verify ws token decoded uid w :
  sockets w !! ws = None →
  token ≠ "" →
  jwt_verify token = Some decoded →
  tok_userId decoded = Some uid →
  uid ≠ "" →
  let w' := exec (step jwt_verify (Connection ws (Some token))) w in
  let confirmed := EvSend ws (ConnectionConfirmed uid (tok_username decoded) (clock w)) in
  userSockets w' = joined_rooms ws uid (userSockets w)
  ∧ sockets w' = <[ws := {| ws_userId := Some uid; ws_isAuthenticated := true;
                            ws_readyState := OPEN; ws_listening := true |}]>
                   (sockets w)
  ∧ negotiationRooms w' = negotiationRooms w
  ∧ last (since w w') = Some confirmed
  ∧ closed (since w w') = []
  ∧ (default false (head (faults w)) = true →
       since w w' = [EvDbThrew (UpdateUserOnlineStatus uid true); confirmed]
       ∧ users w' = users w)
  ∧ (default false (head (faults w)) = false →
       select_user uid (users w')
       = set_online true (clock w) <$> select_user uid (users w)).
Proof.
  intros Hfresh Htoken Hjwt Hd Huid w' confirmed. subst w' confirmed.
  change (post (step jwt_verify (Connection ws (Some token))) w (λ _ w',
    userSockets w' = joined_rooms ws uid (userSockets w)
    ∧ sockets w' = <[ws := {| ws_userId := Some uid; ws_isAuthenticated := true;
                              ws_readyState := OPEN; ws_listening := true |}]>
                     (sockets w)
    ∧ negotiationRooms w' = negotiationRooms w
    ∧ last (since w w')
      = Some (EvSend ws (ConnectionConfirmed uid (tok_username decoded) (clock w)))
    ∧ closed (since w w') = []
    ∧ (default false (head (faults w)) = true →
         since w w' = [EvDbThrew (UpdateUserOnlineStatus uid true);
                       EvSend ws (ConnectionConfirmed uid (tok_username decoded)
                                    (clock w))]
         ∧ users w' = users w)
    ∧ (default false (head (faults w)) = false →
         select_user uid (users w')
         = set_online true (clock w) <$> select_user uid (users w)))).
  unfold step, on_connection, verifyClient.
  post_step. post_step. simpl. rewrite Hfresh.
  rewrite bool_decide_false by (by intros [? ?]).
  rewrite (bool_decide_false (token = "")) by done. simpl.
  repeat (post_step; simpl; rewrite ?Hjwt, ?Hd; simpl;
          rewrite ?(bool_decide_false (uid = "")) by done; simpl).
  all: try congruence.
  all: unfold joined_rooms.
  all: destruct (map_has uid (userSockets w)); simpl.
  all: unfold socket_of; simpl; rewrite ?lookup_insert_eq; simpl.
  all: rewrite ?insert_insert_eq.
  all: unfold since, presence_sends; simpl.
  all: rewrite <- ?app_assoc, since_app.
  all: rewrite ?closed_app; simpl.
  all: split; [done|]; split; [done|]; split; [done|].
  all: rewrite ?last_cons_snoc.
  all: rewrite ?(closed_sends (λ _, PresenceUpdate uid (tok_username decoded) true (clock w)) (λ c, c)).
  all: match goal with H : default false (head (faults _)) = ?b |- _ =>
         change (default false (head (faults w)) = b) in H end.
  all: split; [done|]; split; [done|].
  all: split; intros Hf; rewrite Hf in *; try discriminate.
  all: try done.
  all: try (by rewrite select_user_update).
Qed.

Lemma connection_accepted_witness :
  let w := Example.database "active" in
  let w' := exec (step Example.jwt_verify (Connection 1 (Some "token-alice"))) w in
  sockets w !! 1%nat = None
  ∧ Example.jwt_verify "token-alice"
    = Some {| tok_userId := Some "alice-id"; tok_username := Some "alice" |}
  ∧ userSockets w' = joined_rooms 1 "alice-id" (userSockets w)
  ∧ last (since w w')
    = Some (EvSend 1 (ConnectionConfirmed "alice-id" (Some "alice") (clock w))).
Proof.
  cbv zeta.
  assert (Hfresh : sockets (Example.database "active") !! 1%nat = None)
    by (vm_compute; reflexivity).
  assert (Hjwt : Example.jwt_verify "token-alice"
                 = Some {| tok_userId := Some "alice-id";
                           tok_username := Some "alice" |})
    by (vm_compute; reflexivity).
  assert (Htoken : "token-alice" ≠ "") by (intros H; discriminate H).
  assert (Huid : "alice-id" ≠ "") by (intros H; discriminate H).
  pose proof (connection_accepted Example.jwt_verify 1 "token-alice" _ "alice-id"
    (Example.database "active") Hfresh Htoken Hjwt eq_refl Huid) as H.
  cbv zeta in H. destruct H as (Hu & _ & _ & Hlast & _).
  exact (conj Hfresh (conj Hjwt (conj Hu Hlast))).
Defined.

(** ** What the client reads of the server's frames *)

Lemma z_status_in k o s :
  z_string k o = Some s → s ∈ ["active"; "completed"; "cancelled"] →
  z_status k o = Some s.
Proof.
  intros Hk Hs. unfold z_status. rewrite Hk. by rewrite bool_decide_true.
Qed.

Lemma z_status_out k o s :
  z_string k o = Some s → s ∉ ["active"; "completed"; "cancelled"] →
  z_status k o = None.
Proof.
  intros Hk Hs. unfold z_status. rewrite Hk. by rewrite bool_decide_false.
Qed.

Lemma messageType_read m o :
  field "messageType" o = Some (JStr (Broadcast.messageType_name m)) →
  Broadcast.z_messageType "messageType" o = Some m.
Proof.
  intros Hf. unfold Broadcast.z_messageType, z_string. rewrite Hf.
  by destruct m.
Qed.

Lemma read_update toISOString id um :
  Broadcast.wsBroadcastSchema_parse
    (Broadcast.stringify toISOString (NegotiationUpdate id um))
  = Some (Broadcast.negotiation_update id
            {| Broadcast.bm_id := um_id um;
               Broadcast.bm_senderId := um_senderId um;
               Broadcast.bm_senderName := um_senderName um;
               Broadcast.bm_messageType := um_messageType um;
               Broadcast.bm_content := Some (um_content um);
               Broadcast.bm_amount := um_amount um;
               Broadcast.bm_createdAt := toISOString (um_createdAt um) |}).
Proof.
  unfold Broadcast.stringify, Broadcast.wsBroadcastSchema_parse.
  destruct um as [mid sid sname mt content [amount|] created]; simpl.
  - by rewrite (messageType_read mt).
  - by rewrite (messageType_read mt).
Qed.

Lemma read_status toISOString id status changedBy changedByName timestamp context :
  Broadcast.wsBroadcastSchema_parse
    (Broadcast.stringify toISOString
       (NegotiationStatusUpdate id status changedBy changedByName timestamp
          context))
  = if bool_decide (status ∈ ["active"; "completed"; "cancelled"])
    then Some (Broadcast.negotiation_status_update id status changedBy
                 changedByName (toISOString timestamp) context)
    else None.
Proof.
  unfold Broadcast.stringify, Broadcast.wsBroadcastSchema_parse. simpl.
  case_bool_decide as Hs.
  - rewrite (z_status_in _ _ status) by done. by destruct context.
  - by rewrite (z_status_out _ _ status).
Qed.

Lemma step_status_frames jwt_verify i w :
  let w' := exec (step jwt_verify i) w in
  ∀ c id s changedBy name ts ctx,
    EvSend c (NegotiationStatusUpdate id s changedBy name ts ctx) ∈ since w w' →
    s ∈ ["active"; "completed"; "cancelled"].
Proof.
  intros w'. subst w'.
  change (post (step jwt_verify i) w (λ _ w',
    ∀ c id s changedBy name ts ctx,
      EvSend c (NegotiationStatusUpdate id s changedBy name ts ctx) ∈ since w w' →
      s ∈ ["active"; "completed"; "cancelled"])).
  destruct i as [c0 token|c0 data|c0|c0|t]; unfold step.
  all: repeat (post_step; simpl).
  all: repeat match goal with
       | |- context [if map_has ?k ?m then _ else _] =>
           destruct (map_has k m); simpl
       | |- context [match map_get ?k ?m with _ => _ end] =>
           destruct (map_get k m) eqn:?; simpl
       | |- context [if decide ?P then _ else _] => destruct (decide P); simpl
       end.
  all: unfold presence_sends, since; simpl.
  all: rewrite <- ?app_assoc, ?since_app, ?drop_all, ?app_nil_r; simpl.
  all: intros c' id' s' changedBy name ts ctx Hin; in_trace Hin; simplify_eq.
  all: try done.
  all: match goal with
       | H : wsMessageSchema_parse _ = Some _ |- _ =>
           exact (parse_within_schema _ _ H)
       end.
Qed.

(** Over a whole run. *)
Lemma run_status_frames jwt_verify inputs w :
  let w' := exec (run jwt_verify inputs) w in
  log w' = log w ++ since w w'
  ∧ ∀ c id s changedBy name ts ctx,
      EvSend c (NegotiationStatusUpdate id s changedBy name ts ctx) ∈ since w w' →
      s ∈ ["active"; "completed"; "cancelled"].
Proof.
  revert w. induction inputs as [|i inputs IH]; intros w.
  - cbv zeta. unfold since, run, exec. simpl. rewrite drop_all, app_nil_r.
    split; [done|]. by intros c id s changedBy name ts ctx Hin%elem_of_nil.
  - cbv zeta. rewrite run_cons.
    set (w1 := exec (step jwt_verify i) w).
    set (w' := exec (run jwt_verify inputs) w1).
    destruct (step_trace jwt_verify i w) as [Hl1 _]. fold w1 in Hl1.
    pose proof (step_status_frames jwt_verify i w) as Ht1. fold w1 in Ht1.
    destruct (IH w1) as [Hl2 Ht2]. fold w' in Hl2, Ht2.
    assert (Hsince : since w w' = since w w1 ++ since w1 w').
    { unfold since at 1. rewrite Hl2, Hl1, <- app_assoc. apply drop_app_length. }
    split; [by rewrite Hsince, app_assoc, <- Hl1|].
    rewrite Hsince. intros c id s changedBy name ts ctx [Hin|Hin]%elem_of_app.
    + by eapply Ht1.
    + by eapply Ht2.
Qed.

(** X28.  What the client's [handleMessage] makes of the server's
    broadcasts.  A [negotiation_update], a [presence_update] that carries a
    username, a [negotiation_status_update] whose status is one of
    active, completed, cancelled, and an [error] frame each pass
    [wsBroadcastSchema] with the fields the server wrote, and every
    registered handler is called once with the parsed message. *)
Theorem broadcasts_reach_every_handler toISOString {H} (messageHandlers : list H) :
  (∀ id um,
     Broadcast.handleMessage messageHandlers
       (Some (Broadcast.stringify toISOString (NegotiationUpdate id um)))
     = (λ handler,
          (handler,
           Broadcast.negotiation_update id
             {| Broadcast.bm_id := um_id um;
                Broadcast.bm_senderId := um_senderId um;
                Broadcast.bm_senderName := um_senderName um;
                Broadcast.bm_messageType := um_messageType um;
                Broadcast.bm_content := Some (um_content um);
                Broadcast.bm_amount := um_amount um;
                Broadcast.bm_createdAt := toISOString (um_createdAt um) |}))
       <$> messageHandlers)
  ∧ (∀ userId username isOnline lastSeen,
       Broadcast.handleMessage messageHandlers
         (Some (Broadcast.stringify toISOString
                  (PresenceUpdate userId (Some username) isOnline lastSeen)))
       = (λ handler,
            (handler,
             Broadcast.presence_update userId username isOnline
               (toISOString lastSeen)))
         <$> messageHandlers)
  ∧ (∀ id status changedBy changedByName timestamp context,
       status ∈ ["active"; "completed"; "cancelled"] →
       Broadcast.handleMessage messageHandlers
         (Some (Broadcast.stringify toISOString
                  (NegotiationStatusUpdate id status changedBy changedByName
                     timestamp context)))
       = (λ handler,
            (handler,
             Broadcast.negotiation_status_update id status changedBy
               changedByName (toISOString timestamp) context))
         <$> messageHandlers)
  ∧ (∀ message,
       Broadcast.handleMessage messageHandlers
         (Some (Broadcast.stringify toISOString (ErrorFrame message)))
       = (λ handler, (handler, Broadcast.error message None None))
         <$> messageHandlers).
Proof.
  split; [|split; [|split]].
  - intros id um. unfold Broadcast.handleMessage. by rewrite read_update.
  - done.
  - intros id status changedBy changedByName timestamp context Hs.
    unfold Broadcast.handleMessage.
    by rewrite read_status, bool_decide_true.
  - done.
Qed.

Lemma broadcasts_reach_every_handler_witness :
  "cancelled" ∈ ["active"; "completed"; "cancelled"]
  ∧ Broadcast.handleMessage ["toast"; "chat"]
      (Some (Broadcast.stringify pretty
               (NegotiationStatusUpdate "N1" "cancelled" "alice-id" "alice" 0
                  None)))
    = [("toast",
        Broadcast.negotiation_status_update "N1" "cancelled" "alice-id"
          "alice" "0" None);
       ("chat",
        Broadcast.negotiation_status_update "N1" "cancelled" "alice-id"
          "alice" "0" None)].
Proof.
  assert (Hs : "cancelled" ∈ ["active"; "completed"; "cancelled"])
    by (apply list_elem_of_further, list_elem_of_further, list_elem_of_here).
  split; [exact Hs|].
  exact (proj1 (proj2 (proj2 (broadcasts_reach_every_handler pretty
                                ["toast"; "chat"])))
           "N1" "cancelled" "alice-id" "alice" 0%nat None Hs).
Defined.

(** X29.  Frames the client's [handleMessage] hands to no handler: the
    acknowledgements [connection_confirmed], [negotiation_joined],
    [negotiation_left], [presence_updated] and [presence_data], whose
    [type] is none of the literals of [wsBroadcastSchema]; a
    [presence_update] without a username; a [negotiation_status_update]
    whose status is outside active, completed, cancelled; and a text frame
    that is not JSON. *)
Theorem acknowledgements_reach_no_handler toISOString {H} (messageHandlers : list H) :
  (∀ f, Broadcast.acknowledgement f = true →
     Broadcast.handleMessage messageHandlers
       (Some (Broadcast.stringify toISOString f)) = [])
  ∧ (∀ userId isOnline lastSeen,
       Broadcast.handleMessage messageHandlers
         (Some (Broadcast.stringify toISOString
                  (PresenceUpdate userId None isOnline lastSeen))) = [])
  ∧ (∀ id status changedBy changedByName timestamp context,
       status ∉ ["active"; "completed"; "cancelled"] →
       Broadcast.handleMessage messageHandlers
         (Some (Broadcast.stringify toISOString
                  (NegotiationStatusUpdate id status changedBy changedByName
                     timestamp context))) = [])
  ∧ Broadcast.handleMessage messageHandlers None = [].
Proof.
  split; [|split; [|split]].
  - intros f Hf. by destruct f.
  - done.
  - intros id status changedBy changedByName timestamp context Hs.
    unfold Broadcast.handleMessage.
    by rewrite read_status, bool_decide_false.
  - done.
Qed.

Lemma acknowledgements_reach_no_handler_witness :
  Broadcast.acknowledgement (ConnectionConfirmed "alice-id" (Some "alice") 0)
  = true
  ∧ Broadcast.handleMessage ["toast"; "chat"]
      (Some (Broadcast.stringify pretty
               (ConnectionConfirmed "alice-id" (Some "alice") 0))) = [].
Proof.
  split; [reflexivity|].
  exact (proj1 (acknowledgements_reach_no_handler pretty ["toast"; "chat"])
           (ConnectionConfirmed "alice-id" (Some "alice") 0) eq_refl).
Defined.

(** X30.  Server and client together.  Whatever the inputs, every frame
    the server sends that is not an acknowledgement, and is not a
    [presence_update] of a user whose token names no username, passes the
    client's [wsBroadcastSchema] and is handed to every registered handler:
    in particular every [negotiation_status_update] the server sends
    carries a status within active, completed, cancelled. *)
Theorem sent_frames_reach_handlers toISOString {H} (messageHandlers : list H)
    jwt_verify inputs w :
  let w' := exec (run jwt_verify inputs) w in
  ∀ c f,
    EvSend c f ∈ since w w' →
    Broadcast.acknowledgement f = false →
    (∀ userId isOnline lastSeen,
       f ≠ PresenceUpdate userId None isOnline lastSeen) →
    ∃ message,
      Broadcast.handleMessage messageHandlers
        (Some (Broadcast.stringify toISOString f))
      = (λ handler, (handler, message)) <$> messageHandlers.
Proof.
  intros w' c f Hin Hack Hnamed.
  destruct (run_status_frames jwt_verify inputs w) as [_ Hstatus].
  fold w' in Hstatus.
  destruct f as [| message | | | id um | userId [username|] isOnline lastSeen
                 | | | id status changedBy changedByName timestamp context];
    try discriminate Hack.
  - by eexists.
  - eexists. unfold Broadcast.handleMessage. by rewrite read_update.
  - by eexists.
  - by destruct (Hnamed userId isOnline lastSeen).
  - eexists. unfold Broadcast.handleMessage.
    rewrite read_status, bool_decide_true; [done|].
    by eapply Hstatus.
Qed.

Lemma sent_frames_reach_handlers_witness :
  let w := Example.database "active" in
  let inputs := [Connection 1 (Some "token-alice");
                 Connection 2 (Some "token-bob");
                 Message 1 (Some (JObj [("type", JStr "negotiation_status");
                                        ("negotiationId", JStr "N1");
                                        ("status", JStr "cancelled")]))] in
  let w' := exec (run Example.jwt_verify inputs) w in
  let f := NegotiationStatusUpdate "N1" "cancelled" "alice-id" "alice" 0
             (Some "Negotiation status changed to: cancelled") in
  EvSend 2 f ∈ since w w'
  ∧ Broadcast.acknowledgement f = false
  ∧ ∃ message,
      Broadcast.handleMessage ["toast"; "chat"]
        (Some (Broadcast.stringify pretty f))
      = (λ handler, (handler, message)) <$> ["toast"; "chat"].
Proof.
  cbv zeta.
  set (inputs := [Connection 1 (Some "token-alice");
                  Connection 2 (Some "token-bob");
                  Message 1 (Some (JObj [("type", JStr "negotiation_status");
                                         ("negotiationId", JStr "N1");
                                         ("status", JStr "cancelled")]))]).
  set (f := NegotiationStatusUpdate "N1" "cancelled" "alice-id" "alice" 0
              (Some "Negotiation status changed to: cancelled")).
  assert (Hin : EvSend 2 f
                ∈ since (Example.database "active")
                    (exec (run Example.jwt_verify inputs)
                       (Example.database "active"))).
  { vm_compute.
    repeat first [apply list_elem_of_here | apply list_elem_of_further]. }
  assert (Hnamed : ∀ userId isOnline lastSeen,
            f ≠ PresenceUpdate userId None isOnline lastSeen)
    by (intros userId isOnline lastSeen Heq; discriminate Heq).
  exact (conj Hin (conj eq_refl
    (sent_frames_reach_handlers pretty ["toast"; "chat"] Example.jwt_verify
       inputs (Example.database "active") 2%nat f Hin eq_refl Hnamed))).
Defined.
